(** * Session bootstrap of the Impact client ([src/api.ts])

    A shallow embedding of the [Api] class: its constructor and factories,
    the transport configuration ([configureAxios], [ensureAxiosConfig]), the
    session bootstrap ([ensureJhUserPath], [ensureImpactToken]), the cookie
    helpers ([getCookieValue], [getValueFromJarCookies]), the error
    classifier ([toApiError]) and the domain operations.

    The client is stateful and talks to the network.  Its fields are a
    record, the cookie jars live in a store addressed by location (the axios
    instance and [axiosConfig] share one jar object), every request that
    leaves the client is appended to a log, and the answers of the outside
    world (transport, cookie library, document cookies, runtime kind) are
    the fields of a [World]. *)

From Stdlib Require Import ZArith Ascii.
From stdpp Require Import base option strings list gmap.

Set Warnings "-register-all".

Local Open Scope Z_scope.
Local Open Scope nat_scope.

(** ** JavaScript strings *)

Module Js.

(** [a.startsWith(p)] read from the front of [s]. *)
Fixpoint starts_with (p s : string) : bool :=
  match p, s with
  | EmptyString, _ => true
  | String _ _, EmptyString => false
  | String a p', String b s' => if decide (a = b) then starts_with p' s' else false
  end.

(** [s.endsWith(p)]. *)
Definition ends_with (p s : string) : bool :=
  starts_with (String.rev p) (String.rev s).

(** The parts of [s.split(sep)] for a non-empty [sep], when the scan is
    [skip] characters inside a separator it has just matched.  The head of
    the result is the part the scan is currently in. *)
Fixpoint split_from (sep : string) (skip : nat) (s : string) : list string :=
  match s with
  | EmptyString => [EmptyString]
  | String c s' =>
      match skip with
      | S k => split_from sep k s'
      | O =>
          if starts_with sep s
          then EmptyString :: split_from sep (String.length sep - 1) s'
          else match split_from sep 0 s' with
               | p :: ps => String c p :: ps
               | [] => [String c EmptyString]
               end
      end
  end.

(** [s.split(sep)]: an empty separator cuts between all characters. *)
Definition split (sep s : string) : list string :=
  match sep with
  | EmptyString => (fun c => String c EmptyString) <$> String.list_ascii_of_string s
  | String _ _ => split_from sep 0 s
  end.

(** Truthiness of a [string | undefined]. *)
Definition truthy (v : option string) : bool :=
  match v with
  | Some (String _ _) => true
  | _ => false
  end.

(** A [string | undefined] inside a template literal. *)
Definition tmpl (v : option string) : string := default "undefined" v.

(** Number of positions of [s] at which [p] starts. *)
Fixpoint occurrences (p s : string) : nat :=
  match s with
  | EmptyString => 0
  | String _ s' => (if starts_with p s then 1 else 0) + occurrences p s'
  end.

(** The first [k] characters of [s] are all different from [c]. *)
Fixpoint clear_of (c : ascii) (k : nat) (s : string) : Prop :=
  match k, s with
  | S k', String a s' => a ≠ c ∧ clear_of c k' s'
  | _, _ => True
  end.

(** [c] does not occur in [r]. *)
Fixpoint absent (c : ascii) (r : string) : Prop :=
  match r with
  | EmptyString => True
  | String a r' => a ≠ c ∧ absent c r'
  end.

(** [s] without its first [k] characters. *)
Fixpoint drop_chars (k : nat) (s : string) : string :=
  match k, s with
  | S k', String _ s' => drop_chars k' s'
  | _, _ => s
  end.

End Js.

(** ** Cookie helpers *)

(** [getCookieValue], with [document.cookie] passed in. *)
Definition getCookieValue (document_cookie key : string) : option string :=
  let parts := Js.split ("; " +:+ key +:+ "=") ("; " +:+ document_cookie) in
  if decide (length parts = 2)
  then last parts ≫= fun tail => head (Js.split ";" tail)
  else None.

(** ** Errors *)

(** Modelled from the spec: the module [./api-error] (the error codes
    [MissingAccessTokenCookie], [MissingJupyterHubToken], [ServerNotStarted],
    [JhTokenError], [UnknownApiError] and the class [ApiError]) is not part
    of the sources at hand.  The spec gives a closed set of kinds, each with
    a stable code and an optional transport status; a code read from a
    structured error body of the service is kept as [ServiceCode]. *)
Inductive ErrorCode :=
  | MissingAccessTokenCookie
  | MissingJupyterHubToken
  | ServerNotStarted
  | JhTokenError
  | UnknownApiError
  | ServiceCode (code : string).

Record ApiError := {
  errorCode : ErrorCode;
  httpCode : option Z;
  message : string;
}.

(** A cookie as the jar hands it out ([tough-cookie]'s [Cookie]). *)
Record Cookie := {
  key : string;
  value : string;
  domain : string;
  path : string;
}.

(** The [error] member of a structured error body. *)
Record ErrorBody := {
  code : option string;
  error_message : option string;
}.

(** [e.response] of an [AxiosError]: the status line, the [error] member of
    the body when there is one, and the cookies the response sets. *)
Record ErrorResponse := {
  err_status : Z;
  err_error : option ErrorBody;
  err_cookies : list Cookie;
}.

(** An [AxiosError]; [response] is absent when no answer arrived. *)
Record AxiosError := {
  response : option ErrorResponse;
}.

(** What a rejected promise or a [throw] carries. *)
Inductive Thrown :=
  | ThrownApi (e : ApiError)
  | ThrownAxios (e : AxiosError)
  | ThrownOther (what : string).

(** [toApiError]. *)
Definition toApiError (e : Thrown) : Thrown :=
  match e with
  | ThrownAxios a =>
      let error := response a ≫= err_error in
      ThrownApi {|
        errorCode :=
          match error ≫= code with
          | Some (String c s) => ServiceCode (String c s)
          | _ => UnknownApiError
          end;
        httpCode := err_status <$> response a;
        message :=
          match error ≫= error_message with
          | Some (String c s) => String c s
          | _ => "Api Error"
          end;
      |}
  | _ => e
  end.

(** [getValueFromJarCookies]. *)
Definition getValueFromJarCookies (k : string) (cookies : list Cookie)
  : Thrown + string :=
  match find (fun c => bool_decide (key c = k)) cookies with
  | None =>
      inl (ThrownApi {|
        errorCode := MissingAccessTokenCookie;
        httpCode := None;
        message := "Access token cookie not found";
      |})
  | Some cookie => inr (value cookie)
  end.

(** ** Requests and responses *)

Inductive Method := GET | POST | DELETE.

(** Request bodies, as the object literals of the source. *)
Inductive Json :=
  | JUndefined
  | JBool (b : bool)
  | JString (s : string)
  | JArray (items : list Json)
  | JObject (members : list (string * Json)).

Definition JOptString (v : option string) : Json :=
  match v with
  | Some s => JString s
  | None => JUndefined
  end.

Record Request := {
  method : Method;
  url : string;
  body : option Json;
  headers : gmap string string;
}.

(** A body of a successful answer that is not [null] or [undefined], as far
    as the code looks into it: the [server] member the gateway lookup reads
    (at the level of the TypeScript types: absent, or a string, as the field
    it is assigned to), whether there is a [data] member to read [items]
    from (one that is neither [undefined] nor [null]), and the rest of the
    document, which only travels as the payload of a domain operation. *)
Record Data := {
  server : option string;
  has_data : bool;
  document : string;
}.

(** [response.data] is [None] when the body is [null] or [undefined]. *)
Record AxiosResponse := {
  status : Z;
  data : option Data;
  set_cookies : list Cookie;
}.

(** The [TypeError] of reading a member of [undefined] or [null]. *)
Definition type_error : Thrown := ThrownOther "TypeError".

(** The members of a body: reading one, or destructuring the body, throws
    when the body is [null] or [undefined]. *)
Definition members (b : option Data) : Thrown + Data :=
  match b with
  | Some d => inr d
  | None => inl type_error
  end.

(** The place in [api.ts] a request is issued from. *)
Inductive Site :=
  | GatewayLookup     (* the [get] of [ensureJhUserPath] *)
  | LoginExchange     (* the [post] of [ensureImpactToken] *)
  | DomainRequest.    (* the request of a domain operation *)

#[global] Instance Site_eq_dec : EqDecision Site.
Proof. solve_decision. Defined.

Record Sent := {
  site : Site;
  request : Request;
}.

(** ** The outside world *)

(** Everything the client observes but does not decide.  The transport and
    the document cookies may depend on all requests sent so far.
    [jar_setCookies] and [jar_getCookies] are [tough-cookie]'s: what a jar
    holds after a response from a URL set some cookies, and which of its
    cookies it hands out for a URL. *)
Record World := {
  isNode : bool;
  transport : list Sent → Request → AxiosError + AxiosResponse;
  document_cookie : list Sent → string;
  jar_setCookies : list Cookie → string → list Cookie → list Cookie;
  jar_getCookies : list Cookie → string → list Cookie;
}.

(** ** The client *)

Record AxiosConfig := {
  cfg_headers : gmap string string;
  jar : option nat;     (* the location of the bound [CookieJar] *)
}.

(** An axios instance: the configuration [Axios.create] received, and
    whether [AxiosCookieSupport.wrapper] was applied to it. *)
Record AxiosInstance := {
  defaults : AxiosConfig;
  cookie_support : bool;
}.

Record Api := {
  axios : AxiosInstance;
  axiosConfig : AxiosConfig;
  baseUrl : string;
  impactApiKey : option string;
  impactToken : option string;
  jhToken : string;
  jhUserPath : option string;
}.

(** The client together with the jar store and the log of sent requests
    (oldest first). *)
Record Machine := {
  api : Api;
  jars : list (list Cookie);
  log : list Sent;
}.

Definition with_api (f : Api → Api) (m : Machine) : Machine :=
  {| api := f (api m); jars := jars m; log := log m |}.

Definition set_transport (c : AxiosConfig) (i : AxiosInstance) (a : Api) : Api :=
  {| axios := i; axiosConfig := c; baseUrl := baseUrl a;
     impactApiKey := impactApiKey a; impactToken := impactToken a;
     jhToken := jhToken a; jhUserPath := jhUserPath a |}.

Definition set_impactToken (t : option string) (a : Api) : Api :=
  {| axios := axios a; axiosConfig := axiosConfig a; baseUrl := baseUrl a;
     impactApiKey := impactApiKey a; impactToken := t;
     jhToken := jhToken a; jhUserPath := jhUserPath a |}.

Definition set_jhUserPath (p : option string) (a : Api) : Api :=
  {| axios := axios a; axiosConfig := axiosConfig a; baseUrl := baseUrl a;
     impactApiKey := impactApiKey a; impactToken := impactToken a;
     jhToken := jhToken a; jhUserPath := p |}.

(** The header object both [configureAxios] and [ensureAxiosConfig] build. *)
Definition auth_headers (jh : string) (token : option string)
  : gmap string string :=
  let headers : gmap string string := {[ "Authorization" := "token " +:+ jh ]} in
  if Js.truthy token
  then <[ "Impact-Authorization" := "Bearer " +:+ Js.tmpl token ]> headers
  else headers.

(** [Axios.create]. *)
Definition Axios_create (c : AxiosConfig) : AxiosInstance :=
  {| defaults := c; cookie_support := false |}.

(** [AxiosCookieSupport.wrapper]. *)
Definition wrapper (i : AxiosInstance) : AxiosInstance :=
  {| defaults := defaults i; cookie_support := true |}.

(** [configureAxios]. *)
Definition configureAxios (a : Api) : Api :=
  let headers := auth_headers (jhToken a) (impactToken a) in
  let c := {| cfg_headers := headers; jar := None |} in
  set_transport c (Axios_create c) a.

(** Arguments of the constructor; the TypeScript type asks for a
    [jupyterHubToken], the check in the body is for callers that pass
    none all the same. *)
Record ApiArgs := {
  arg_impactApiKey : option string;
  arg_impactToken : option string;
  arg_jupyterHubToken : option string;
  arg_serverAddress : string;
  arg_jupyterHubUserPath : option string;
}.

(** The constructor of [Api]. *)
Definition new_Api (args : ApiArgs) : Thrown + Api :=
  if negb (Js.truthy (arg_jupyterHubToken args))
  then inl (ThrownApi {|
         errorCode := MissingJupyterHubToken;
         httpCode := None;
         message := "Impact client instantiation failed: The jupyterHubToken parameter is mandatory";
       |})
  else
    let unset := {| cfg_headers := ∅; jar := None |} in
    inr (configureAxios {|
      axios := Axios_create unset;
      axiosConfig := unset;
      baseUrl := arg_serverAddress args;
      impactApiKey := arg_impactApiKey args;
      impactToken := arg_impactToken args;
      jhToken := Js.tmpl (arg_jupyterHubToken args);
      jhUserPath :=
        if Js.truthy (arg_jupyterHubUserPath args)
        then
          let p := Js.tmpl (arg_jupyterHubUserPath args) in
          Some (p +:+ (if Js.ends_with "/" p then "" else "/"))
        else None;
    |}).

(** [Api.fromImpactApiKey]. *)
Definition fromImpactApiKey (impactApiKey : option string)
    (jupyterHubToken : option string) (jupyterHubUserPath : option string)
    (serverAddress : string) : Thrown + Api :=
  new_Api {|
    arg_impactApiKey := impactApiKey;
    arg_impactToken := None;
    arg_jupyterHubToken := jupyterHubToken;
    arg_serverAddress := serverAddress;
    arg_jupyterHubUserPath := jupyterHubUserPath;
  |}.

(** [Api.fromImpactToken]. *)
Definition fromImpactToken (impactToken : option string)
    (jupyterHubToken : option string) (jupyterHubUserPath : option string)
    (serverAddress : string) : Thrown + Api :=
  new_Api {|
    arg_impactApiKey := None;
    arg_impactToken := impactToken;
    arg_jupyterHubToken := jupyterHubToken;
    arg_serverAddress := serverAddress;
    arg_jupyterHubUserPath := jupyterHubUserPath;
  |}.

(** A client that has just been constructed: no jar exists, nothing was
    sent. *)
Definition boot (a : Api) : Machine := {| api := a; jars := []; log := [] |}.

Definition isConfiguredForNode (a : Api) : bool :=
  bool_decide (is_Some (jar (axiosConfig a))).

Definition isConfiguredForImpact (a : Api) : bool :=
  Js.truthy (cfg_headers (axiosConfig a) !! "Impact-Authorization").

Definition getNodeCookieJar (a : Api) : option nat := jar (axiosConfig a).

(** ** Asynchronous code *)

(** An [async] function runs on the machine and returns or throws.  One
    call runs to its end before the next is started. *)
Definition Async (A : Type) : Type := Machine → (Thrown + A) * Machine.

#[global] Instance Async_ret : MRet Async :=
  λ A (x : A) m, (inr x, m).

#[global] Instance Async_bind : MBind Async :=
  λ A B (k : A → Async B) (c : Async A) m,
    match c m with
    | (inr x, m') => k x m'
    | (inl e, m') => (inl e, m')
    end.

Definition throw {A} (e : Thrown) : Async A := λ m, (inl e, m).

Definition lift {A} (r : Thrown + A) : Async A := λ m, (r, m).

(** [try { c } catch (e) { h e }]. *)
Definition try_catch {A} (c : Async A) (h : Thrown → Async A) : Async A :=
  λ m,
    match c m with
    | (inr x, m') => (inr x, m')
    | (inl e, m') => h e m'
    end.

Definition this : Async Api := λ m, (inr (api m), m).

Definition assign (f : Api → Api) : Async unit := λ m, (inr tt, with_api f m).

(** What a domain operation resolves with: a member of the response body
    (by its path; [undefined] where the body or a member on the path is
    missing), nothing, or a fresh [Experiment]. *)
Inductive Payload :=
  | Member (path : list string) (d : option Data)
  | Void
  | NewExperiment (id workspaceId : string).

(** The promise a domain operation returns: it resolves, it rejects, or
    neither [resolve] nor [reject] is ever called. *)
Inductive Outcome :=
  | Resolved (p : Payload)
  | Rejected (e : Thrown)
  | Pending.

(** The request a domain operation issues once the session exists, the
    callback of the request's [then] (what it passes to [resolve], or what
    it throws), and whether the request's promise has a
    [.catch((e) => reject(toApiError(e)))] of its own. *)
Record Endpoint := {
  ep_method : Method;
  ep_url : string;
  ep_body : option Json;
  ep_headers : gmap string string;
  ep_payload : AxiosResponse → Thrown + Payload;
  ep_catch : bool;
}.

(** [response.data], [response.data?.k] and [response.data?.data?.items]:
    an optional access never throws. *)
Definition optional (path : list string) (r : AxiosResponse) : Thrown + Payload :=
  inr (Member path (data r)).

(** [response.data.k]. *)
Definition member (k : string) (r : AxiosResponse) : Thrown + Payload :=
  match members (data r) with
  | inl e => inl e
  | inr _ => inr (Member [k] (data r))
  end.

(** [response.data.data.items]. *)
Definition data_items (r : AxiosResponse) : Thrown + Payload :=
  match members (data r) with
  | inl e => inl e
  | inr d =>
      if has_data d then inr (Member ["data"; "items"] (data r))
      else inl type_error
  end.

Section client.

Variable w : World.

(** A request through [this.axios]: the instance's headers under those of
    the call, the cookies of the answer put into the instance's jar. *)
Definition axios_request (s : Site) (mth : Method) (u : string)
    (b : option Json) (hs : gmap string string) : Async AxiosResponse :=
  λ m,
    let inst := axios (api m) in
    let req := {| method := mth; url := u; body := b;
                  headers := hs ∪ cfg_headers (defaults inst) |} in
    let answer := transport w (log m) req in
    let cookies :=
      match answer with
      | inl e => from_option err_cookies [] (response e)
      | inr r => set_cookies r
      end in
    let jars' :=
      match cookie_support inst, jar (defaults inst) with
      | true, Some l => alter (λ held, jar_setCookies w held u cookies) l (jars m)
      | _, _ => jars m
      end in
    (match answer with
     | inl e => inl (ThrownAxios e)
     | inr r => inr r
     end,
     {| api := api m; jars := jars';
        log := log m ++ [ {| site := s; request := req |} ] |}).

(** [nodeCookieJar.getCookies(url)]. *)
Definition getCookies (l : nat) (u : string) : Async (list Cookie) :=
  λ m, (inr (jar_getCookies w (default [] (jars m !! l)) u), m).

(** [document.cookie]. *)
Definition read_document_cookie : Async string :=
  λ m, (inr (document_cookie w (log m)), m).

(** [ensureAxiosConfig].  The two dynamic imports are taken to succeed. *)
Definition ensureAxiosConfig : Async unit :=
  λ m,
    let a := api m in
    if isNode w then
      if negb (isConfiguredForNode a)
         || (Js.truthy (impactToken a) && negb (isConfiguredForImpact a))
      then
        let l := length (jars m) in
        let headers := auth_headers (jhToken a) (impactToken a) in
        let c := {| cfg_headers := headers; jar := Some l |} in
        (inr tt,
         {| api := set_transport c (wrapper (Axios_create c)) a;
            jars := jars m ++ [[]];
            log := log m |})
      else (inr tt, m)
    else
      if Js.truthy (impactToken a) && negb (isConfiguredForImpact a)
      then
        let headers : gmap string string :=
          <[ "Impact-Authorization" := "Bearer " +:+ Js.tmpl (impactToken a) ]>
            {[ "Authorization" := "token " +:+ jhToken a ]} in
        let c := {| cfg_headers := headers; jar := None |} in
        (inr tt, with_api (set_transport c (Axios_create c)) m)
      else (inr tt, m).

(** The gateway lookup of [ensureJhUserPath]. *)
Definition gateway_lookup : Async AxiosResponse :=
  a ← this;
  axios_request GatewayLookup GET
    (baseUrl a +:+ "/hub/api/authorizations/token/" +:+ jhToken a)
    None ∅.

(** [ensureJhUserPath]. *)
Definition ensureJhUserPath : Async unit :=
  a ← this;
  if Js.truthy (jhUserPath a) then mret tt
  else
    try_catch
      (response ← gateway_lookup;
       d ← lift (members (data response));
       let server := server d in
       if negb (Js.truthy server)
       then throw (ThrownApi {|
              errorCode := ServerNotStarted;
              httpCode := None;
              message := "Server not started on JH or missing JH token scope.";
            |})
       else assign (set_jhUserPath server))
      (λ e,
         match e with
         | ThrownAxios ae =>
             throw (ThrownApi {|
               errorCode := JhTokenError;
               httpCode := err_status <$> response ae;
               message := "Failed to authorize with JupyterHub, invalid token?";
             |})
         | _ => throw e
         end).

(** The login exchange of [ensureImpactToken]. *)
Definition login_exchange : Async AxiosResponse :=
  a ← this;
  axios_request LoginExchange POST
    (baseUrl a +:+ Js.tmpl (jhUserPath a) +:+ "impact/api/login")
    (Some (JObject [("secretKey", JOptString (impactApiKey a))]))
    ∅.

(** Reading the token back from the cookies, in [ensureImpactToken]. *)
Definition read_access_token : Async unit :=
  a ← this;
  match getNodeCookieJar a with
  | Some nodeCookieJar =>
      cookies ← getCookies nodeCookieJar (baseUrl a +:+ Js.tmpl (jhUserPath a));
      token ← lift (getValueFromJarCookies "access_token" cookies);
      assign (set_impactToken (Some token))
  | None =>
      cookie ← read_document_cookie;
      assign (set_impactToken (getCookieValue cookie "access_token"))
  end.

(** [ensureImpactToken]. *)
Definition ensureImpactToken : Async unit :=
  _ ← ensureAxiosConfig;
  _ ← ensureJhUserPath;
  a ← this;
  if Js.truthy (impactToken a) then mret tt
  else
    _ ← login_exchange;
    _ ← read_access_token;
    ensureAxiosConfig.

(** The promise chain all domain operations share:
    [new Promise((resolve, reject) => this.ensureImpactToken()
       .then(() => { this.axios.<request>.then(resolve).catch(reject) })
       .catch((e) => reject(toApiError(e))))].
    The callback of the outer [then] returns nothing, so a rejection of
    the request's promise reaches [reject] only through that promise's own
    [catch].  That [catch] follows the request's [then]: it also receives
    what the callback of that [then] throws. *)
Definition session_call (endpoint : Api → Endpoint) : Machine → Outcome * Machine :=
  λ m,
    match ensureImpactToken m with
    | (inl e, m1) => (Rejected (toApiError e), m1)
    | (inr _, m1) =>
        let ep := endpoint (api m1) in
        match axios_request DomainRequest (ep_method ep) (ep_url ep)
                (ep_body ep) (ep_headers ep) m1 with
        | (inr r, m2) =>
            match ep_payload ep r with
            | inr p => (Resolved p, m2)
            | inl e =>
                if ep_catch ep then (Rejected (toApiError e), m2)
                else (Pending, m2)
            end
        | (inl e, m2) =>
            if ep_catch ep then (Rejected (toApiError e), m2) else (Pending, m2)
        end
    end.

End client.

(** ** Domain operations *)

(** [`${this.baseUrl}${this.jhUserPath}impact/api/<rest>`]. *)
Definition impact_url (a : Api) (rest : string) : string :=
  baseUrl a +:+ Js.tmpl (jhUserPath a) +:+ "impact/api/" +:+ rest.

Definition get_endpoint (u : string) (payload : AxiosResponse → Thrown + Payload)
  : Endpoint :=
  {| ep_method := GET; ep_url := u; ep_body := None; ep_headers := ∅;
     ep_payload := payload; ep_catch := true |}.

Definition trajectories_accept : gmap string string :=
  {[ "Accept" := "application/vnd.impact.trajectories.v2+json" ]}.

Section operations.

Variable w : World.

Definition getWorkspaces :=
  session_call w (λ a,
    get_endpoint (impact_url a "workspaces")
      (optional ["data"; "items"])).

Definition getWorkSpacesID (workspaceId : string) :=
  session_call w (λ a,
    get_endpoint (impact_url a ("workspaces/" +:+ workspaceId))
      (optional ["definition"])).

Definition getWorkspaceProjects (workspaceId : string) :=
  session_call w (λ a,
    get_endpoint (impact_url a ("workspaces/" +:+ workspaceId +:+ "/projects"))
      (optional [])).

Definition getWorkspaceProjectExperiments (workspaceId projectId : string) :=
  session_call w (λ a,
    get_endpoint
      (impact_url a ("workspaces/" +:+ workspaceId +:+ "/projects/"
                     +:+ projectId +:+ "/experiments"))
      (optional [])).

Definition getExperimentsMetaData (workspaceId : string) :=
  session_call w (λ a,
    get_endpoint (impact_url a ("workspaces/" +:+ workspaceId +:+ "/experiments"))
      (optional [])).

Definition getVariables (workspaceId experimentId : string) :=
  session_call w (λ a,
    get_endpoint
      (impact_url a ("workspaces/" +:+ workspaceId +:+ "/experiments/"
                     +:+ experimentId +:+ "/variables"))
      (optional [])).

(** [experimentDefinition] stands for the value of
    [experimentDefinition.toModelicaExperimentDefinition()]. *)
Definition createExperiment (experimentDefinition : Json) (workspaceId : string) :=
  session_call w (λ a,
    {| ep_method := POST;
       ep_url := impact_url a ("workspaces/" +:+ workspaceId +:+ "/experiments");
       ep_body := Some (JObject [("experiment", experimentDefinition)]);
       ep_headers := ∅;
       ep_payload := member "experiment_id";
       ep_catch := true |}).

Definition cancelExperiment (experimentId workspaceId : string) :=
  session_call w (λ a,
    {| ep_method := DELETE;
       ep_url := impact_url a ("workspaces/" +:+ workspaceId +:+ "/experiments/"
                               +:+ experimentId +:+ "/execution");
       ep_body := None;
       ep_headers := ∅;
       ep_payload := λ _, inr Void;
       ep_catch := true |}).

Definition createWorkspace (description : option string) (name : string) :=
  session_call w (λ a,
    {| ep_method := POST;
       ep_url := impact_url a "workspaces";
       ep_body :=
         Some (JObject [("new", JObject [("description", JOptString description);
                                         ("name", JString name)])]);
       ep_headers := ∅;
       ep_payload := member "id";
       ep_catch := true |}).

Definition deleteWorkspace (workspaceId : string) :=
  session_call w (λ a,
    {| ep_method := DELETE;
       ep_url := impact_url a ("workspaces/" +:+ workspaceId);
       ep_body := None;
       ep_headers := ∅;
       ep_payload := λ _, inr Void;
       ep_catch := true |}).

Definition runExperiment (cases : list string) (experimentId workspaceId : string) :=
  session_call w (λ a,
    {| ep_method := POST;
       ep_url := impact_url a ("workspaces/" +:+ workspaceId +:+ "/experiments/"
                               +:+ experimentId +:+ "/execution");
       ep_body :=
         Some (JObject [("includeCases", JObject [("ids", JArray (JString <$> cases))]);
                        ("options", JObject [("forceCompilation", JBool true)])]);
       ep_headers := ∅;
       ep_payload := λ _, inr Void;
       ep_catch := true |}).

Definition getExecutionStatus (experimentId workspaceId : string) :=
  session_call w (λ a,
    get_endpoint
      (impact_url a ("workspaces/" +:+ workspaceId +:+ "/experiments/"
                     +:+ experimentId +:+ "/execution"))
      (optional [])).

Definition getCustomFunctions (workspaceId : string) :=
  session_call w (λ a,
    get_endpoint
      (impact_url a ("workspaces/" +:+ workspaceId +:+ "/custom-functions"))
      data_items).

Definition getExperiment (experimentId workspaceId : string) :=
  session_call w (λ a,
    {| ep_method := GET;
       ep_url := impact_url a ("workspaces/" +:+ workspaceId +:+ "/experiments/"
                               +:+ experimentId);
       ep_body := None;
       ep_headers := {[ "Accept" := "application/vnd.impact.experiment.v2+json" ]};
       ep_payload := λ _, inr (NewExperiment experimentId workspaceId);
       ep_catch := true |}).

Definition getCases (experimentId workspaceId : string) :=
  session_call w (λ a,
    get_endpoint
      (impact_url a ("workspaces/" +:+ workspaceId +:+ "/experiments/"
                     +:+ experimentId +:+ "/cases"))
      (optional ["data"; "items"])).

(** The one operation whose request has no [catch] of its own. *)
Definition getExperimentTrajectories (experimentId : string)
    (variableNames : list string) (workspaceId : string) :=
  session_call w (λ a,
    {| ep_method := POST;
       ep_url := impact_url a ("workspaces/" +:+ workspaceId +:+ "/experiments/"
                               +:+ experimentId +:+ "/trajectories");
       ep_body := Some (JObject [("variable_names", JArray (JString <$> variableNames))]);
       ep_headers := trajectories_accept;
       ep_payload := data_items;
       ep_catch := false |}).

Definition getCaseLog (caseId experimentId workspaceId : string) :=
  session_call w (λ a,
    get_endpoint
      (impact_url a ("workspaces/" +:+ workspaceId +:+ "/experiments/"
                     +:+ experimentId +:+ "/cases/" +:+ caseId +:+ "/log"))
      (optional [])).

Definition getCaseTrajectories (caseId experimentId : string)
    (variableNames : list string) (workspaceId : string) :=
  session_call w (λ a,
    {| ep_method := POST;
       ep_url := impact_url a ("workspaces/" +:+ workspaceId +:+ "/experiments/"
                               +:+ experimentId +:+ "/cases/" +:+ caseId
                               +:+ "/trajectories");
       ep_body := Some (JObject [("variable_names", JArray (JString <$> variableNames))]);
       ep_headers := trajectories_accept;
       ep_payload := data_items;
       ep_catch := true |}).

(** [setImpactToken]. *)
Definition setImpactToken (token : string) : Machine → Machine :=
  with_api (λ a, configureAxios (set_impactToken (Some token) a)).

(** A domain operation together with its arguments. *)
Inductive Op :=
  | GetWorkspaces
  | GetWorkSpacesID (workspaceId : string)
  | GetWorkspaceProjects (workspaceId : string)
  | GetWorkspaceProjectExperiments (workspaceId projectId : string)
  | GetExperimentsMetaData (workspaceId : string)
  | GetVariables (workspaceId experimentId : string)
  | CreateExperiment (experimentDefinition : Json) (workspaceId : string)
  | CancelExperiment (experimentId workspaceId : string)
  | CreateWorkspace (description : option string) (name : string)
  | DeleteWorkspace (workspaceId : string)
  | RunExperiment (cases : list string) (experimentId workspaceId : string)
  | GetExecutionStatus (experimentId workspaceId : string)
  | GetCustomFunctions (workspaceId : string)
  | GetExperiment (experimentId workspaceId : string)
  | GetCases (experimentId workspaceId : string)
  | GetExperimentTrajectories (experimentId : string)
      (variableNames : list string) (workspaceId : string)
  | GetCaseLog (caseId experimentId workspaceId : string)
  | GetCaseTrajectories (caseId experimentId : string)
      (variableNames : list string) (workspaceId : string).

Definition call (op : Op) : Machine → Outcome * Machine :=
  match op with
  | GetWorkspaces => getWorkspaces
  | GetWorkSpacesID ws => getWorkSpacesID ws
  | GetWorkspaceProjects ws => getWorkspaceProjects ws
  | GetWorkspaceProjectExperiments ws p => getWorkspaceProjectExperiments ws p
  | GetExperimentsMetaData ws => getExperimentsMetaData ws
  | GetVariables ws e => getVariables ws e
  | CreateExperiment d ws => createExperiment d ws
  | CancelExperiment e ws => cancelExperiment e ws
  | CreateWorkspace d n => createWorkspace d n
  | DeleteWorkspace ws => deleteWorkspace ws
  | RunExperiment cs e ws => runExperiment cs e ws
  | GetExecutionStatus e ws => getExecutionStatus e ws
  | GetCustomFunctions ws => getCustomFunctions ws
  | GetExperiment e ws => getExperiment e ws
  | GetCases e ws => getCases e ws
  | GetExperimentTrajectories e vs ws => getExperimentTrajectories e vs ws
  | GetCaseLog c e ws => getCaseLog c e ws
  | GetCaseTrajectories c e vs ws => getCaseTrajectories c e vs ws
  end.

(** Domain operations called one after the other, each awaited. *)
Fixpoint calls (ops : list Op) (m : Machine) : list Outcome * Machine :=
  match ops with
  | [] => ([], m)
  | op :: rest =>
      let (o, m1) := call op m in
      let (os, m2) := calls rest m1 in
      (o :: os, m2)
  end.

End operations.

(** ** Reading the log *)

Definition sent_from (s : Site) (l : list Sent) : list Request :=
  request <$> filter (λ x, site x = s) l.

#[global] Arguments sent_from : simpl never.

(** A session token, or a routing path, is held when the field is truthy. *)
Definition holds_token (m : Machine) : Prop := Js.truthy (impactToken (api m)) = true.
Definition holds_path (m : Machine) : Prop := Js.truthy (jhUserPath (api m)) = true.

(** The Impact-Authorization header of a request or a configuration. *)
Definition service_auth (hs : gmap string string) : option string :=
  hs !! "Impact-Authorization".

(** ** A client over its lifetime *)

(** The states a client goes through in a world: it is constructed, then
    domain operations and [setImpactToken] are called on it, one at a
    time. *)
Inductive reachable (w : World) : Machine → Prop :=
  | reachable_new args a :
      new_Api args = inr a → reachable w (boot a)
  | reachable_call op m :
      reachable w m → reachable w (call w op m).2
  | reachable_setImpactToken token m :
      reachable w m → reachable w (setImpactToken token m).

(** The transport configuration is current: the instance was created from
    [axiosConfig], whose headers are those of the credentials held, and
    outside node no jar is bound. *)
Record current (w : World) (m : Machine) : Prop := {
  current_instance : defaults (axios (api m)) = axiosConfig (api m);
  current_headers :
    cfg_headers (axiosConfig (api m))
    = auth_headers (jhToken (api m)) (impactToken (api m));
  current_ambient : isNode w = false → jar (axiosConfig (api m)) = None;
}.

(** The first two steps of [ensureImpactToken]. *)
Definition resolve_path (w : World) : Async unit :=
  _ ← ensureAxiosConfig w; ensureJhUserPath w.

(** The fields of the client that are not the transport. *)
Definition session (a : Api) :=
  (baseUrl a, impactApiKey a, impactToken a, jhToken a, jhUserPath a).

(** The errors of the bootstrap, with the messages of the source. *)
Definition server_not_started : Thrown :=
  ThrownApi {|
    errorCode := ServerNotStarted;
    httpCode := None;
    message := "Server not started on JH or missing JH token scope.";
  |}.

Definition jh_token_error (status : option Z) : Thrown :=
  ThrownApi {|
    errorCode := JhTokenError;
    httpCode := status;
    message := "Failed to authorize with JupyterHub, invalid token?";
  |}.

Definition missing_access_token_cookie : Thrown :=
  ThrownApi {|
    errorCode := MissingAccessTokenCookie;
    httpCode := None;
    message := "Access token cookie not found";
  |}.

Definition missing_jupyter_hub_token : Thrown :=
  ThrownApi {|
    errorCode := MissingJupyterHubToken;
    httpCode := None;
    message := "Impact client instantiation failed: The jupyterHubToken parameter is mandatory";
  |}.

(** The cookies the bound jar hands out for the routing-path URL, as
    [ensureImpactToken] asks for them after the login exchange. *)
Definition scoped_cookies (w : World) (m : Machine) : list Cookie :=
  match getNodeCookieJar (api m) with
  | Some l =>
      jar_getCookies w (default [] (jars m !! l))
        (baseUrl (api m) +:+ Js.tmpl (jhUserPath (api m)))
  | None => []
  end.

(** The client holds [token] and its axios instance sends it. *)
Definition bears (token : string) (m : Machine) : Prop :=
  impactToken (api m) = Some token
  ∧ service_auth (cfg_headers (defaults (axios (api m))))
    = Some ("Bearer " +:+ token).

(** ** Sample worlds and clients *)

(** A world whose jars keep every cookie they are given and hand all of them
    out, and whose document cookies never change. *)
Definition plain_world (node : bool)
    (answer : list Sent → Request → AxiosError + AxiosResponse)
    (doc : string) : World :=
  {| isNode := node;
     transport := answer;
     document_cookie := λ _, doc;
     jar_setCookies := λ held _ new, held ++ new;
     jar_getCookies := λ held _, held |}.

(** A body without a [data] member: [{}], or [{ server }]. *)
Definition plain_body (srv : option string) : option Data :=
  Some {| server := srv; has_data := false; document := "{}" |}.

Definition answer_ok (srv : option string) (cookies : list Cookie)
  : AxiosError + AxiosResponse :=
  inr {| status := 200; data := plain_body srv; set_cookies := cookies |}.

Definition answer_status (st : Z) : AxiosError + AxiosResponse :=
  inl {| response := Some {| err_status := st; err_error := None;
                             err_cookies := [] |} |}.

Definition access_token_cookie (v : string) : Cookie :=
  {| key := "access_token"; value := v; domain := "host"; path := "/user/alice/" |}.

(** In node, every request is refused with status 401. *)
Definition node_401 : World := plain_world true (λ _ _, answer_status 401) "".

(** In node, every request is refused with status 500. *)
Definition node_500 : World := plain_world true (λ _ _, answer_status 500) "".

(** In node, every request succeeds, with no [server] member and without
    setting a cookie. *)
Definition node_silent : World := plain_world true (λ _ _, answer_ok None []) "".

(** In node, every request succeeds with the body [null]. *)
Definition node_null : World :=
  plain_world true
    (λ _ _, inr {| status := 200; data := None; set_cookies := [] |}) "".

(** In node, every request succeeds, names [/user/bob/] as the server and
    sets the cookie [access_token=TOK]. *)
Definition node_login : World :=
  plain_world true
    (λ _ _, answer_ok (Some "/user/bob/") [access_token_cookie "TOK"]) "".

(** In a browser, every request succeeds and the document cookies hold the
    token. *)
Definition browser_login : World :=
  plain_world false (λ _ _, answer_ok (Some "/user/bob/") [])
    "theme=dark; access_token=TOK; lang=en".

(** What the examples show of a log entry. *)
Definition summary (x : Sent) : Site * Method * string * option string :=
  (site x, method (request x), url (request x),
   service_auth (headers (request x))).

(** In a browser, every request succeeds and the document cookies hold no
    [access_token]. *)
Definition browser_silent : World :=
  plain_world false (λ _ _, answer_ok None []) "theme=dark; lang=en".

(** The client of the scenario: gateway credential [tok123], base address
    [https://host], routing path [/user/alice/], application secret
    [sk_abc]. *)
Definition alice : Thrown + Api :=
  fromImpactApiKey (Some "sk_abc") (Some "tok123") (Some "/user/alice/")
    "https://host".

(** The same client with a session token instead of a secret. *)
Definition alice_with_token : Thrown + Api :=
  fromImpactToken (Some "tok") (Some "tok123") (Some "/user/alice/")
    "https://host".

(** A client that has to ask the gateway for its routing path. *)
Definition bob : Thrown + Api :=
  fromImpactApiKey (Some "sk_abc") (Some "tok123") None "https://host".

(** The machine of a client that was constructed; a machine without
    credentials stands for a construction that threw. *)
Definition started (c : Thrown + Api) : Machine :=
  match c with
  | inr a => boot a
  | inl _ =>
      boot {| axios := Axios_create {| cfg_headers := ∅; jar := None |};
              axiosConfig := {| cfg_headers := ∅; jar := None |};
              baseUrl := ""; impactApiKey := None; impactToken := None;
              jhToken := ""; jhUserPath := None |}
  end.

(** ** Further notions *)

(** The test of [ensureAxiosConfig]: whether it rebuilds the transport. *)
Definition stale (w : World) (a : Api) : bool :=
  if isNode w
  then negb (isConfiguredForNode a)
       || (Js.truthy (impactToken a) && negb (isConfiguredForImpact a))
  else Js.truthy (impactToken a) && negb (isConfiguredForImpact a).

(** The later states of a client: any number of domain operations and of
    [setImpactToken], one at a time. *)
Inductive evolves (w : World) : Machine → Machine → Prop :=
  | evolves_refl m : evolves w m m
  | evolves_call op m m' :
      evolves w m m' → evolves w m (call w op m').2
  | evolves_setImpactToken token m m' :
      evolves w m m' → evolves w m (setImpactToken token m').

(** [document.cookie] for a list of cookies, given as pairs of a name and a
    value: the entries [name=value], separated by ["; "]. *)
Definition cookie_entry (c : string * string) : string := c.1 +:+ "=" +:+ c.2.

Definition document_cookie_of (cs : list (string * string)) : string :=
  String.concat "; " (cookie_entry <$> cs).

(** ["; " + document.cookie] for a non-empty list of cookies: every entry
    with ["; "] in front of it. *)
Fixpoint cookie_text (cs : list (string * string)) : string :=
  match cs with
  | [] => EmptyString
  | c :: cs' => "; " +:+ c.1 +:+ "=" +:+ c.2 +:+ cookie_text cs'
  end.

(** [u] put in front of the first of the parts. *)
Definition onto_head (u : string) (parts : list string) : list string :=
  match parts with
  | p :: ps => (u +:+ p) :: ps
  | [] => [u]
  end.

(** The cookies of a list that are called [k]. *)
Definition cookies_named (k : string) (cs : list (string * string))
  : list (string * string) :=
  filter (λ c, c.1 = k) cs.

(** Names and values as a browser keeps them: no [;] in either, no [=] in a
    name. *)
Definition plain_cookie (c : string * string) : Prop :=
  Js.absent ";" c.1 ∧ Js.absent "=" c.1 ∧ Js.absent ";" c.2.

(** A logged request is well formed for a client: it carries the gateway
    credential, and it goes where its place in the source sends it, built
    from the fields of the client.  A login exchange or a domain request
    presupposes a routing path. *)
Definition well_formed (a : Api) (x : Sent) : Prop :=
  headers (request x) !! "Authorization" = Some ("token " +:+ jhToken a)
  ∧ match site x with
    | GatewayLookup =>
        method (request x) = GET
        ∧ url (request x)
          = baseUrl a +:+ "/hub/api/authorizations/token/" +:+ jhToken a
        ∧ body (request x) = None
    | LoginExchange =>
        Js.truthy (jhUserPath a) = true
        ∧ method (request x) = POST
        ∧ url (request x) = impact_url a "login"
        ∧ body (request x)
          = Some (JObject [("secretKey", JOptString (impactApiKey a))])
    | DomainRequest =>
        Js.truthy (jhUserPath a) = true
        ∧ ∃ rest, url (request x) = impact_url a rest
    end.

(** An answer all callbacks of the domain operations can read: it has a
    body, and the body has a [data] member. *)
Definition readable (r : AxiosResponse) : bool :=
  match data r with
  | Some d => has_data d
  | None => false
  end.

(** The jar bound to the configuration exists in the store. *)
Definition jar_valid (m : Machine) : Prop :=
  ∀ l, jar (axiosConfig (api m)) = Some l → l < length (jars m).

(** The instance puts cookies into a jar exactly when one is bound to the
    configuration. *)
Definition jar_in_use (a : Api) : Prop :=
  cookie_support (axios a) = bool_decide (is_Some (jar (axiosConfig a))).

(** * Properties *)

(** ** Splitting strings *)

Module JsFacts.
Import Js.

Lemma starts_with_app p rest : starts_with p (p +:+ rest) = true.
Proof.
  induction p as [|a p IH]; [done|].
  simpl. by case_decide.
Qed.

Lemma starts_with_inv p s :
  starts_with p s = true → ∃ rest, s = p +:+ rest.
Proof.
  revert s. induction p as [|a p IH]; intros s H.
  - by exists s.
  - destruct s as [|b s]; [done|]. cbn in H.
    destruct (decide (a = b)) as [->|]; [|done].
    destruct (IH _ H) as [rest ->]. by exists rest.
Qed.

Lemma absent_clear c r rest :
  absent c r → clear_of c (String.length r) (r +:+ rest).
Proof.
  induction r as [|a r IH]; cbn; [by destruct rest|].
  intros [? ?]. split; [done|]. by apply IH.
Qed.

Lemma split_from_nonempty sep k s : split_from sep k s ≠ [].
Proof.
  revert k. induction s as [|a s IH]; intros k; [done|].
  cbn. destruct k as [|k]; [|apply IH].
  destruct (starts_with sep (String a s)); [done|].
  by destruct (split_from sep 0 s).
Qed.

(** A separator whose first character does not come back later in it
    cannot overlap itself, so the scan finds every position where it
    starts. *)
Lemma split_from_length c r s k :
  absent c r → clear_of c k s →
  length (split_from (String c r) k s) = S (occurrences (String c r) s).
Proof.
  intros Hr. revert k. induction s as [|a s IH]; intros k Hk; [done|].
  destruct k as [|k].
  - cbn [split_from occurrences].
    destruct (starts_with (String c r) (String a s)) eqn:E.
    + cbn [length]. f_equal.
      replace (String.length (String c r) - 1) with (String.length r)
        by (cbn; lia).
      apply IH. cbn in E.
      destruct (decide (c = a)); [|done].
      destruct (starts_with_inv _ _ E) as [rest ->].
      by apply absent_clear.
    + rewrite Nat.add_0_l, <- (IH 0) by (by destruct s).
      pose proof (split_from_nonempty (String c r) 0 s).
      by destruct (split_from (String c r) 0 s).
  - destruct Hk as [Hac Hk]. cbn [split_from occurrences].
    rewrite (IH k Hk). cbn [starts_with].
    by case_decide.
Qed.

Lemma drop_chars_app r rest : drop_chars (String.length r) (r +:+ rest) = rest.
Proof. induction r as [|a r IH]; [by destruct rest|done]. Qed.

(** Putting the separator back between the parts gives the scanned
    string. *)
Lemma concat_split_from sep k s :
  sep ≠ EmptyString →
  String.concat sep (split_from sep k s) = drop_chars k s.
Proof.
  intros Hsep. destruct sep as [|c r]; [done|]. clear Hsep.
  revert k. induction s as [|a s IH]; intros k; [by destruct k|].
  destruct k as [|k]; [|apply IH].
  cbn [split_from drop_chars].
  destruct (starts_with (String c r) (String a s)) eqn:E.
  - replace (String.length (String c r) - 1) with (String.length r)
      by (cbn; lia).
    pose proof (split_from_nonempty (String c r) (String.length r) s) as Hne.
    specialize (IH (String.length r)).
    destruct (split_from (String c r) (String.length r) s) as [|p ps]; [done|].
    change (String.concat (String c r) (EmptyString :: p :: ps))
      with (String c r +:+ String.concat (String c r) (p :: ps)).
    rewrite IH. cbn in E.
    destruct (decide (c = a)) as [->|]; [|done].
    destruct (starts_with_inv _ _ E) as [rest ->].
    by rewrite drop_chars_app.
  - pose proof (split_from_nonempty (String c r) 0 s) as Hne.
    specialize (IH 0).
    destruct (split_from (String c r) 0 s) as [|p ps]; [done|].
    replace (drop_chars 0 s) with s in IH by (by destruct s).
    rewrite <- IH. by destruct ps.
Qed.

(** The first part of a split at a single character: it holds no such
    character and is followed by the end or by one. *)
Lemma head_split_char c s :
  ∃ v rest,
    head (split_from (String c EmptyString) 0 s) = Some v
    ∧ s = v +:+ rest
    ∧ absent c v
    ∧ (rest = EmptyString ∨ ∃ rest', rest = String c rest').
Proof.
  induction s as [|a s (v & rest & Hv & Hs & Habs & Hrest)].
  - exists EmptyString, EmptyString. by repeat split; try left.
  - cbn [split_from starts_with].
    destruct (decide (c = a)) as [->|Hne].
    + exists EmptyString, (String a s). repeat split; eauto.
    + exists (String a v), rest.
      destruct (split_from (String c EmptyString) 0 s) as [|p ps]; [done|].
      cbn in Hv. injection Hv as ->.
      repeat split; [by rewrite Hs|done|done|done].
Qed.

End JsFacts.

(** ** The token in the document cookies *)

Section document_cookies.
Import Js JsFacts.

Variables (doc key : string).
Hypothesis key_clean : absent ";" key.

Lemma cookie_parts_length :
  length (split ("; " +:+ key +:+ "=") ("; " +:+ doc))
  = S (occurrences ("; " +:+ key +:+ "=") ("; " +:+ doc)).
Proof using key_clean.
  unfold split.
  change ("; " +:+ key +:+ "=") with (String ";" (String " " (key +:+ "="))).
  apply split_from_length; [|done].
  split; [done|]. clear -key_clean.
  induction key as [|a k IH]; [done|].
  destruct key_clean. by split; [|apply IH].
Qed.

Lemma getCookieValue_some :
  occurrences ("; " +:+ key +:+ "=") ("; " +:+ doc) = 1 →
  ∃ pre v post,
    getCookieValue doc key = Some v
    ∧ "; " +:+ doc = pre +:+ ("; " +:+ key +:+ "=") +:+ v +:+ post
    ∧ absent ";" v
    ∧ (post = EmptyString ∨ ∃ post', post = String ";" post').
Proof using key_clean.
  intros Hocc. unfold getCookieValue.
  pose proof cookie_parts_length as Hlen. rewrite Hocc in Hlen.
  rewrite decide_True by done.
  assert (String.concat ("; " +:+ key +:+ "=")
            (split ("; " +:+ key +:+ "=") ("; " +:+ doc)) = "; " +:+ doc) as Hcat.
  { change ("; " +:+ key +:+ "=") with (String ";" (String " " (key +:+ "="))).
    unfold split. by rewrite concat_split_from. }
  destruct (split ("; " +:+ key +:+ "=") ("; " +:+ doc)) as [|pre [|tail [|]]];
    try done.
  destruct (head_split_char ";" tail) as (v & post & Hv & Ht & Hv' & Hpost).
  exists pre, v, post. cbn [last mbind option_bind].
  unfold split at 1. rewrite Hv. repeat split; [|done|done].
  by rewrite <- Hcat, Ht.
Qed.

Lemma getCookieValue_none :
  occurrences ("; " +:+ key +:+ "=") ("; " +:+ doc) ≠ 1 →
  getCookieValue doc key = None.
Proof using key_clean.
  intros Hocc. unfold getCookieValue.
  rewrite cookie_parts_length, decide_False; [done|lia].
Qed.

End document_cookies.

Example getCookieValue_among_others :
  getCookieValue "a=1; access_token=TOK; b=2" "access_token" = Some "TOK".
Proof. reflexivity. Qed.

Example getCookieValue_other_names :
  getCookieValue "a=1; xaccess_token=TOK" "access_token" = None.
Proof. reflexivity. Qed.

Example getCookieValue_twice :
  getCookieValue "access_token=T1; access_token=T2" "access_token" = None.
Proof. reflexivity. Qed.

Example getCookieValue_empty_value :
  getCookieValue "access_token=" "access_token" = Some "".
Proof. reflexivity. Qed.

Example split_samples :
  Js.split "," "a,b,,c" = ["a"; "b"; ""; "c"]
  ∧ Js.split "ab" "xababy" = ["x"; ""; "y"]
  ∧ Js.split "aa" "aaa" = [""; "a"]
  ∧ Js.split ";" "" = [""].
Proof. repeat split; reflexivity. Qed.

(** ** Steps of the bootstrap *)

Ltac async := unfold mbind, mret, Async_bind, Async_ret, this, throw, lift,
  assign, try_catch in *.

Section steps.

Variable w : World.

Lemma sent_from_snoc s l x :
  sent_from s (l ++ [x])
  = sent_from s l ++ (if decide (site x = s) then [request x] else []).
Proof.
  unfold sent_from. rewrite filter_app, fmap_app. f_equal.
  rewrite filter_cons, filter_nil. by case_decide.
Qed.

Lemma sent_from_app s l l' :
  sent_from s (l ++ l') = sent_from s l ++ sent_from s l'.
Proof. unfold sent_from. by rewrite filter_app, fmap_app. Qed.

(** A request leaves the client as it is and adds one entry to the log;
    it can only fail with an [AxiosError]. *)
Lemma axios_request_api s mth u b hs m :
  api (axios_request w s mth u b hs m).2 = api m.
Proof. done. Qed.

Lemma axios_request_log s mth u b hs m :
  log (axios_request w s mth u b hs m).2
  = log m ++ [ {| site := s;
                  request := {| method := mth; url := u; body := b;
                    headers := hs ∪ cfg_headers (defaults (axios (api m))) |} |} ].
Proof. done. Qed.

Lemma axios_request_throws s mth u b hs m e :
  (axios_request w s mth u b hs m).1 = inl e → ∃ ae, e = ThrownAxios ae.
Proof.
  unfold axios_request. cbn.
  destruct (transport w _ _) as [ae|r]; [|done].
  intros [= <-]. by exists ae.
Qed.

(** [ensureAxiosConfig] never throws and sends nothing; it only replaces
    the transport. *)
Lemma ensureAxiosConfig_returns m : (ensureAxiosConfig w m).1 = inr tt.
Proof.
  unfold ensureAxiosConfig.
  by repeat match goal with |- context [if ?b then _ else _] => destruct b end.
Qed.

Lemma ensureAxiosConfig_log m : log (ensureAxiosConfig w m).2 = log m.
Proof.
  unfold ensureAxiosConfig.
  by repeat match goal with |- context [if ?b then _ else _] => destruct b end.
Qed.

Lemma ensureAxiosConfig_session m :
  session (api (ensureAxiosConfig w m).2) = session (api m).
Proof.
  unfold ensureAxiosConfig.
  by repeat match goal with |- context [if ?b then _ else _] => destruct b end.
Qed.

Lemma service_auth_headers jh tok :
  service_auth (auth_headers jh tok)
  = if Js.truthy tok then Some ("Bearer " +:+ Js.tmpl tok) else None.
Proof.
  unfold service_auth, auth_headers. destruct (Js.truthy tok).
  - apply lookup_insert_eq.
  - by apply lookup_singleton_ne.
Qed.

Lemma auth_headers_falsy jh tok tok' :
  Js.truthy tok = false → Js.truthy tok' = false →
  auth_headers jh tok = auth_headers jh tok'.
Proof. unfold auth_headers. by intros -> ->. Qed.

Lemma isConfiguredForImpact_headers a tok :
  cfg_headers (axiosConfig a) = auth_headers (jhToken a) tok →
  isConfiguredForImpact a = Js.truthy tok.
Proof.
  unfold isConfiguredForImpact. intros ->.
  fold (service_auth (auth_headers (jhToken a) tok)).
  rewrite service_auth_headers. by destruct (Js.truthy tok).
Qed.

(** The equations of the bootstrap. *)
Lemma ensureJhUserPath_held m :
  holds_path m → ensureJhUserPath w m = (inr tt, m).
Proof. unfold holds_path, ensureJhUserPath. async. by intros ->. Qed.

Lemma ensureJhUserPath_lookup m :
  ¬ holds_path m →
  ensureJhUserPath w m =
    match gateway_lookup w m with
    | (inr r, m') =>
        match data r with
        | None => (inl type_error, m')
        | Some d =>
            if Js.truthy (server d)
            then (inr tt, with_api (set_jhUserPath (server d)) m')
            else (inl server_not_started, m')
        end
    | (inl (ThrownAxios ae), m') =>
        (inl (jh_token_error (err_status <$> response ae)), m')
    | (inl e, m') => (inl e, m')
    end.
Proof.
  unfold holds_path, ensureJhUserPath. async.
  destruct (Js.truthy (jhUserPath (api m))); [done|]. intros _.
  destruct (gateway_lookup w m) as [[[]|r] m']; try done.
  destruct (data r) as [d|]; [|done]. cbn [members].
  by destruct (Js.truthy (server d)).
Qed.

Lemma ensureImpactToken_eq m :
  ensureImpactToken w m =
    match resolve_path w m with
    | (inl e, m1) => (inl e, m1)
    | (inr _, m1) =>
        if Js.truthy (impactToken (api m1)) then (inr tt, m1)
        else
          match login_exchange w m1 with
          | (inl e, m2) => (inl e, m2)
          | (inr _, m2) =>
              match read_access_token w m2 with
              | (inl e, m3) => (inl e, m3)
              | (inr _, m3) => ensureAxiosConfig w m3
              end
          end
    end.
Proof.
  unfold ensureImpactToken, resolve_path. async.
  destruct (ensureAxiosConfig w m) as [[e|[]] m0]; [done|].
  destruct (ensureJhUserPath w m0) as [[e|[]] m1]; [done|].
  destruct (Js.truthy (impactToken (api m1))); [done|].
  destruct (login_exchange w m1) as [[e|r] m2]; [done|].
  by destruct (read_access_token w m2) as [[e|[]] m3].
Qed.

Lemma resolve_path_eq m :
  resolve_path w m = ensureJhUserPath w (ensureAxiosConfig w m).2.
Proof.
  unfold resolve_path. async.
  pose proof (ensureAxiosConfig_returns m) as H.
  destruct (ensureAxiosConfig w m) as [r m0]. cbn in H. by subst r.
Qed.

Lemma read_access_token_eq m :
  read_access_token w m =
    match getNodeCookieJar (api m) with
    | Some l =>
        match getValueFromJarCookies "access_token"
                (jar_getCookies w (default [] (jars m !! l))
                   (baseUrl (api m) +:+ Js.tmpl (jhUserPath (api m)))) with
        | inl e => (inl e, m)
        | inr token => (inr tt, with_api (set_impactToken (Some token)) m)
        end
    | None =>
        (inr tt,
         with_api (set_impactToken
                     (getCookieValue (document_cookie w (log m)) "access_token")) m)
    end.
Proof.
  unfold read_access_token, getCookies, read_document_cookie. async.
  destruct (getNodeCookieJar (api m)); [|done].
  by destruct (getValueFromJarCookies _ _).
Qed.

Lemma session_inv a b :
  session a = session b →
  baseUrl a = baseUrl b ∧ impactApiKey a = impactApiKey b
  ∧ impactToken a = impactToken b ∧ jhToken a = jhToken b
  ∧ jhUserPath a = jhUserPath b.
Proof. unfold session. by intros [= -> -> -> -> ->]. Qed.

Lemma ensureAxiosConfig_path m :
  jhUserPath (api (ensureAxiosConfig w m).2) = jhUserPath (api m).
Proof. by destruct (session_inv _ _ (ensureAxiosConfig_session m)) as (?&?&?&?&?). Qed.

Lemma ensureAxiosConfig_token m :
  impactToken (api (ensureAxiosConfig w m).2) = impactToken (api m).
Proof. by destruct (session_inv _ _ (ensureAxiosConfig_session m)) as (?&?&?&?&?). Qed.

Lemma gateway_lookup_api m : api (gateway_lookup w m).2 = api m.
Proof. done. Qed.

Lemma gateway_lookup_log m :
  ∃ req, log (gateway_lookup w m).2
         = log m ++ [ {| site := GatewayLookup; request := req |} ]
         ∧ headers req = ∅ ∪ cfg_headers (defaults (axios (api m))).
Proof. by eexists. Qed.

Lemma login_exchange_api m : api (login_exchange w m).2 = api m.
Proof. done. Qed.

Lemma login_exchange_log m :
  log (login_exchange w m).2
  = log m ++ [ {| site := LoginExchange;
                  request := {|
                    method := POST;
                    url := baseUrl (api m) +:+ Js.tmpl (jhUserPath (api m))
                           +:+ "impact/api/login";
                    body := Some (JObject [("secretKey",
                                            JOptString (impactApiKey (api m)))]);
                    headers := ∅ ∪ cfg_headers (defaults (axios (api m))) |} |} ].
Proof. done. Qed.

Lemma read_access_token_log m : log (read_access_token w m).2 = log m.
Proof.
  rewrite read_access_token_eq.
  destruct (getNodeCookieJar (api m)); [|done].
  by destruct (getValueFromJarCookies _ _).
Qed.

Lemma read_access_token_path m :
  jhUserPath (api (read_access_token w m).2) = jhUserPath (api m).
Proof.
  rewrite read_access_token_eq.
  destruct (getNodeCookieJar (api m)); [|done].
  by destruct (getValueFromJarCookies _ _).
Qed.

(** What the steps after the path resolution do to the log and to the
    routing path: they send at most a login exchange and keep the path. *)
Lemma acquire_token_frame m :
  let m' :=
    (if Js.truthy (impactToken (api m)) then (inr tt, m)
     else
       match login_exchange w m with
       | (inl e, m2) => (inl e, m2)
       | (inr _, m2) =>
           match read_access_token w m2 with
           | (inl e, m3) => (inl e, m3)
           | (inr _, m3) => ensureAxiosConfig w m3
           end
       end).2 in
  jhUserPath (api m') = jhUserPath (api m)
  ∧ sent_from GatewayLookup (log m') = sent_from GatewayLookup (log m)
  ∧ sent_from DomainRequest (log m') = sent_from DomainRequest (log m)
  ∧ (holds_token m → m' = m).
Proof.
  unfold holds_token.
  destruct (Js.truthy (impactToken (api m))); [done|].
  pose proof (login_exchange_api m) as Ha.
  pose proof (login_exchange_log m) as Hl.
  destruct (login_exchange w m) as [[e|r] m2]; cbn in Ha, Hl |- *.
  - rewrite Ha, Hl, !sent_from_snoc, !app_nil_r. done.
  - pose proof (read_access_token_log m2) as Hl3.
    pose proof (read_access_token_path m2) as Ha3.
    destruct (read_access_token w m2) as [[e|[]] m3]; cbn in Ha3, Hl3 |- *;
      rewrite ?ensureAxiosConfig_path, ?ensureAxiosConfig_log,
        Ha3, Hl3, Ha, Hl, !sent_from_snoc, !app_nil_r; done.
Qed.

(** The path resolution sends at most a gateway lookup and touches
    nothing but the routing path. *)
Lemma ensureJhUserPath_frame m :
  let m' := (ensureJhUserPath w m).2 in
  impactToken (api m') = impactToken (api m)
  ∧ axios (api m') = axios (api m)
  ∧ axiosConfig (api m') = axiosConfig (api m)
  ∧ sent_from LoginExchange (log m') = sent_from LoginExchange (log m)
  ∧ sent_from DomainRequest (log m') = sent_from DomainRequest (log m).
Proof.
  destruct (decide (holds_path m)) as [Hp|Hp].
  { by rewrite ensureJhUserPath_held. }
  rewrite (ensureJhUserPath_lookup m Hp).
  pose proof (gateway_lookup_api m) as Ha.
  destruct (gateway_lookup_log m) as (req & Hl & _).
  destruct (gateway_lookup w m) as [[[]|r] m']; cbn in Ha, Hl |- *;
    try (destruct (data r) as [d|]; [destruct (Js.truthy (server d))|]); cbn;
    by rewrite Ha, Hl, !sent_from_snoc, !app_nil_r.
Qed.

Lemma ensureImpactToken_path_held m :
  holds_path m →
  let m' := (ensureImpactToken w m).2 in
  jhUserPath (api m') = jhUserPath (api m)
  ∧ sent_from GatewayLookup (log m') = sent_from GatewayLookup (log m).
Proof.
  intros Hp. rewrite ensureImpactToken_eq, resolve_path_eq.
  rewrite ensureJhUserPath_held
    by (unfold holds_path; by rewrite ensureAxiosConfig_path).
  destruct (acquire_token_frame (ensureAxiosConfig w m).2) as (H1 & H2 & _).
  cbn zeta in *. by rewrite H1, H2, ensureAxiosConfig_path, ensureAxiosConfig_log.
Qed.

Lemma ensureImpactToken_token_held m :
  holds_token m →
  let m' := (ensureImpactToken w m).2 in
  impactToken (api m') = impactToken (api m)
  ∧ sent_from LoginExchange (log m') = sent_from LoginExchange (log m).
Proof.
  intros Ht. rewrite ensureImpactToken_eq, resolve_path_eq.
  pose proof (ensureAxiosConfig_log m) as Hl0.
  pose proof (ensureAxiosConfig_token m) as Ht0.
  remember (ensureAxiosConfig w m).2 as m0 eqn:E. clear E.
  destruct (ensureJhUserPath_frame m0) as (H1 & _ & _ & H2 & _).
  cbn zeta in *.
  destruct (ensureJhUserPath w m0) as [[e|[]] m1]; cbn in *.
  - by rewrite H1, H2, Ht0, Hl0.
  - unfold holds_token in Ht. rewrite H1, Ht0, Ht. cbn.
    by rewrite H1, H2, Ht0, Hl0.
Qed.

Lemma ensureImpactToken_no_domain m :
  sent_from DomainRequest (log (ensureImpactToken w m).2)
  = sent_from DomainRequest (log m).
Proof.
  rewrite ensureImpactToken_eq, resolve_path_eq.
  pose proof (ensureAxiosConfig_log m) as Hl0.
  remember (ensureAxiosConfig w m).2 as m0 eqn:E. clear E.
  destruct (ensureJhUserPath_frame m0) as (_ & _ & _ & _ & H2).
  cbn zeta in *.
  destruct (ensureJhUserPath w m0) as [[e|[]] m1]; cbn in *.
  - by rewrite H2, Hl0.
  - destruct (acquire_token_frame m1) as (_ & _ & H3 & _). cbn zeta in H3.
    by rewrite H3, H2, Hl0.
Qed.

(** A domain operation adds its one request after the bootstrap, or
    nothing when the bootstrap failed. *)
Lemma session_call_state endpoint m :
  let m1 := (ensureImpactToken w m).2 in
  let m' := (session_call w endpoint m).2 in
  api m' = api m1
  ∧ ((∃ e, (ensureImpactToken w m).1 = inl e) ∧ log m' = log m1
     ∨ (ensureImpactToken w m).1 = inr tt
       ∧ ∃ req, log m' = log m1 ++ [ {| site := DomainRequest; request := req |} ]
                ∧ headers req
                  = ep_headers (endpoint (api m1))
                    ∪ cfg_headers (defaults (axios (api m1)))).
Proof.
  unfold session_call.
  destruct (ensureImpactToken w m) as [[e|[]] m1]; cbn [fst snd].
  - split; [done|]. left. eauto.
  - set (ep := endpoint (api m1)).
    pose proof (axios_request_api DomainRequest (ep_method ep) (ep_url ep)
                  (ep_body ep) (ep_headers ep) m1) as Ha.
    pose proof (axios_request_log DomainRequest (ep_method ep) (ep_url ep)
                  (ep_body ep) (ep_headers ep) m1) as Hl.
    destruct (axios_request w _ _ _ _ _ m1) as [[e|r] m2];
      [|destruct (ep_payload ep r)]; try destruct (ep_catch ep);
      cbn [fst snd] in *;
      (split; [done|]; right; split; [done|]; eexists; split; [exact Hl|done]).
Qed.

Lemma call_session_call op :
  ∃ endpoint,
    call w op = session_call w endpoint
    ∧ (∀ a, ep_headers (endpoint a) !! "Impact-Authorization" = None)
    ∧ (∀ a, ep_catch (endpoint a) = false →
            ∃ e vs ws, op = GetExperimentTrajectories e vs ws).
Proof.
  destruct op; (eexists; split; [reflexivity|]; split; intros a; cbn;
    [done || by apply lookup_singleton_ne|by eauto]).
Qed.

Lemma call_frame op m :
  let m' := (call w op m).2 in
  (holds_path m →
     jhUserPath (api m') = jhUserPath (api m)
     ∧ sent_from GatewayLookup (log m') = sent_from GatewayLookup (log m))
  ∧ (holds_token m →
     impactToken (api m') = impactToken (api m)
     ∧ sent_from LoginExchange (log m') = sent_from LoginExchange (log m)).
Proof.
  destruct (call_session_call op) as (endpoint & -> & _).
  destruct (session_call_state endpoint m) as [Ha Hl]. cbn zeta in *.
  rewrite Ha.
  split; intros H.
  - destruct (ensureImpactToken_path_held m H) as [H1 H2]. cbn zeta in *.
    split; [done|].
    destruct Hl as [[_ ->]|(_ & req & -> & _)]; [done|].
    by rewrite sent_from_snoc, app_nil_r.
  - destruct (ensureImpactToken_token_held m H) as [H1 H2]. cbn zeta in *.
    split; [done|].
    destruct Hl as [[_ ->]|(_ & req & -> & _)]; [done|].
    by rewrite sent_from_snoc, app_nil_r.
Qed.

Lemma calls_frame ops m :
  let m' := (calls w ops m).2 in
  (holds_path m →
     jhUserPath (api m') = jhUserPath (api m)
     ∧ sent_from GatewayLookup (log m') = sent_from GatewayLookup (log m))
  ∧ (holds_token m →
     impactToken (api m') = impactToken (api m)
     ∧ sent_from LoginExchange (log m') = sent_from LoginExchange (log m)).
Proof.
  revert m. induction ops as [|op ops IH]; intros m; [done|].
  cbn [calls]. destruct (call_frame op m) as [Hp Ht]. cbn zeta in *.
  destruct (call w op m) as [o m1]. cbn [snd] in *.
  specialize (IH m1). destruct (calls w ops m1) as [os m2]. cbn [snd] in *.
  destruct IH as [IHp IHt]. unfold holds_path, holds_token in *.
  split; intros H.
  - destruct (Hp H) as [E1 E2]. rewrite <- E1 in H.
    destruct (IHp H) as [E3 E4]. by rewrite E3, E4.
  - destruct (Ht H) as [E1 E2]. rewrite <- E1 in H.
    destruct (IHt H) as [E3 E4]. by rewrite E3, E4.
Qed.

Lemma new_Api_inv args a :
  new_Api args = inr a →
  Js.truthy (arg_jupyterHubToken args) = true
  ∧ impactToken a = arg_impactToken args
  ∧ impactApiKey a = arg_impactApiKey args
  ∧ baseUrl a = arg_serverAddress args
  ∧ Some (jhToken a) = arg_jupyterHubToken args
  ∧ Js.truthy (jhUserPath a) = Js.truthy (arg_jupyterHubUserPath args).
Proof.
  unfold new_Api. destruct args as [k t [jh|] addr p]; cbn; [|done].
  destruct jh as [|c jh]; cbn; [done|]. intros [= <-]. cbn.
  repeat split. destruct p as [[|c' p]|]; done.
Qed.

(** ** The transport configuration stays current *)

Lemma ensureAxiosConfig_current m tok0 :
  defaults (axios (api m)) = axiosConfig (api m) →
  (isNode w = false → jar (axiosConfig (api m)) = None) →
  cfg_headers (axiosConfig (api m)) = auth_headers (jhToken (api m)) tok0 →
  Js.truthy tok0 = false ∨ tok0 = impactToken (api m) →
  current w (ensureAxiosConfig w m).2.
Proof.
  intros Hi Hamb Hh Htok. unfold ensureAxiosConfig.
  rewrite (isConfiguredForImpact_headers _ _ Hh).
  assert (Js.truthy (impactToken (api m)) && negb (Js.truthy tok0) = false →
          current w m) as Hkeep.
  { intros Hb. split; [done| |done]. rewrite Hh.
    destruct Htok as [Hf| ->]; [|done].
    rewrite Hf, andb_true_r in Hb. by apply auth_headers_falsy. }
  destruct (isNode w) eqn:Hnode.
  - destruct (negb (isConfiguredForNode (api m))); cbn [orb].
    + split; [done|done|by rewrite Hnode].
    + destruct (Js.truthy (impactToken (api m)) && negb (Js.truthy tok0)) eqn:Hb;
        [split; [done|done|by rewrite Hnode]|by apply Hkeep].
  - destruct (Js.truthy (impactToken (api m)) && negb (Js.truthy tok0)) eqn:Hb;
      [|by apply Hkeep].
    apply andb_true_iff in Hb as [Hb _].
    split; [done| |done]. cbn. unfold auth_headers. by rewrite Hb.
Qed.

Lemma current_ensureAxiosConfig m :
  current w m → current w (ensureAxiosConfig w m).2.
Proof.
  intros [Hi Hh Hamb].
  by apply (ensureAxiosConfig_current m (impactToken (api m))); [..|right].
Qed.

Lemma current_configureAxios a js l :
  current w {| api := configureAxios a; jars := js; log := l |}.
Proof. by split. Qed.

Lemma current_boot args a : new_Api args = inr a → current w (boot a).
Proof.
  unfold new_Api. destruct (negb _); [done|]. intros [= <-].
  apply current_configureAxios.
Qed.

Lemma current_setImpactToken token m : current w (setImpactToken token m).
Proof. apply current_configureAxios. Qed.

Lemma current_frame m m' :
  axios (api m') = axios (api m) →
  axiosConfig (api m') = axiosConfig (api m) →
  jhToken (api m') = jhToken (api m) →
  impactToken (api m') = impactToken (api m) →
  current w m → current w m'.
Proof. intros E1 E2 E3 E4 [Hi Hh Hamb]. split; by rewrite ?E1, ?E2, ?E3, ?E4. Qed.

Lemma ensureJhUserPath_jhToken m :
  jhToken (api (ensureJhUserPath w m).2) = jhToken (api m).
Proof.
  destruct (decide (holds_path m)) as [Hp|Hp].
  { by rewrite ensureJhUserPath_held. }
  rewrite (ensureJhUserPath_lookup m Hp).
  pose proof (gateway_lookup_api m) as Ha.
  destruct (gateway_lookup w m) as [[[]|r] m']; cbn in Ha |- *;
    try (destruct (data r) as [d|]; [destruct (Js.truthy (server d))|]); cbn; by rewrite Ha.
Qed.

Lemma current_ensureJhUserPath m :
  current w m → current w (ensureJhUserPath w m).2.
Proof.
  destruct (ensureJhUserPath_frame m) as (E1 & E2 & E3 & _).
  apply current_frame; try done. apply ensureJhUserPath_jhToken.
Qed.

Lemma current_ensureImpactToken m :
  current w m → current w (ensureImpactToken w m).2.
Proof.
  intros Hc. rewrite ensureImpactToken_eq, resolve_path_eq.
  apply current_ensureAxiosConfig, current_ensureJhUserPath in Hc.
  destruct (ensureJhUserPath w (ensureAxiosConfig w m).2) as [[e|[]] m1];
    cbn [snd] in *; [done|].
  destruct (Js.truthy (impactToken (api m1))) eqn:Ht; [done|].
  pose proof (login_exchange_api m1) as Ha.
  destruct (login_exchange w m1) as [[e|r] m2]; cbn [snd] in *.
  { destruct Hc. split; by rewrite Ha. }
  assert (current w m2) as [Hi Hh Hamb] by (destruct Hc; split; by rewrite Ha).
  rewrite read_access_token_eq.
  assert (∀ t, current w (ensureAxiosConfig w (with_api (set_impactToken t) m2)).2)
    as Hset.
  { intros t.
    apply (ensureAxiosConfig_current _ (impactToken (api m2))); try done.
    left. by rewrite Ha. }
  destruct (getNodeCookieJar (api m2)); [|apply Hset].
  destruct (getValueFromJarCookies _ _); [done|apply Hset].
Qed.

Lemma current_call op m : current w m → current w (call w op m).2.
Proof.
  intros Hc. destruct (call_session_call op) as (endpoint & -> & _).
  destruct (session_call_state endpoint m) as [Ha _]. cbn zeta in Ha.
  apply current_ensureImpactToken in Hc as [Hi Hh Hamb].
  split; by rewrite Ha.
Qed.

Lemma reachable_current m : reachable w m → current w m.
Proof.
  induction 1 as [args a Ha|op m _ IH|token m _ IH].
  - by apply (current_boot args).
  - by apply current_call.
  - apply current_setImpactToken.
Qed.

(** ** Further facts about the steps *)

Lemma ensureAxiosConfig_node m :
  isNode w = true →
  is_Some (jar (axiosConfig (api (ensureAxiosConfig w m).2))).
Proof.
  intros Hnode. unfold ensureAxiosConfig. rewrite Hnode.
  unfold isConfiguredForNode.
  destruct (bool_decide (is_Some (jar (axiosConfig (api m))))) eqn:Hj; cbn [negb orb].
  - apply bool_decide_eq_true in Hj.
    by destruct (_ && _).
  - by eexists.
Qed.

Lemma find_access_token_none k (cookies : list Cookie) :
  (∀ c, c ∈ cookies → key c ≠ k) →
  getValueFromJarCookies k cookies = inl missing_access_token_cookie.
Proof.
  intros H. unfold getValueFromJarCookies.
  replace (find _ cookies) with (@None Cookie); [done|].
  induction cookies as [|c cs IH]; [done|]. cbn.
  rewrite bool_decide_eq_false_2 by (apply H; left).
  apply IH. intros c' Hc'. apply H. by right.
Qed.

Lemma session_call_bootstrap_fails endpoint m e m1 :
  ensureImpactToken w m = (inl e, m1) →
  session_call w endpoint m = (Rejected (toApiError e), m1).
Proof. unfold session_call. by intros ->. Qed.

(** A request that fails reaches [reject] through the request's own
    [catch], and only through it. *)
Lemma session_call_transport_failure endpoint m m1 ae m2 :
  ensureImpactToken w m = (inr tt, m1) →
  (let ep := endpoint (api m1) in
   axios_request w DomainRequest (ep_method ep) (ep_url ep) (ep_body ep)
     (ep_headers ep) m1) = (inl (ThrownAxios ae), m2) →
  session_call w endpoint m =
    (if ep_catch (endpoint (api m1))
     then Rejected (toApiError (ThrownAxios ae))
     else Pending, m2).
Proof.
  unfold session_call. intros -> Hreq. cbn zeta in Hreq. rewrite Hreq.
  by destruct (ep_catch _).
Qed.

Lemma bears_ensureAxiosConfig token m :
  token ≠ EmptyString → bears token m → bears token (ensureAxiosConfig w m).2.
Proof.
  intros Hne [Ht Hh]. unfold bears.
  rewrite ensureAxiosConfig_token. split; [done|].
  assert (Js.truthy (Some token) = true) as Htr by (by destruct token).
  unfold ensureAxiosConfig. rewrite Ht, Htr.
  repeat match goal with |- context [if ?b then _ else _] => destruct b end;
    cbn [snd api with_api set_transport axios wrapper Axios_create defaults
         cfg_headers]; try done;
    first [by rewrite service_auth_headers, Htr | apply lookup_insert_eq].
Qed.

Lemma service_auth_union (hs cfg : gmap string string) :
  hs !! "Impact-Authorization" = None →
  service_auth (hs ∪ cfg) = service_auth cfg.
Proof. intros H. unfold service_auth. by rewrite lookup_union_r. Qed.

End steps.

(** ** The login exchange of a first call *)

Section login.

Variable w : World.

Lemma gateway_auth_headers jh tok :
  auth_headers jh tok !! "Authorization" = Some ("token " +:+ jh).
Proof.
  unfold auth_headers. destruct (Js.truthy tok).
  - rewrite lookup_insert_ne by done. apply lookup_singleton_eq.
  - apply lookup_singleton_eq.
Qed.

(** With a routing path and without a token, the bootstrap sends exactly
    one login exchange: a POST of the secret to the login URL under the
    routing path. *)
Lemma ensureImpactToken_login m :
  holds_path m → ¬ holds_token m →
  ∃ hs,
    sent_from LoginExchange (log (ensureImpactToken w m).2)
    = sent_from LoginExchange (log m)
      ++ [ {| method := POST;
              url := baseUrl (api m) +:+ Js.tmpl (jhUserPath (api m))
                     +:+ "impact/api/login";
              body := Some (JObject [("secretKey",
                                      JOptString (impactApiKey (api m)))]);
              headers := hs |} ]
    ∧ (current w m → hs !! "Authorization" = Some ("token " +:+ jhToken (api m))).
Proof.
  intros Hp Ht. rewrite ensureImpactToken_eq, resolve_path_eq.
  pose proof (ensureAxiosConfig_log w m) as Hl0.
  destruct (session_inv _ _ (ensureAxiosConfig_session w m))
    as (Eb & Ek & Et & Ej & Ep).
  pose proof (current_ensureAxiosConfig w m) as Hc0.
  remember (ensureAxiosConfig w m).2 as m0 eqn:E. clear E.
  rewrite ensureJhUserPath_held by (unfold holds_path; by rewrite Ep).
  unfold holds_token in Ht. rewrite Et.
  destruct (Js.truthy (impactToken (api m))); [done|].
  exists (∅ ∪ cfg_headers (defaults (axios (api m0)))). split.
  - pose proof (login_exchange_log w m0) as Hl.
    rewrite Eb, Ek, Ep in Hl.
    destruct (login_exchange w m0) as [[e|r] m2]; cbn [snd] in Hl |- *.
    { by rewrite Hl, sent_from_snoc, Hl0. }
    pose proof (read_access_token_log w m2) as Hl3.
    destruct (read_access_token w m2) as [[e|[]] m3]; cbn [snd] in Hl3 |- *;
      by rewrite ?ensureAxiosConfig_log, Hl3, Hl, sent_from_snoc, Hl0.
  - intros Hc. destruct (Hc0 Hc) as [Hi Hh _].
    by rewrite map_empty_union, Hi, Hh, gateway_auth_headers, Ej.
Qed.

Lemma call_login op m :
  sent_from LoginExchange (log (call w op m).2)
  = sent_from LoginExchange (log (ensureImpactToken w m).2).
Proof.
  destruct (call_session_call w op) as (endpoint & -> & _).
  destruct (session_call_state w endpoint m) as [_ Hl]. cbn zeta in Hl.
  destruct Hl as [[_ ->]|(_ & req & -> & _)]; [done|].
  by rewrite sent_from_snoc, app_nil_r.
Qed.

End login.

(** ** Transport failures of the domain request *)

(** When the bootstrap succeeds and the transport refuses the request of
    the operation, every operation rejects with what [toApiError] makes of
    the failure, except [getExperimentTrajectories], whose promise stays
    pending. *)
Lemma call_on_transport_failure (w : World) (op : Op) (m m1 : Machine)
    (ae : AxiosError) :
  ensureImpactToken w m = (inr tt, m1) →
  (∀ req, transport w (log m1) req = inl ae) →
  (call w op m).1
  = match op with
    | GetExperimentTrajectories _ _ _ => Pending
    | _ => Rejected (toApiError (ThrownAxios ae))
    end.
Proof.
  intros Hboot Hall.
  destruct op; unfold call, getWorkspaces, getWorkSpacesID, getWorkspaceProjects,
    getWorkspaceProjectExperiments, getExperimentsMetaData, getVariables,
    createExperiment, cancelExperiment, createWorkspace, deleteWorkspace,
    runExperiment, getExecutionStatus, getCustomFunctions, getExperiment,
    getCases, getExperimentTrajectories, getCaseLog, getCaseTrajectories,
    session_call; rewrite Hboot; unfold axios_request; cbv zeta;
    rewrite Hall; reflexivity.
Qed.

(** A failure of the bootstrap rejects the promise of every operation. *)
Lemma call_on_bootstrap_failure (w : World) (op : Op) (m m1 : Machine)
    (e : Thrown) :
  ensureImpactToken w m = (inl e, m1) →
  call w op m = (Rejected (toApiError e), m1).
Proof.
  intros H. destruct (call_session_call w op) as (endpoint & -> & _).
  by apply session_call_bootstrap_fails.
Qed.

(** ** A first call that goes well *)

Example first_call_in_node :
  (call node_login GetWorkspaces (started alice)).1
  = Resolved (Member ["data"; "items"]
                (plain_body (Some "/user/bob/")))
  ∧ summary <$> log (call node_login GetWorkspaces (started alice)).2
    = [ (LoginExchange, POST, "https://host/user/alice/impact/api/login", None);
        (DomainRequest, GET, "https://host/user/alice/impact/api/workspaces",
         Some "Bearer TOK") ].
Proof. vm_compute. done. Qed.

Example first_call_with_lookup :
  summary <$> log (call node_login (GetCases "e1" "ws1") (started bob)).2
  = [ (GatewayLookup, GET, "https://host/hub/api/authorizations/token/tok123",
       None);
      (LoginExchange, POST, "https://host/user/bob/impact/api/login", None);
      (DomainRequest, GET,
       "https://host/user/bob/impact/api/workspaces/ws1/experiments/e1/cases",
       Some "Bearer TOK") ].
Proof. vm_compute. done. Qed.

Example first_call_in_browser :
  summary <$> log (call browser_login GetWorkspaces (started alice)).2
  = [ (LoginExchange, POST, "https://host/user/alice/impact/api/login", None);
      (DomainRequest, GET, "https://host/user/alice/impact/api/workspaces",
       Some "Bearer TOK") ]
  ∧ jar (axiosConfig (api (call browser_login GetWorkspaces (started alice)).2))
    = None.
Proof. vm_compute. done. Qed.

Example second_call_reuses_the_session :
  summary <$> log (calls node_login [GetWorkspaces; GetWorkspaces] (started bob)).2
  = [ (GatewayLookup, GET, "https://host/hub/api/authorizations/token/tok123",
       None);
      (LoginExchange, POST, "https://host/user/bob/impact/api/login", None);
      (DomainRequest, GET, "https://host/user/bob/impact/api/workspaces",
       Some "Bearer TOK");
      (DomainRequest, GET, "https://host/user/bob/impact/api/workspaces",
       Some "Bearer TOK") ].
Proof. vm_compute. done. Qed.

(** ** The claims *)

(** C1 fails on [getExperimentTrajectories].  The client holds a routing
    path and a token, so the bootstrap succeeds, and the one request of the
    operation is answered with status 500.  The promise of
    [getExperimentTrajectories] stays pending; that of
    [getCaseTrajectories], which sends the same kind of request, rejects
    with what [toApiError] makes of the failure. *)
Theorem C1_getExperimentTrajectories_stays_pending :
  (getExperimentTrajectories node_500 "e1" ["x"] "ws1" (started alice_with_token)).1
  = Pending
  ∧ length (sent_from DomainRequest
      (log (getExperimentTrajectories node_500 "e1" ["x"] "ws1"
              (started alice_with_token)).2)) = 1
  ∧ (getCaseTrajectories node_500 "c1" "e1" ["x"] "ws1" (started alice_with_token)).1
    = Rejected (ThrownApi {| errorCode := UnknownApiError;
                             httpCode := Some 500%Z;
                             message := "Api Error" |}).
Proof. vm_compute. done. Qed.

(** The claim as the specification words it: the login exchange of the
    first call does not go to [.../service/api/login]. *)
Lemma C2_counterexample :
  url <$> sent_from LoginExchange
            (log (call node_silent GetWorkspaces (started alice)).2)
  ≠ ["https://host/user/alice/service/api/login"].
Proof. vm_compute. discriminate. Qed.

(** C2, amended.  For the client with gateway credential [tok123], base
    address [https://host], routing path [/user/alice/] and application
    secret [sk_abc], in every world, the first domain operation sends exactly
    one login exchange: a POST to
    [https://host/user/alice/impact/api/login] with body
    [{"secretKey":"sk_abc"}], under the gateway credential; and no sequence
    of domain operations ever sends a gateway lookup. *)
Theorem C2_first_call_logs_in_once (w : World) (op : Op) :
  ∃ a hs,
    fromImpactApiKey (Some "sk_abc") (Some "tok123") (Some "/user/alice/")
      "https://host" = inr a
    ∧ sent_from LoginExchange (log (call w op (boot a)).2)
      = [ {| method := POST;
             url := "https://host/user/alice/impact/api/login";
             body := Some (JObject [("secretKey", JString "sk_abc")]);
             headers := hs |} ]
    ∧ hs !! "Authorization" = Some "token tok123"
    ∧ ∀ ops, sent_from GatewayLookup (log (calls w ops (boot a)).2) = [].
Proof.
  destruct alice as [|a] eqn:Ea; [done|].
  assert (holds_path (boot a)) as Hp by (by injection Ea as <-).
  assert (¬ holds_token (boot a)) as Ht by (by injection Ea as <-).
  destruct (ensureImpactToken_login w (boot a) Hp Ht) as (hs & Hl & Hh).
  exists a, hs. split; [done|]. split; [|split].
  - rewrite call_login, Hl. by injection Ea as <-.
  - rewrite Hh; [by injection Ea as <-|]. by apply (current_boot w _ a Ea).
  - intros ops. destruct (calls_frame w ops (boot a)) as [H _].
    by destruct (H Hp) as [_ ->].
Qed.

(** C3 fails when the gateway answers the lookup with the body [null].  The
    client holds no routing path, the lookup succeeds, and its answer has no
    [server] member: it has no member at all.  The destructuring
    [const { server } = response.data] throws a [TypeError], the [catch]
    around it throws it again, and the bootstrap and the domain operation
    reject with it instead of [ServerNotStarted].  An answer with the body
    [{}] does give [ServerNotStarted], and a lookup refused with status 401
    gives [JhTokenError] with that status; no login exchange is sent in any
    of the three cases. *)
Theorem C3_lookup_answered_with_null :
  ¬ holds_path (started bob)
  ∧ (gateway_lookup node_null (ensureAxiosConfig node_null (started bob)).2).1
    = inr {| status := 200; data := None; set_cookies := [] |}
  ∧ (ensureImpactToken node_null (started bob)).1 = inl type_error
  ∧ (call node_null GetWorkspaces (started bob)).1 = Rejected type_error
  ∧ type_error ≠ server_not_started
  ∧ sent_from LoginExchange
      (log (call node_null GetWorkspaces (started bob)).2) = []
  ∧ (call node_silent GetWorkspaces (started bob)).1
    = Rejected server_not_started
  ∧ sent_from LoginExchange
      (log (call node_silent GetWorkspaces (started bob)).2) = []
  ∧ (call node_401 GetWorkspaces (started bob)).1
    = Rejected (jh_token_error (Some 401%Z))
  ∧ sent_from LoginExchange
      (log (call node_401 GetWorkspaces (started bob)).2) = [].
Proof. vm_compute. repeat split; discriminate. Qed.

(** C4.  In node, when the bootstrap of a domain operation reaches the
    login exchange and that exchange succeeds, but the bound jar hands out
    no cookie named [access_token] for the routing-path URL, the bootstrap
    rejects with [MissingAccessTokenCookie], so does the domain operation,
    and the request of the domain operation is not sent. *)
Theorem C4_missing_cookie_in_jar (w : World) (op : Op) (m m1 m2 : Machine)
    (r : AxiosResponse) :
  isNode w = true →
  resolve_path w m = (inr tt, m1) →
  ¬ holds_token m1 →
  login_exchange w m1 = (inr r, m2) →
  (∀ c, c ∈ scoped_cookies w m2 → key c ≠ "access_token") →
  ensureImpactToken w m = (inl missing_access_token_cookie, m2)
  ∧ call w op m = (Rejected missing_access_token_cookie, m2)
  ∧ sent_from DomainRequest (log m2) = sent_from DomainRequest (log m).
Proof.
  intros Hnode Hres Htok Hlogin Hjar.
  assert (ensureImpactToken w m = (inl missing_access_token_cookie, m2)) as H.
  { rewrite ensureImpactToken_eq, Hres.
    unfold holds_token in Htok. destruct (Js.truthy (impactToken (api m1))); [done|].
    rewrite Hlogin, read_access_token_eq.
    assert (is_Some (getNodeCookieJar (api m2))) as [l Hl].
    { pose proof (login_exchange_api w m1) as Ha. rewrite Hlogin in Ha. cbn in Ha.
      rewrite resolve_path_eq in Hres.
      destruct (ensureJhUserPath_frame w (ensureAxiosConfig w m).2) as (_ & _ & E & _).
      cbn zeta in E. rewrite Hres in E. cbn in E.
      unfold getNodeCookieJar. rewrite Ha, E. by apply ensureAxiosConfig_node. }
    unfold scoped_cookies in Hjar. rewrite Hl in Hjar |- *.
    by rewrite (find_access_token_none _ _ Hjar). }
  split; [done|]. split.
  - destruct (call_session_call w op) as (endpoint & -> & _).
    by rewrite (session_call_bootstrap_fails w endpoint m _ _ H).
  - pose proof (ensureImpactToken_no_domain w m) as Hd. by rewrite H in Hd.
Qed.

(** A login that succeeds without setting a cookie. *)
Lemma C4_witness :
  (ensureImpactToken node_silent (started alice)).1
  = inl missing_access_token_cookie
  ∧ (call node_silent GetWorkspaces (started alice)).1
    = Rejected missing_access_token_cookie.
Proof.
  pose (m1 := (resolve_path node_silent (started alice)).2).
  pose (m2 := (login_exchange node_silent m1).2).
  destruct (C4_missing_cookie_in_jar node_silent GetWorkspaces (started alice)
              m1 m2 {| status := 200;
                       data := plain_body None;
                       set_cookies := [] |})
    as (-> & -> & _).
  - reflexivity.
  - vm_compute. reflexivity.
  - vm_compute. discriminate.
  - vm_compute. reflexivity.
  - intros c Hc. vm_compute in Hc. inversion Hc.
  - split; reflexivity.
Defined.

(** C5.  In a browser, when the bootstrap reaches the login exchange, the
    exchange succeeds and the document cookies hold no [access_token], the
    bootstrap returns without an error; the session token is undefined
    afterwards and neither [axiosConfig] nor the axios instance has an
    Impact-Authorization header. *)
Theorem C5_ambient_absent_cookie (w : World) (m m1 m2 : Machine)
    (r : AxiosResponse) :
  isNode w = false →
  reachable w m →
  resolve_path w m = (inr tt, m1) →
  ¬ holds_token m1 →
  login_exchange w m1 = (inr r, m2) →
  Js.occurrences "; access_token=" ("; " +:+ document_cookie w (log m2)) = 0 →
  ∃ m',
    ensureImpactToken w m = (inr tt, m')
    ∧ impactToken (api m') = None
    ∧ service_auth (cfg_headers (axiosConfig (api m'))) = None
    ∧ service_auth (cfg_headers (defaults (axios (api m')))) = None.
Proof.
  intros Hnode Hreach Hres Htok Hlogin Hdoc.
  apply reachable_current in Hreach.
  assert (current w m1) as Hc1.
  { rewrite resolve_path_eq in Hres.
    apply current_ensureAxiosConfig, current_ensureJhUserPath in Hreach.
    by rewrite Hres in Hreach. }
  pose proof (login_exchange_api w m1) as Ha. rewrite Hlogin in Ha. cbn in Ha.
  destruct Hc1 as [Hi Hh Hamb]. specialize (Hamb Hnode).
  unfold holds_token in Htok.
  destruct (Js.truthy (impactToken (api m1))) eqn:Ht; [done|].
  exists (with_api (set_impactToken None) m2).
  split; [|split; [done|]].
  - rewrite ensureImpactToken_eq, Hres, Ht, Hlogin, read_access_token_eq.
    unfold getNodeCookieJar. rewrite Ha, Hamb.
    rewrite getCookieValue_none;
      [|by repeat split
       |change ("; " +:+ "access_token" +:+ "=") with "; access_token=";
        by rewrite Hdoc].
    unfold ensureAxiosConfig. by rewrite Hnode.
  - cbn. rewrite Ha, Hi, Hh, service_auth_headers, Ht. done.
Qed.

(** A browser whose document cookies hold other entries only. *)
Lemma C5_witness :
  ∃ m',
    ensureImpactToken browser_silent (started alice) = (inr tt, m')
    ∧ impactToken (api m') = None
    ∧ service_auth (cfg_headers (axiosConfig (api m'))) = None
    ∧ service_auth (cfg_headers (defaults (axios (api m')))) = None.
Proof.
  pose (m1 := (resolve_path browser_silent (started alice)).2).
  pose (m2 := (login_exchange browser_silent m1).2).
  apply (C5_ambient_absent_cookie browser_silent (started alice) m1 m2
           {| status := 200;
              data := plain_body None;
              set_cookies := [] |}).
  - reflexivity.
  - apply (reachable_new browser_silent
             {| arg_impactApiKey := Some "sk_abc"; arg_impactToken := None;
                arg_jupyterHubToken := Some "tok123";
                arg_serverAddress := "https://host";
                arg_jupyterHubUserPath := Some "/user/alice/" |}).
    reflexivity.
  - vm_compute. reflexivity.
  - vm_compute. discriminate.
  - vm_compute. reflexivity.
  - vm_compute. reflexivity.
Defined.

(** C6.  Over any sequence of domain operations called one after the other:
    a client that holds a routing path keeps it and sends no gateway lookup;
    a client that holds a session token keeps it and sends no login
    exchange, so that at most one is ever sent once a token is known.  A
    routing path or a token given to the constructor is held from the
    start, so such a client never sends the lookup, or the login exchange,
    at all. *)
Theorem C6_path_and_token_resolved_once (w : World) (ops : list Op) :
  (∀ m, let m' := (calls w ops m).2 in
     (holds_path m →
        jhUserPath (api m') = jhUserPath (api m)
        ∧ sent_from GatewayLookup (log m') = sent_from GatewayLookup (log m))
     ∧ (holds_token m →
        impactToken (api m') = impactToken (api m)
        ∧ sent_from LoginExchange (log m') = sent_from LoginExchange (log m)))
  ∧ (∀ args a, new_Api args = inr a →
       let m' := (calls w ops (boot a)).2 in
       (Js.truthy (arg_jupyterHubUserPath args) = true →
          sent_from GatewayLookup (log m') = [])
       ∧ (Js.truthy (arg_impactToken args) = true →
          sent_from LoginExchange (log m') = [])).
Proof.
  split.
  - intros m. apply calls_frame.
  - intros args a Ha. destruct (new_Api_inv _ _ Ha) as (_ & Et & _ & _ & _ & Ep).
    destruct (calls_frame w ops (boot a)) as [Hp Ht]. cbn zeta in *.
    split; intros H.
    + by destruct Hp as [_ ->]; [unfold holds_path; cbn; by rewrite Ep|].
    + by destruct Ht as [_ ->]; [unfold holds_token; cbn; by rewrite Et|].
Qed.

(** C6, at a client constructed with a routing path and a session token. *)
Lemma C6_witness :
  let m' := (calls node_silent [GetWorkspaces; GetCases "e1" "ws1"]
               (started alice_with_token)).2 in
  sent_from GatewayLookup (log m') = []
  ∧ sent_from LoginExchange (log m') = [].
Proof.
  destruct (C6_path_and_token_resolved_once node_silent
              [GetWorkspaces; GetCases "e1" "ws1"]) as [H _].
  destruct (H (started alice_with_token)) as [Hp Ht].
  split.
  - apply Hp. reflexivity.
  - apply Ht. reflexivity.
Defined.

(** The claim as the specification words it: after a first call in node a
    jar is bound, and [setImpactToken] leaves none bound. *)
Lemma C7_counterexample :
  jar (axiosConfig (api (setImpactToken "newtok"
         (call node_silent GetWorkspaces (started alice_with_token)).2)))
  ≠ jar (axiosConfig (api
         (call node_silent GetWorkspaces (started alice_with_token)).2)).
Proof. vm_compute. discriminate. Qed.

(** C7, amended.  [setImpactToken] stores the token and rebuilds the
    transport from the credentials alone: the new configuration has the
    Authorization header of the gateway credential, the
    Impact-Authorization header of the token when the token is not empty,
    and no jar bound, whatever was bound before; the instance is a plain
    one created from it.  Nothing is sent and the jars in the store keep
    their cookies.  The [ensureAxiosConfig] that follows finds, in node, a
    configuration without a jar and rebuilds: it binds a jar that was not in
    the store before and holds no cookie, keeps the headers, wraps the
    instance for it and leaves the jars that were there as they are.  In a
    browser it changes nothing. *)
Theorem C7_force_rebuild (w : World) (token : string) (m : Machine) :
  let m' := setImpactToken token m in
  let c := axiosConfig (api m') in
  let next := (ensureAxiosConfig w m').2 in
  impactToken (api m') = Some token
  ∧ cfg_headers c !! "Authorization" = Some ("token " +:+ jhToken (api m))
  ∧ service_auth (cfg_headers c)
    = (if decide (token = EmptyString) then None else Some ("Bearer " +:+ token))
  ∧ jar c = None
  ∧ axios (api m') = Axios_create c
  ∧ jars m' = jars m
  ∧ log m' = log m
  ∧ (isNode w = true →
       jar (axiosConfig (api next)) = Some (length (jars m))
       ∧ jars m !! length (jars m) = None
       ∧ jars next = jars m ++ [[]]
       ∧ cfg_headers (axiosConfig (api next)) = cfg_headers c
       ∧ axios (api next) = wrapper (Axios_create (axiosConfig (api next)))
       ∧ session (api next) = session (api m')
       ∧ log next = log m)
  ∧ (isNode w = false → next = m').
Proof.
  cbn zeta.
  assert (stale w (api (setImpactToken token m)) = isNode w) as Hstale.
  { unfold stale, isConfiguredForNode.
    rewrite (isConfiguredForImpact_headers _ (Some token)) by done.
    cbn. destruct (isNode w); [done|]. by destruct token. }
  split; [done|]. split; [cbn; by rewrite gateway_auth_headers|].
  split; [cbn; rewrite service_auth_headers; by destruct token|].
  do 4 (split; [done|]). split; intros Hnode.
  - unfold stale in Hstale. rewrite Hnode in Hstale.
    unfold ensureAxiosConfig. rewrite Hnode, Hstale. cbn.
    repeat split. apply lookup_ge_None_2. lia.
  - unfold stale in Hstale. rewrite Hnode in Hstale.
    unfold ensureAxiosConfig. by rewrite Hnode, Hstale.
Qed.

(** In node, after a first call has bound a jar: [setImpactToken] leaves
    none bound, and the next [ensureAxiosConfig] binds a second one. *)
Lemma C7_witness :
  jar (axiosConfig (api
         (call node_silent GetWorkspaces (started alice_with_token)).2))
  = Some 0
  ∧ jar (axiosConfig (api
      (ensureAxiosConfig node_silent
         (setImpactToken "newtok"
            (call node_silent GetWorkspaces (started alice_with_token)).2)).2))
    = Some 1.
Proof.
  split; [reflexivity|].
  destruct (C7_force_rebuild node_silent "newtok"
              (call node_silent GetWorkspaces (started alice_with_token)).2)
    as (_ & _ & _ & _ & _ & _ & _ & Hnode & _).
  destruct (Hnode eq_refl) as [-> _]. reflexivity.
Defined.

(** C8.  After [setImpactToken token] with a non-empty token, every request
    the next domain operation sends carries the header
    Impact-Authorization: Bearer [token], none of them is a login exchange,
    and when the client holds a routing path exactly one request of the
    domain operation is sent. *)
Theorem C8_next_call_bears_token (w : World) (op : Op) (m : Machine)
    (token : string) :
  token ≠ EmptyString →
  let m' := (call w op (setImpactToken token m)).2 in
  ∃ new,
    log m' = log m ++ new
    ∧ Forall (λ x, service_auth (headers (request x))
                   = Some ("Bearer " +:+ token)) new
    ∧ sent_from LoginExchange new = []
    ∧ (holds_path m → ∃ req, sent_from DomainRequest new = [req]).
Proof.
  intros Hne. set (m0 := setImpactToken token m).
  assert (Js.truthy (Some token) = true) as Htr by (by destruct token).
  assert (bears token m0) as Hb0.
  { split; [done|]. cbn. by rewrite service_auth_headers, Htr. }
  assert (log m0 = log m) as Hl0 by done.
  assert (jhUserPath (api m0) = jhUserPath (api m)) as Hp0 by done.
  clearbody m0.
  (* the bootstrap *)
  assert (∃ new1,
            log (ensureImpactToken w m0).2 = log m ++ new1
            ∧ Forall (λ x, service_auth (headers (request x))
                           = Some ("Bearer " +:+ token)) new1
            ∧ sent_from LoginExchange new1 = []
            ∧ sent_from DomainRequest new1 = []
            ∧ bears token (ensureImpactToken w m0).2
            ∧ (holds_path m → (ensureImpactToken w m0).1 = inr tt))
    as (new1 & Hl1 & Hf1 & Hlog1 & Hdom1 & Hb1 & Hok1).
  { rewrite ensureImpactToken_eq, resolve_path_eq.
    pose proof (bears_ensureAxiosConfig w token m0 Hne Hb0) as Hb.
    pose proof (ensureAxiosConfig_log w m0) as Hl.
    pose proof (ensureAxiosConfig_path w m0) as Hp.
    remember (ensureAxiosConfig w m0).2 as ma eqn:E. clear E.
    destruct Hb as [Ht Hh].
    destruct (decide (holds_path ma)) as [Hpa|Hpa].
    - rewrite ensureJhUserPath_held by done. rewrite Ht, Htr.
      exists []. cbn [fst snd]. rewrite app_nil_r, Hl, Hl0. by repeat split.
    - rewrite (ensureJhUserPath_lookup w ma Hpa).
      pose proof (gateway_lookup_api w ma) as Ha.
      destruct (gateway_lookup_log w ma) as (req & Hlg & Hreq).
      exists [ {| site := GatewayLookup; request := req |} ].
      assert (Forall (λ x, service_auth (headers (request x))
                           = Some ("Bearer " +:+ token))
                [ {| site := GatewayLookup; request := req |} ]) as Hf.
      { constructor; [|done]. cbn. by rewrite Hreq, map_empty_union. }
      assert (holds_path m → False) as Hnp.
      { unfold holds_path in *. congruence. }
      destruct (gateway_lookup w ma) as [[e|r] mb]; cbn [snd] in Ha, Hlg.
      + assert (bears token mb) as [? ?] by (unfold bears; by rewrite Ha).
        destruct e; cbn [fst snd]; rewrite Hlg, Hl, Hl0; by repeat split.
      + assert (bears token mb) as [? ?] by (unfold bears; by rewrite Ha).
        destruct (data r) as [d|]; [destruct (Js.truthy (server d))|];
          cbn [fst snd].
        * assert (bears token (with_api (set_jhUserPath (server d)) mb))
            as [Hb1 Hb2] by (unfold bears; cbn; by rewrite Ha).
          rewrite Hb1, Htr. cbn [fst snd with_api log].
          rewrite Hlg, Hl, Hl0. by repeat split.
        * rewrite Hlg, Hl, Hl0. by repeat split.
        * rewrite Hlg, Hl, Hl0. by repeat split. }
  (* the request of the operation *)
  destruct (call_session_call w op) as (endpoint & -> & Hep & _).
  destruct (session_call_state w endpoint m0) as [Ha Hl]. cbn zeta in Ha, Hl.
  destruct Hl as [[[e He] Hl]|(Hok & req & Hl & Hreq)].
  - exists new1. rewrite Hl, Hl1. repeat split; try done.
    intros Hp. rewrite (Hok1 Hp) in He. done.
  - exists (new1 ++ [ {| site := DomainRequest; request := req |} ]).
    rewrite Hl, Hl1, app_assoc. split; [done|]. split; [|split].
    + apply Forall_app. split; [done|]. constructor; [|done]. cbn.
      rewrite Hreq, service_auth_union by done. by destruct Hb1.
    + by rewrite sent_from_app, Hlog1.
    + intros _. exists req. by rewrite sent_from_app, Hdom1.
Qed.

(** The token [newtok] given to the client of the scenario. *)
Lemma C8_witness :
  ∃ new,
    log (call node_silent GetWorkspaces
           (setImpactToken "newtok" (started alice))).2
    = log (started alice) ++ new
    ∧ Forall (λ x, service_auth (headers (request x)) = Some "Bearer newtok") new
    ∧ sent_from LoginExchange new = []
    ∧ (holds_path (started alice) → ∃ req, sent_from DomainRequest new = [req]).
Proof.
  apply (C8_next_call_bears_token node_silent GetWorkspaces (started alice) "newtok").
  discriminate.
Defined.

(** C9.  When the gateway credential is absent or empty, both factories
    (and the constructor behind them) throw [MissingJupyterHubToken].  The
    constructor is a function of its arguments alone: no client exists
    after the throw, and nothing has been sent. *)
Theorem C9_constructor_requires_gateway_credential
    (jupyterHubToken : option string) :
  jupyterHubToken = None ∨ jupyterHubToken = Some EmptyString →
  (∀ impactApiKey jupyterHubUserPath serverAddress,
     fromImpactApiKey impactApiKey jupyterHubToken jupyterHubUserPath serverAddress
     = inl missing_jupyter_hub_token)
  ∧ (∀ impactToken jupyterHubUserPath serverAddress,
     fromImpactToken impactToken jupyterHubToken jupyterHubUserPath serverAddress
     = inl missing_jupyter_hub_token)
  ∧ (∀ args, arg_jupyterHubToken args = jupyterHubToken →
     new_Api args = inl missing_jupyter_hub_token).
Proof.
  intros H.
  assert (Js.truthy jupyterHubToken = false) as Hf by (by destruct H as [-> | ->]).
  assert (∀ args, arg_jupyterHubToken args = jupyterHubToken →
          new_Api args = inl missing_jupyter_hub_token) as Hnew.
  { intros args Ha. unfold new_Api. by rewrite Ha, Hf. }
  split; [|split]; [intros; by apply Hnew..|done].
Qed.

(** An empty gateway credential. *)
Lemma C9_witness :
  fromImpactApiKey (Some "sk_abc") (Some "") (Some "/user/alice/") "https://host"
  = inl missing_jupyter_hub_token
  ∧ fromImpactToken (Some "tok") (Some "") None "https://host"
    = inl missing_jupyter_hub_token.
Proof.
  destruct (C9_constructor_requires_gateway_credential (Some ""))
    as (H1 & H2 & _).
  - right. reflexivity.
  - split; [apply H1|apply H2].
Defined.

(** C10.  [getCookieValue] looks for the cookie name at the head of an entry
    of [document.cookie]: for the text ["; access_token="] in
    ["; " + document.cookie].  It returns a value exactly when that text
    occurs once, and [undefined] when it occurs not at all or more than
    once.  The value it returns is what follows the one occurrence, up to
    the next [;] or to the end. *)
Theorem C10_access_token_exactly_once (doc : string) :
  let n := Js.occurrences "; access_token=" ("; " +:+ doc) in
  (is_Some (getCookieValue doc "access_token") ↔ n = 1)
  ∧ (getCookieValue doc "access_token" = None ↔ n ≠ 1)
  ∧ (∀ v, getCookieValue doc "access_token" = Some v →
       Js.absent ";" v
       ∧ ∃ before rest,
           "; " +:+ doc = before +:+ "; access_token=" +:+ v +:+ rest
           ∧ (rest = EmptyString ∨ ∃ rest', rest = String ";" rest')).
Proof.
  intros n.
  assert (Js.absent ";" "access_token") as Hkey by (by repeat split).
  assert (n = 1 → ∃ before v rest,
            getCookieValue doc "access_token" = Some v
            ∧ "; " +:+ doc = before +:+ "; access_token=" +:+ v +:+ rest
            ∧ Js.absent ";" v
            ∧ (rest = EmptyString ∨ ∃ rest', rest = String ";" rest')) as Hone.
  { intros Hn. by apply (getCookieValue_some doc "access_token" Hkey). }
  assert (n ≠ 1 → getCookieValue doc "access_token" = None) as Hnone.
  { intros Hn. by apply (getCookieValue_none doc "access_token" Hkey). }
  destruct (decide (n = 1)) as [Hn|Hn].
  - destruct (Hone Hn) as (before & v & rest & Hv & Hdoc & Habs & Hrest).
    rewrite Hv. split; [done|]. split; [done|].
    intros v' [= <-]. eauto.
  - rewrite (Hnone Hn). split; [|done].
    split; [by intros [? ?]|done].
Qed.

(** * Further properties *)

(** ** What the steps throw *)

Section throws.

Variable w : World.

Lemma gateway_lookup_throws m e :
  (gateway_lookup w m).1 = inl e → ∃ ae, e = ThrownAxios ae.
Proof. apply axios_request_throws. Qed.

Lemma login_exchange_throws m e :
  (login_exchange w m).1 = inl e → ∃ ae, e = ThrownAxios ae.
Proof. apply axios_request_throws. Qed.

Lemma axios_request_answer s mth u b hs m r m' :
  axios_request w s mth u b hs m = (inr r, m') →
  ∃ req,
    transport w (log m) req = inr r
    ∧ method req = mth ∧ url req = u ∧ body req = b
    ∧ log m' = log m ++ [ {| site := s; request := req |} ]
    ∧ api m' = api m.
Proof.
  unfold axios_request. cbv zeta.
  destruct (transport w (log m) _) as [ae|r'] eqn:E; [done|].
  intros [= <- <-]. eexists. by split; [exact E|].
Qed.

(** The path resolution throws an [ApiError], or the [TypeError] of a
    lookup answered without a body. *)
Lemma ensureJhUserPath_throws m e :
  (ensureJhUserPath w m).1 = inl e →
  (∃ a, e = ThrownApi a)
  ∨ (e = type_error ∧ ∃ l req r, transport w l req = inr r ∧ data r = None).
Proof.
  destruct (decide (holds_path m)) as [Hp|Hp].
  { by rewrite ensureJhUserPath_held. }
  rewrite (ensureJhUserPath_lookup w m Hp).
  pose proof (gateway_lookup_throws m) as Hax.
  destruct (gateway_lookup w m) as [[e'|r] m'] eqn:E; cbn [fst] in Hax.
  - destruct (Hax e' eq_refl) as [ae ->]. cbn. intros [= <-]. left. by eexists.
  - destruct (data r) as [d|] eqn:Ed.
    + destruct (Js.truthy (server d)); cbn; [done|].
      intros [= <-]. left. by eexists.
    + cbn. intros [= <-]. right. split; [done|].
      unfold gateway_lookup in E. async.
      destruct (axios_request_answer _ _ _ _ _ _ _ _ E) as (req & Ht & _).
      by exists (log m), req, r.
Qed.

Lemma read_access_token_throws m e :
  (read_access_token w m).1 = inl e → e = missing_access_token_cookie.
Proof.
  rewrite read_access_token_eq.
  destruct (getNodeCookieJar (api m)); [|done].
  unfold getValueFromJarCookies. destruct (find _ _); [done|].
  by intros [= <-].
Qed.

Lemma ensureImpactToken_throws m e :
  (ensureImpactToken w m).1 = inl e →
  (∃ a, e = ThrownApi a) ∨ (∃ ae, e = ThrownAxios ae)
  ∨ (e = type_error ∧ ∃ l req r, transport w l req = inr r ∧ data r = None).
Proof.
  rewrite ensureImpactToken_eq, resolve_path_eq.
  pose proof (ensureJhUserPath_throws (ensureAxiosConfig w m).2) as H1.
  destruct (ensureJhUserPath w (ensureAxiosConfig w m).2) as [[e1|[]] m1];
    cbn [fst] in *.
  { intros [= <-]. destruct (H1 e1 eq_refl) as [?|?]; auto. }
  destruct (Js.truthy (impactToken (api m1))); [done|].
  pose proof (login_exchange_throws m1) as H2.
  destruct (login_exchange w m1) as [[e2|r] m2]; cbn [fst] in *.
  { intros [= <-]. right. left. by apply H2. }
  pose proof (read_access_token_throws m2) as H3.
  destruct (read_access_token w m2) as [[e3|[]] m3]; cbn [fst] in *.
  { intros [= <-]. left. rewrite (H3 e3 eq_refl). by eexists. }
  by rewrite ensureAxiosConfig_returns.
Qed.

Lemma toApiError_ApiError e :
  (∃ a, e = ThrownApi a) ∨ (∃ ae, e = ThrownAxios ae) →
  ∃ a, toApiError e = ThrownApi a.
Proof. intros [[a ->]|[ae ->]]; by eexists. Qed.

(** What the callbacks of the domain operations throw: the [TypeError] of
    an answer they cannot read. *)
Lemma call_projection op :
  ∃ endpoint,
    call w op = session_call w endpoint
    ∧ ∀ a r e, ep_payload (endpoint a) r = inl e →
               e = type_error ∧ readable r = false.
Proof.
  destruct op; (eexists; split; [reflexivity|]); intros a r e;
    cbn [ep_payload get_endpoint]; unfold optional, member, data_items, readable;
    try done;
    (destruct (data r) as [d|]; cbn [members];
       [try destruct (has_data d)|]; try done; by intros [= <-]).
Qed.

Lemma session_call_rejects endpoint m e m' :
  (∀ a r e, ep_payload (endpoint a) r = inl e →
            e = type_error ∧ readable r = false) →
  session_call w endpoint m = (Rejected e, m') →
  (∃ a, e = ThrownApi a)
  ∨ (e = type_error ∧ ∃ l req r, transport w l req = inr r ∧ readable r = false).
Proof.
  intros Hpay. unfold session_call.
  pose proof (ensureImpactToken_throws m) as Hb.
  destruct (ensureImpactToken w m) as [[e0|[]] m1]; cbn [fst] in Hb.
  - intros [= <- <-].
    destruct (Hb e0 eq_refl) as [H|[H|[-> (l & req & r & Ht & Hd)]]].
    + left. apply toApiError_ApiError. by left.
    + left. apply toApiError_ApiError. by right.
    + right. split; [done|]. exists l, req, r. split; [done|].
      unfold readable. by rewrite Hd.
  - set (ep := endpoint (api m1)).
    pose proof (axios_request_throws w DomainRequest (ep_method ep) (ep_url ep)
                  (ep_body ep) (ep_headers ep) m1) as Hax.
    destruct (axios_request w _ _ _ _ _ m1) as [[e1|r] m2] eqn:E;
      cbn [fst] in Hax.
    + destruct (ep_catch ep); [|done].
      intros [= <- <-]. left. apply toApiError_ApiError. right. by apply Hax.
    + destruct (ep_payload ep r) as [e1|p] eqn:Ep; [|done].
      destruct (ep_catch ep); [|done].
      destruct (Hpay _ _ _ Ep) as [-> Hr].
      intros [= <- <-]. right. split; [done|].
      destruct (axios_request_answer _ _ _ _ _ _ _ _ E) as (req & Ht & _).
      by exists (log m1), req, r.
Qed.

Lemma session_call_resolved endpoint m p m' :
  session_call w endpoint m = (Resolved p, m') →
  ∃ m1 r,
    ensureImpactToken w m = (inr tt, m1)
    ∧ axios_request w DomainRequest (ep_method (endpoint (api m1)))
        (ep_url (endpoint (api m1))) (ep_body (endpoint (api m1)))
        (ep_headers (endpoint (api m1))) m1 = (inr r, m')
    ∧ ep_payload (endpoint (api m1)) r = inr p.
Proof.
  unfold session_call.
  destruct (ensureImpactToken w m) as [[e0|[]] m1]; [done|].
  destruct (axios_request w _ _ _ _ _ m1) as [[e1|r] m2] eqn:E.
  - by destruct (ep_catch _).
  - destruct (ep_payload _ r) as [e1|p'] eqn:Ep; [by destruct (ep_catch _)|].
    intros [= <- <-]. by exists m1, r.
Qed.

Lemma call_payload op :
  ∃ endpoint,
    call w op = session_call w endpoint
    ∧ ∀ a r p,
        ep_payload (endpoint a) r = inr p →
        p = Void
        ∨ (∃ path, p = Member path (data r))
        ∨ (∃ id ws, p = NewExperiment id ws).
Proof.
  destruct op; (eexists; split; [reflexivity|]); intros a r p;
    cbn [ep_payload get_endpoint]; unfold optional, member, data_items;
    try (destruct (data r) as [d|]; cbn [members];
           [try destruct (has_data d)|]; try done);
    intros [= <-]; eauto.
Qed.

End throws.

(** ** How the promise of a domain operation settles *)

(** X1.  Whatever the world does, a domain operation never rejects with an
    [AxiosError] as it is: the failures of the lookup, of the login exchange
    and of its own request are turned into [ApiError]s.  A rejection that is
    not an [ApiError] is the [TypeError] of a successful answer the code
    could not read: one without a body, or without the [data] member the
    operation reads [items] from. *)
Theorem X1_rejections_are_classified (w : World) (op : Op) (m m' : Machine)
    (e : Thrown) :
  call w op m = (Rejected e, m') →
  (∃ a, e = ThrownApi a)
  ∨ (e = type_error
     ∧ ∃ l req r, transport w l req = inr r ∧ readable r = false).
Proof.
  destruct (call_projection w op) as (endpoint & -> & Hpay).
  by apply session_call_rejects.
Qed.

Lemma X1_witness :
  (∃ a, jh_token_error (Some 401%Z) = ThrownApi a)
  ∨ (jh_token_error (Some 401%Z) = type_error
     ∧ ∃ l req r, transport node_401 l req = inr r ∧ readable r = false).
Proof.
  apply (X1_rejections_are_classified node_401 GetWorkspaces (started bob)
           (call node_401 GetWorkspaces (started bob)).2).
  vm_compute. reflexivity.
Defined.

(** X2.  Every domain operation other than [getExperimentTrajectories]
    settles its promise, in every world and from every state: it resolves or
    it rejects. *)
Theorem X2_all_but_trajectories_settle (w : World) (op : Op) (m : Machine) :
  (∀ e vs ws, op ≠ GetExperimentTrajectories e vs ws) →
  (call w op m).1 ≠ Pending.
Proof.
  intros Hop. destruct (call_session_call w op) as (endpoint & -> & _ & Hcatch).
  unfold session_call.
  destruct (ensureImpactToken w m) as [[e0|[]] m1]; [done|].
  destruct (ep_catch (endpoint (api m1))) eqn:E.
  - destruct (axios_request w _ _ _ _ _ m1) as [[e1|r] m2]; [done|].
    by destruct (ep_payload _ r).
  - destruct (Hcatch _ E) as (e & vs & ws & ->). by destruct (Hop e vs ws).
Qed.

Lemma X2_witness :
  (call node_500 (GetCaseTrajectories "c1" "e1" ["x"] "ws1")
     (started alice_with_token)).1 ≠ Pending.
Proof.
  apply X2_all_but_trajectories_settle. intros e vs ws. discriminate.
Defined.

(** X3.  A domain operation resolves only if its bootstrap succeeded and
    its own request was sent, as the last one, and answered; what it
    resolves with is nothing, a fresh [Experiment], or a member of the body
    of that answer. *)
Theorem X3_resolved_means_answered (w : World) (op : Op) (m m' : Machine)
    (p : Payload) :
  call w op m = (Resolved p, m') →
  ∃ m1 req r,
    ensureImpactToken w m = (inr tt, m1)
    ∧ transport w (log m1) req = inr r
    ∧ log m' = log m1 ++ [ {| site := DomainRequest; request := req |} ]
    ∧ api m' = api m1
    ∧ (p = Void
       ∨ (∃ path, p = Member path (data r))
       ∨ (∃ id ws, p = NewExperiment id ws)).
Proof.
  destruct (call_payload w op) as (endpoint & -> & Hpay). intros H.
  destruct (session_call_resolved w endpoint m p m' H) as (m1 & r & Hb & Hreq & Hp).
  destruct (axios_request_answer w _ _ _ _ _ _ _ _ Hreq)
    as (req & Ht & _ & _ & _ & Hl & Ha).
  exists m1, req, r. repeat split; try done. by apply (Hpay (api m1)).
Qed.

Lemma X3_witness :
  ∃ m1, ensureImpactToken node_login (started alice) = (inr tt, m1).
Proof.
  destruct (X3_resolved_means_answered node_login GetWorkspaces (started alice)
              (call node_login GetWorkspaces (started alice)).2
              (Member ["data"; "items"]
                 (plain_body (Some "/user/bob/"))))
    as (m1 & _ & _ & Hb & _).
  - vm_compute. reflexivity.
  - exists m1. exact Hb.
Defined.

(** X4.  When the bootstrap reaches the login exchange and the exchange
    fails at the transport level, the domain operation rejects with what
    [toApiError] makes of that failure, its own request is not sent, and the
    client holds no more than before: the session token is as it was. *)
Theorem X4_login_failure (w : World) (op : Op) (m m1 m2 : Machine)
    (ae : AxiosError) :
  resolve_path w m = (inr tt, m1) →
  ¬ holds_token m1 →
  login_exchange w m1 = (inl (ThrownAxios ae), m2) →
  call w op m = (Rejected (toApiError (ThrownAxios ae)), m2)
  ∧ impactToken (api m2) = impactToken (api m)
  ∧ sent_from DomainRequest (log m2) = sent_from DomainRequest (log m).
Proof.
  intros Hres Htok Hlogin.
  assert (ensureImpactToken w m = (inl (ThrownAxios ae), m2)) as H.
  { rewrite ensureImpactToken_eq, Hres. unfold holds_token in Htok.
    destruct (Js.truthy (impactToken (api m1))); [done|]. by rewrite Hlogin. }
  split; [by apply call_on_bootstrap_failure|]. split.
  - pose proof (login_exchange_api w m1) as Ha. rewrite Hlogin in Ha. cbn in Ha.
    rewrite resolve_path_eq in Hres.
    destruct (ensureJhUserPath_frame w (ensureAxiosConfig w m).2) as (E & _).
    cbn zeta in E. rewrite Hres in E. cbn in E.
    by rewrite Ha, E, ensureAxiosConfig_token.
  - pose proof (ensureImpactToken_no_domain w m) as Hd. by rewrite H in Hd.
Qed.

Lemma X4_witness :
  (call node_500 GetWorkspaces (started alice)).1
  = Rejected (ThrownApi {| errorCode := UnknownApiError;
                           httpCode := Some 500%Z;
                           message := "Api Error" |}).
Proof.
  pose (m1 := (resolve_path node_500 (started alice)).2).
  pose (m2 := (login_exchange node_500 m1).2).
  destruct (X4_login_failure node_500 GetWorkspaces (started alice) m1 m2
              {| response := Some {| err_status := 500; err_error := None;
                                     err_cookies := [] |} |}) as (-> & _).
  - vm_compute. reflexivity.
  - vm_compute. discriminate.
  - vm_compute. reflexivity.
  - reflexivity.
Defined.

(** ** The routing path given to the constructor *)

Lemma rev_app_append p q acc :
  String.rev_app (p +:+ q) acc = String.rev_app q (String.rev_app p acc).
Proof.
  revert acc. induction p as [|a p IH]; intros acc; [done|].
  change (String a p +:+ q) with (String a (p +:+ q)).
  cbn [String.rev_app]. apply IH.
Qed.

Lemma ends_with_slash p : Js.ends_with "/" (p +:+ "/") = true.
Proof.
  unfold Js.ends_with, String.rev. rewrite rev_app_append.
  cbn [String.rev_app Js.starts_with]. by case_decide.
Qed.

(** X5.  The constructor stores no routing path when none, or an empty one,
    is given.  A non-empty one is stored so that it ends with a slash: as it
    is when it already does, with a slash added otherwise. *)
Theorem X5_routing_path_ends_with_slash (args : ApiArgs) (a : Api) :
  new_Api args = inr a →
  (Js.truthy (arg_jupyterHubUserPath args) = false → jhUserPath a = None)
  ∧ (∀ p, arg_jupyterHubUserPath args = Some p → p ≠ EmptyString →
       ∃ q, jhUserPath a = Some q
            ∧ Js.ends_with "/" q = true
            ∧ (Js.ends_with "/" p = true → q = p)
            ∧ (Js.ends_with "/" p = false → q = p +:+ "/")).
Proof.
  intros Ha.
  assert (jhUserPath a
          = if Js.truthy (arg_jupyterHubUserPath args)
            then Some (Js.tmpl (arg_jupyterHubUserPath args)
                       +:+ (if Js.ends_with "/" (Js.tmpl (arg_jupyterHubUserPath args))
                            then "" else "/"))
            else None) as ->.
  { unfold new_Api in Ha. destruct (negb _); [done|]. by injection Ha as <-. }
  split.
  - by intros ->.
  - intros p -> Hp.
    assert (Js.truthy (Some p) = true) as -> by (by destruct p).
    change (Js.tmpl (Some p)) with p.
    destruct (Js.ends_with "/" p) eqn:E.
    + assert (p +:+ "" = p) as ->.
      { clear. induction p as [|c p IH]; [done|].
        change (String c p +:+ "") with (String c (p +:+ "")). by rewrite IH. }
      by exists p.
    + exists (p +:+ "/"). by rewrite ends_with_slash.
Qed.

Lemma X5_witness :
  ∃ q, jhUserPath (api (started
         (fromImpactApiKey (Some "sk_abc") (Some "tok123") (Some "/user/alice")
            "https://host"))) = Some q
       ∧ Js.ends_with "/" q = true
       ∧ (Js.ends_with "/" "/user/alice" = true → q = "/user/alice")
       ∧ (Js.ends_with "/" "/user/alice" = false → q = "/user/alice/").
Proof.
  refine (proj2 (X5_routing_path_ends_with_slash
    {| arg_impactApiKey := Some "sk_abc"; arg_impactToken := None;
       arg_jupyterHubToken := Some "tok123";
       arg_serverAddress := "https://host";
       arg_jupyterHubUserPath := Some "/user/alice" |} _ _) "/user/alice" _ _).
  - reflexivity.
  - reflexivity.
  - discriminate.
Defined.

(** ** Rebuilding the transport, and bootstrapping, twice *)

Section twice.

Variable w : World.

Lemma ensureAxiosConfig_settled m :
  stale w (api m) = false → ensureAxiosConfig w m = (inr tt, m).
Proof.
  unfold stale, ensureAxiosConfig. destruct (isNode w); by intros ->.
Qed.

Lemma stale_ensureAxiosConfig m : stale w (api (ensureAxiosConfig w m).2) = false.
Proof.
  unfold ensureAxiosConfig.
  destruct (isNode w) eqn:Hnode.
  - destruct (negb (isConfiguredForNode (api m))
              || Js.truthy (impactToken (api m))
                 && negb (isConfiguredForImpact (api m))) eqn:Hc.
    + unfold stale. rewrite Hnode. cbn [snd api].
      rewrite (isConfiguredForImpact_headers _ (impactToken (api m))) by done.
      cbn. by destruct (Js.truthy (impactToken (api m))).
    + unfold stale. by rewrite Hnode.
  - destruct (Js.truthy (impactToken (api m))
              && negb (isConfiguredForImpact (api m))) eqn:Hc.
    + unfold stale. rewrite Hnode. cbn [snd api with_api].
      apply andb_true_iff in Hc as [Ht _].
      unfold isConfiguredForImpact. cbn [axiosConfig set_transport cfg_headers].
      rewrite lookup_insert_eq. cbn. by rewrite andb_false_r.
    + unfold stale. by rewrite Hnode.
Qed.

Lemma stale_frame a a' :
  axiosConfig a' = axiosConfig a → impactToken a' = impactToken a →
  stale w a' = stale w a.
Proof.
  unfold stale, isConfiguredForNode, isConfiguredForImpact. by intros -> ->.
Qed.

Lemma ensureJhUserPath_ok m m' :
  ensureJhUserPath w m = (inr tt, m') → holds_path m'.
Proof.
  destruct (decide (holds_path m)) as [Hp|Hp].
  { rewrite ensureJhUserPath_held by done. by intros [= <-]. }
  rewrite (ensureJhUserPath_lookup w m Hp).
  destruct (gateway_lookup w m) as [[[]|r] m1]; try done.
  destruct (data r) as [d|]; [|done].
  destruct (Js.truthy (server d)) eqn:E; [|done].
  by intros [= <-].
Qed.

Lemma ensureImpactToken_ok m m' :
  ensureImpactToken w m = (inr tt, m') →
  holds_path m' ∧ stale w (api m') = false
  ∧ (isNode w = true →
     is_Some (jar (axiosConfig (api m'))) ∧ is_Some (impactToken (api m'))).
Proof.
  rewrite ensureImpactToken_eq, resolve_path_eq.
  pose proof (stale_ensureAxiosConfig m) as Hs0.
  pose proof (ensureAxiosConfig_node w m) as Hj0.
  remember (ensureAxiosConfig w m).2 as m0 eqn:E0. clear E0.
  destruct (ensureJhUserPath_frame w m0) as (Et & _ & Ec & _). cbn zeta in *.
  pose proof (ensureJhUserPath_ok m0) as Hp1.
  destruct (ensureJhUserPath w m0) as [[e|[]] m1]; [done|]. cbn [snd] in *.
  specialize (Hp1 _ eq_refl).
  destruct (Js.truthy (impactToken (api m1))) eqn:Ht.
  { intros [= <-]. split; [done|]. split.
    - by rewrite (stale_frame (api m0)).
    - intros Hnode. rewrite Ec. split; [by apply Hj0|].
      by destruct (impactToken (api m1)). }
  pose proof (login_exchange_api w m1) as Ha2.
  destruct (login_exchange w m1) as [[e|r] m2]; [done|]. cbn [snd] in *.
  pose proof (read_access_token_path w m2) as Hp3.
  pose proof (read_access_token_eq w m2) as E3.
  destruct (read_access_token w m2) as [[e|[]] m3]; [done|]. cbn [snd] in *.
  intros H. assert (m' = (ensureAxiosConfig w m3).2) as -> by (by rewrite H).
  split; [|split].
  - unfold holds_path in *. by rewrite ensureAxiosConfig_path, Hp3, Ha2.
  - apply stale_ensureAxiosConfig.
  - intros Hnode. split; [by apply ensureAxiosConfig_node|].
    rewrite ensureAxiosConfig_token.
    unfold getNodeCookieJar in E3. rewrite Ha2, Ec in E3.
    destruct (Hj0 Hnode) as [l Hl]. rewrite Hl in E3.
    destruct (getValueFromJarCookies _ _); [done|].
    injection E3 as ->. by eexists.
Qed.

End twice.

(** X6.  [ensureAxiosConfig] rebuilds at most once: run again on the state
    it leaves, it changes nothing. *)
Theorem X6_ensureAxiosConfig_idempotent (w : World) (m : Machine) :
  ensureAxiosConfig w (ensureAxiosConfig w m).2
  = (inr tt, (ensureAxiosConfig w m).2).
Proof.
  rewrite ensureAxiosConfig_settled; [done|].
  apply stale_ensureAxiosConfig.
Qed.

(** X7.  Once a bootstrap has succeeded and left the client with a session
    token, a further bootstrap does nothing at all, and a domain operation
    sends its own request and nothing else. *)
Theorem X7_bootstrap_idempotent (w : World) (m m' : Machine) :
  ensureImpactToken w m = (inr tt, m') →
  holds_token m' →
  ensureImpactToken w m' = (inr tt, m')
  ∧ ∀ op, ∃ req,
      log (call w op m').2
      = log m' ++ [ {| site := DomainRequest; request := req |} ].
Proof.
  intros H Ht. destruct (ensureImpactToken_ok w m m' H) as (Hp & Hs & _).
  assert (ensureImpactToken w m' = (inr tt, m')) as H'.
  { rewrite ensureImpactToken_eq, resolve_path_eq.
    rewrite (ensureAxiosConfig_settled w m' Hs). cbn [snd].
    rewrite ensureJhUserPath_held by done.
    unfold holds_token in Ht. by rewrite Ht. }
  split; [done|]. intros op.
  destruct (call_session_call w op) as (endpoint & -> & _).
  destruct (session_call_state w endpoint m') as [_ Hl]. cbn zeta in Hl.
  rewrite H' in Hl. cbn [fst snd] in Hl.
  destruct Hl as [[[e He] _]|(_ & req & Hl & _)]; [done|]. by exists req.
Qed.

Lemma X7_witness :
  ensureImpactToken node_login
    (ensureImpactToken node_login (started bob)).2
  = (inr tt, (ensureImpactToken node_login (started bob)).2).
Proof.
  apply (X7_bootstrap_idempotent node_login (started bob)).
  - vm_compute. reflexivity.
  - vm_compute. reflexivity.
Defined.

(** X8.  A bootstrap that succeeds leaves the client with a routing path;
    in node it also leaves a cookie jar bound and a session token
    defined. *)
Theorem X8_successful_bootstrap (w : World) (m m' : Machine) :
  ensureImpactToken w m = (inr tt, m') →
  holds_path m'
  ∧ (isNode w = true →
     is_Some (jar (axiosConfig (api m'))) ∧ is_Some (impactToken (api m'))).
Proof.
  intros H. by destruct (ensureImpactToken_ok w m m' H) as (? & _ & ?).
Qed.

Lemma X8_witness :
  holds_path (ensureImpactToken node_login (started bob)).2.
Proof.
  apply (X8_successful_bootstrap node_login (started bob)).
  vm_compute. reflexivity.
Defined.

(** ** The requests of one domain operation *)

Section requests.

Variable w : World.

Lemma ensureJhUserPath_sites m :
  ∃ new, log (ensureJhUserPath w m).2 = log m ++ new
         ∧ site <$> new `sublist_of` [GatewayLookup].
Proof.
  destruct (decide (holds_path m)) as [Hp|Hp].
  { rewrite ensureJhUserPath_held by done. exists []. rewrite app_nil_r.
    split; [done|]. apply sublist_nil_l. }
  rewrite (ensureJhUserPath_lookup w m Hp).
  destruct (gateway_lookup_log w m) as (req & Hl & _).
  exists [ {| site := GatewayLookup; request := req |} ]. split; [|done].
  destruct (gateway_lookup w m) as [[[]|r] m1]; cbn [snd] in Hl |- *; try done.
  destruct (data r) as [d|]; [|done]. by destruct (Js.truthy (server d)).
Qed.

Lemma ensureImpactToken_sites m :
  ∃ new, log (ensureImpactToken w m).2 = log m ++ new
         ∧ site <$> new `sublist_of` [GatewayLookup; LoginExchange].
Proof.
  rewrite ensureImpactToken_eq, resolve_path_eq.
  pose proof (ensureAxiosConfig_log w m) as Hl0.
  remember (ensureAxiosConfig w m).2 as m0 eqn:E0. clear E0.
  destruct (ensureJhUserPath_sites m0) as (n1 & Hl1 & Hs1).
  rewrite Hl0 in Hl1.
  destruct (ensureJhUserPath w m0) as [[e|[]] m1]; cbn [snd] in *.
  { exists n1. split; [done|]. by apply (sublist_inserts_r [LoginExchange]) in Hs1. }
  destruct (Js.truthy (impactToken (api m1))).
  { exists n1. split; [done|]. by apply (sublist_inserts_r [LoginExchange]) in Hs1. }
  pose proof (login_exchange_log w m1) as Hl2.
  set (x := {| site := LoginExchange; request := _ |}) in Hl2.
  assert (site <$> n1 ++ [x] `sublist_of` [GatewayLookup; LoginExchange]) as Hs.
  { rewrite fmap_app. by apply (sublist_app _ [GatewayLookup] _ [LoginExchange]). }
  exists (n1 ++ [x]). split; [|done]. rewrite app_assoc, <- Hl1.
  destruct (login_exchange w m1) as [[e|r] m2]; cbn [snd] in *; [done|].
  pose proof (read_access_token_log w m2) as Hl3.
  destruct (read_access_token w m2) as [[e|[]] m3]; cbn [snd] in *.
  - by rewrite Hl3.
  - by rewrite ensureAxiosConfig_log, Hl3.
Qed.

Lemma call_sites op m :
  ∃ new,
    log (call w op m).2 = log m ++ new
    ∧ site <$> new `sublist_of` [GatewayLookup; LoginExchange; DomainRequest].
Proof.
  destruct (call_session_call w op) as (endpoint & -> & _).
  destruct (session_call_state w endpoint m) as [_ Hl]. cbn zeta in Hl.
  destruct (ensureImpactToken_sites m) as (n & Hn & Hs).
  destruct Hl as [[_ ->]|(_ & req & -> & _)].
  - exists n. split; [done|].
    by apply (sublist_inserts_r [DomainRequest]) in Hs.
  - exists (n ++ [ {| site := DomainRequest; request := req |} ]).
    rewrite Hn, app_assoc. split; [done|]. rewrite fmap_app.
    by apply (sublist_app _ [GatewayLookup; LoginExchange] _ [DomainRequest]).
Qed.

End requests.

(** X9.  A domain operation only adds to the log of what was sent, and it
    adds at most three requests, in this order: the gateway lookup, the login
    exchange, its own request. *)
Theorem X9_at_most_three_requests (w : World) (op : Op) (m : Machine) :
  ∃ new,
    log (call w op m).2 = log m ++ new
    ∧ site <$> new `sublist_of` [GatewayLookup; LoginExchange; DomainRequest].
Proof.
  destruct (call_session_call w op) as (endpoint & -> & _).
  destruct (session_call_state w endpoint m) as [_ Hl]. cbn zeta in Hl.
  destruct (ensureImpactToken_sites w m) as (n & Hn & Hs).
  destruct Hl as [[_ ->]|(_ & req & -> & _)].
  - exists n. split; [done|].
    by apply (sublist_inserts_r [DomainRequest]) in Hs.
  - exists (n ++ [ {| site := DomainRequest; request := req |} ]).
    rewrite Hn, app_assoc. split; [done|]. rewrite fmap_app.
    by apply (sublist_app _ [GatewayLookup; LoginExchange] _ [DomainRequest]).
Qed.

(** ** The token in the jar *)

(** X10.  [getValueFromJarCookies] throws [MissingAccessTokenCookie] exactly
    when no cookie of the list has the name asked for (so also on the empty
    list); otherwise it returns the value of the first cookie of that name,
    whatever comes after it. *)
Theorem X10_first_cookie_of_the_name (k : string) (cookies : list Cookie) :
  (getValueFromJarCookies k cookies = inl missing_access_token_cookie
   ∧ ∀ c, c ∈ cookies → key c ≠ k)
  ∨ (∃ before c after,
       cookies = before ++ c :: after
       ∧ key c = k
       ∧ (∀ c', c' ∈ before → key c' ≠ k)
       ∧ getValueFromJarCookies k cookies = inr (value c)).
Proof.
  induction cookies as [|c cs IH].
  - left. split; [done|]. intros c Hc. by apply not_elem_of_nil in Hc.
  - destruct (decide (key c = k)) as [Hk|Hk].
    + right. exists [], c, cs. repeat split; [done|..].
      * intros c' Hc'. by apply not_elem_of_nil in Hc'.
      * unfold getValueFromJarCookies. cbn. by rewrite bool_decide_eq_true_2.
    + assert (getValueFromJarCookies k (c :: cs) = getValueFromJarCookies k cs)
        as Hstep.
      { unfold getValueFromJarCookies. cbn. by rewrite bool_decide_eq_false_2. }
      destruct IH as [[He Hall]|(before & c' & after & -> & Hc' & Hb & Hv)].
      * left. rewrite Hstep. split; [done|].
        intros c' [->|Hc']%elem_of_cons; [done|by apply Hall].
      * right. exists (c :: before), c', after. rewrite Hstep.
        repeat split; try done.
        intros c'' [->|Hc'']%elem_of_cons; [done|by apply Hb].
Qed.

(** ** The token in the document cookies, entry by entry *)

Module CookieFacts.
Import Js JsFacts.

Lemma append_assoc (a b c : string) : (a +:+ b) +:+ c = a +:+ b +:+ c.
Proof.
  induction a as [|x a IH]; [done|].
  change ((String x a +:+ b) +:+ c) with (String x ((a +:+ b) +:+ c)).
  by rewrite IH.
Qed.

Lemma append_nil_r (a : string) : a +:+ "" = a.
Proof.
  induction a as [|x a IH]; [done|].
  change (String x a +:+ "") with (String x (a +:+ "")). by rewrite IH.
Qed.

Lemma split_from_skip sep k s :
  split_from sep k s = split_from sep 0 (drop_chars k s).
Proof.
  revert k. induction s as [|c s IH]; intros [|k]; try done. apply IH.
Qed.

(** Text without [;] in front of [s] goes onto the first part of [s]. *)
Lemma split_from_clean r u s :
  absent ";" u →
  split_from (String ";" r) 0 (u +:+ s)
  = onto_head u (split_from (String ";" r) 0 s).
Proof.
  intros Hu. induction u as [|c u IH].
  - change ("" +:+ s) with s.
    pose proof (split_from_nonempty (String ";" r) 0 s).
    by destruct (split_from (String ";" r) 0 s).
  - destruct Hu as [Hc Hu].
    change (String c u +:+ s) with (String c (u +:+ s)).
    cbn [split_from starts_with]. rewrite decide_False by done.
    rewrite (IH Hu).
    pose proof (split_from_nonempty (String ";" r) 0 s).
    by destruct (split_from (String ";" r) 0 s).
Qed.

(** A name without [=] followed by [=] starts only with itself. *)
Lemma starts_with_name k n rest :
  absent "=" k → absent "=" n →
  starts_with (k +:+ "=") (n +:+ "=" +:+ rest) = bool_decide (k = n).
Proof.
  revert n. induction k as [|a k IH]; intros [|b n] Hk Hn.
  - done.
  - destruct Hn as [Hb _].
    change ("" +:+ "=") with "=".
    change (String b n +:+ "=" +:+ rest) with (String b (n +:+ "=" +:+ rest)).
    cbn [starts_with]. rewrite decide_False by done. done.
  - destruct Hk as [Ha _].
    change (String a k +:+ "=") with (String a (k +:+ "=")).
    change ("" +:+ "=" +:+ rest) with (String "=" rest).
    cbn [starts_with]. rewrite decide_False by done. done.
  - destruct Hk as [_ Hk], Hn as [_ Hn].
    change (String a k +:+ "=") with (String a (k +:+ "=")).
    change (String b n +:+ "=" +:+ rest) with (String b (n +:+ "=" +:+ rest)).
    cbn [starts_with]. destruct (decide (a = b)) as [->|Hab].
    + rewrite (IH n Hk Hn).
      destruct (decide (k = n)) as [->|Hkn].
      * by rewrite !bool_decide_eq_true_2.
      * rewrite !bool_decide_eq_false_2; [done|congruence|done].
    + rewrite bool_decide_eq_false_2; [done|congruence].
Qed.

Lemma absent_append c a b : absent c a → absent c b → absent c (a +:+ b).
Proof.
  intros Ha Hb. induction a as [|x a IH]; [done|].
  destruct Ha as [Hx Ha].
  change (String x a +:+ b) with (String x (a +:+ b)). by split; [|apply IH].
Qed.

Lemma length_onto_head u parts :
  parts ≠ [] → length (onto_head u parts) = length parts.
Proof. by destruct parts. Qed.

Lemma split_from_char sep c s :
  starts_with sep (String c s) = false →
  split_from sep 0 (String c s)
  = onto_head (String c EmptyString) (split_from sep 0 s).
Proof.
  intros H. cbn [split_from]. rewrite H.
  pose proof (split_from_nonempty sep 0 s).
  by destruct (split_from sep 0 s).
Qed.

(** An entry of another name goes onto the part the scan is in. *)
Lemma split_entry_other k n v rest :
  absent "=" k → absent ";" n → absent "=" n → absent ";" v → n ≠ k →
  split_from (String ";" (String " " (k +:+ "="))) 0
    ("; " +:+ n +:+ "=" +:+ v +:+ rest)
  = onto_head ("; " +:+ n +:+ "=" +:+ v)
      (split_from (String ";" (String " " (k +:+ "="))) 0 rest).
Proof.
  intros Hk Hn Hn' Hv Hne.
  assert ("; " +:+ n +:+ "=" +:+ v +:+ rest
          = String ";" ((" " +:+ n +:+ "=" +:+ v) +:+ rest)) as ->.
  { change ("; " +:+ n +:+ "=" +:+ v +:+ rest)
      with (String ";" (String " " (n +:+ "=" +:+ v +:+ rest))).
    change ((" " +:+ n +:+ "=" +:+ v) +:+ rest)
      with (String " " ((n +:+ "=" +:+ v) +:+ rest)).
    rewrite append_assoc.
    by change (("=" +:+ v) +:+ rest) with ("=" +:+ v +:+ rest). }
  rewrite split_from_char.
  - rewrite split_from_clean.
    + pose proof (split_from_nonempty (String ";" (String " " (k +:+ "="))) 0 rest).
      by destruct (split_from _ 0 rest).
    + change (" " +:+ n +:+ "=" +:+ v) with (String " " (n +:+ String "=" v)).
      split; [done|]. apply absent_append; [done|by split].
  - change ((" " +:+ n +:+ "=" +:+ v) +:+ rest)
      with (String " " ((n +:+ "=" +:+ v) +:+ rest)).
    cbn [starts_with]. rewrite !decide_True by done.
    rewrite append_assoc.
    change (("=" +:+ v) +:+ rest) with ("=" +:+ v +:+ rest).
    rewrite (starts_with_name k n (v +:+ rest) Hk Hn').
    by rewrite bool_decide_eq_false_2 by congruence.
Qed.

(** An entry of the name ends the part the scan is in; its value starts the
    next one. *)
Lemma split_entry_match k v rest :
  absent ";" v →
  split_from (String ";" (String " " (k +:+ "="))) 0 ("; " +:+ k +:+ "=" +:+ v +:+ rest)
  = EmptyString :: onto_head v (split_from (String ";" (String " " (k +:+ "="))) 0 rest).
Proof.
  intros Hv.
  assert ("; " +:+ k +:+ "=" +:+ v +:+ rest = String ";" (String " " (k +:+ "=")) +:+ v +:+ rest) as ->.
  { change (String ";" (String " " (k +:+ "=")) +:+ v +:+ rest)
      with (String ";" (String " " ((k +:+ "=") +:+ v +:+ rest))).
    by rewrite append_assoc. }
  change (String ";" (String " " (k +:+ "=")) +:+ v +:+ rest)
    with (String ";" (String " " (k +:+ "=") +:+ v +:+ rest)).
  cbn [split_from]. 
  assert (starts_with (String ";" (String " " (k +:+ "="))) (String ";" (String " " (k +:+ "=") +:+ v +:+ rest))
          = true) as ->.
  { apply (starts_with_app (String ";" (String " " (k +:+ "="))) (v +:+ rest)). }
  f_equal.
  replace (String.length (String ";" (String " " (k +:+ "="))) - 1)
    with (String.length (String " " (k +:+ "="))) by (cbn; lia).
  by rewrite split_from_skip, drop_chars_app, split_from_clean.
Qed.

Lemma cookie_text_head cs :
  cookie_text cs = EmptyString ∨ ∃ t, cookie_text cs = String ";" t.
Proof. destruct cs as [|c cs]; [by left|right]. by eexists. Qed.

(** What the scan for the name [k] makes of the text of a list of cookies. *)
Lemma split_cookie_text k cs :
  absent "=" k → Forall plain_cookie cs →
  match cookies_named k cs with
  | [] => split_from (String ";" (String " " (k +:+ "="))) 0 (cookie_text cs) = [cookie_text cs]
  | [c] =>
      ∃ pre tail,
        split_from (String ";" (String " " (k +:+ "="))) 0 (cookie_text cs) = [pre; c.2 +:+ tail]
        ∧ (tail = EmptyString ∨ ∃ t, tail = String ";" t)
  | _ => 3 ≤ length (split_from (String ";" (String " " (k +:+ "="))) 0 (cookie_text cs))
  end.
Proof.
  intros Hk Hcs. induction Hcs as [|[n v] cs (Hn & Hn' & Hv) Hcs IH]; [done|].
  cbn [fst snd] in *. unfold cookies_named in *. rewrite filter_cons.
  cbn [cookie_text fst snd].
  pose proof (split_from_nonempty (String ";" (String " " (k +:+ "="))) 0 (cookie_text cs)) as Hne.
  destruct (decide (n = k)) as [->|Hne'].
  - rewrite (split_entry_match k v _ Hv).
    destruct (filter _ cs) as [|c [|c' l]].
    + rewrite IH. exists EmptyString, (cookie_text cs).
      split; [done|apply cookie_text_head].
    + destruct IH as (pre & tail & -> & _). cbn. lia.
    + cbn [length]. rewrite length_onto_head by done. lia.
  - rewrite (split_entry_other k n v _ Hk Hn Hn' Hv Hne').
    destruct (filter _ cs) as [|c [|c' l]].
    + rewrite IH. cbn [onto_head]. f_equal.
      change ("; " +:+ n +:+ "=" +:+ v)
        with (String ";" (String " " (n +:+ "=" +:+ v))).
      change ("; " +:+ n +:+ "=" +:+ v +:+ cookie_text cs)
        with (String ";" (String " " (n +:+ "=" +:+ v +:+ cookie_text cs))).
      change (String ";" (String " " (n +:+ "=" +:+ v)) +:+ cookie_text cs)
        with (String ";" (String " " ((n +:+ "=" +:+ v) +:+ cookie_text cs))).
      rewrite append_assoc.
      by change (("=" +:+ v) +:+ cookie_text cs) with ("=" +:+ v +:+ cookie_text cs).
    + destruct IH as (pre & tail & -> & Htail). by eexists _, tail.
    + by rewrite length_onto_head.
Qed.

Lemma document_cookie_text c cs :
  "; " +:+ document_cookie_of (c :: cs) = cookie_text (c :: cs).
Proof.
  unfold document_cookie_of. revert c. induction cs as [|c' cs IH]; intros c.
  - cbn [fmap list_fmap String.concat cookie_text]. unfold cookie_entry.
    by rewrite (append_nil_r (c.2)).
  - change (String.concat "; " (cookie_entry <$> c :: c' :: cs))
      with (cookie_entry c +:+ "; " +:+ String.concat "; " (cookie_entry <$> c' :: cs)).
    rewrite IH. unfold cookie_entry at 1.
    change (cookie_text (c :: c' :: cs))
      with ("; " +:+ c.1 +:+ ("=" +:+ c.2) +:+ cookie_text (c' :: cs)).
    by rewrite (append_assoc (c.1) ("=" +:+ c.2)).
Qed.

Lemma split_no_cookies k :
  split_from (String ";" (String " " (k +:+ "="))) 0 "; " = ["; "].
Proof.
  assert (starts_with (k +:+ "=") "" = false) as Hk by (by destruct k).
  rewrite split_from_char.
  - rewrite split_from_char; [done|].
    cbn [starts_with]. by rewrite decide_False.
  - cbn [starts_with]. rewrite !decide_True by done. by rewrite Hk.
Qed.

End CookieFacts.

(** X11.  For the [document.cookie] of a list of cookies and a name without
    [=], [getCookieValue] returns the value of the cookie of that name when
    the list holds exactly one, and [undefined] when it holds none or more
    than one. *)
Theorem X11_getCookieValue_of_document_cookie
    (cs : list (string * string)) (k : string) :
  Forall plain_cookie cs →
  Js.absent "=" k →
  getCookieValue (document_cookie_of cs) k
  = match cookies_named k cs with
    | [c] => Some c.2
    | _ => None
    end.
Proof.
  intros Hcs Hk. unfold getCookieValue.
  destruct cs as [|c0 cs].
  { assert (Js.split ("; " +:+ k +:+ "=") ("; " +:+ document_cookie_of [])
            = ["; "]) as -> by apply CookieFacts.split_no_cookies.
    done. }
  change ("; " +:+ k +:+ "=") with (String ";" (String " " (k +:+ "="))).
  unfold Js.split.
  rewrite CookieFacts.document_cookie_text.
  pose proof (CookieFacts.split_cookie_text k (c0 :: cs) Hk Hcs) as H.
  assert (∀ c, c ∈ cookies_named k (c0 :: cs) → plain_cookie c) as Hplain.
  { intros c [_ Hc]%list_elem_of_filter. by apply (proj1 (Forall_forall _ _) Hcs). }
  destruct (cookies_named k (c0 :: cs)) as [|c [|c' l]].
  - by rewrite H.
  - destruct H as (pre & tail & -> & Htail). cbn [length last].
    rewrite decide_True by done. cbn [mbind option_bind].
    destruct (Hplain c) as (_ & _ & Hv); [by left|].
    rewrite (CookieFacts.split_from_clean EmptyString _ _ Hv).
    destruct Htail as [->|[t ->]]; cbn [Js.split_from Js.starts_with];
      rewrite ?decide_True by done; cbn [onto_head head];
      by rewrite CookieFacts.append_nil_r.
  - rewrite decide_False; [done|lia].
Qed.

Lemma X11_witness :
  getCookieValue "theme=dark; access_token=TOK; lang=en" "access_token"
  = Some "TOK".
Proof.
  apply (X11_getCookieValue_of_document_cookie
           [("theme", "dark"); ("access_token", "TOK"); ("lang", "en")]
           "access_token").
  - repeat constructor; discriminate.
  - repeat constructor; discriminate.
Defined.

(** ** What stays fixed, and what every request looks like *)

Section lifetime.

Variable w : World.

Lemma ensureJhUserPath_fixed m :
  let a' := api (ensureJhUserPath w m).2 in
  baseUrl a' = baseUrl (api m) ∧ impactApiKey a' = impactApiKey (api m)
  ∧ jhToken a' = jhToken (api m).
Proof.
  destruct (decide (holds_path m)) as [Hp|Hp].
  { by rewrite ensureJhUserPath_held. }
  rewrite (ensureJhUserPath_lookup w m Hp).
  pose proof (gateway_lookup_api w m) as Ha.
  destruct (gateway_lookup w m) as [[[]|r] m']; cbn in Ha |- *;
    try (destruct (data r) as [d|]; [destruct (Js.truthy (server d))|]); cbn; by rewrite Ha.
Qed.

Lemma read_access_token_fixed m :
  let a' := api (read_access_token w m).2 in
  baseUrl a' = baseUrl (api m) ∧ impactApiKey a' = impactApiKey (api m)
  ∧ jhToken a' = jhToken (api m) ∧ jhUserPath a' = jhUserPath (api m)
  ∧ axios a' = axios (api m) ∧ axiosConfig a' = axiosConfig (api m).
Proof.
  rewrite read_access_token_eq.
  destruct (getNodeCookieJar (api m)); [|done].
  by destruct (getValueFromJarCookies _ _).
Qed.

Lemma ensureImpactToken_fixed m :
  let a' := api (ensureImpactToken w m).2 in
  baseUrl a' = baseUrl (api m) ∧ impactApiKey a' = impactApiKey (api m)
  ∧ jhToken a' = jhToken (api m).
Proof.
  rewrite ensureImpactToken_eq, resolve_path_eq.
  destruct (session_inv _ _ (ensureAxiosConfig_session w m)) as (B0 & K0 & _ & J0 & _).
  remember (ensureAxiosConfig w m).2 as m0 eqn:E0. clear E0.
  destruct (ensureJhUserPath_fixed m0) as (B1 & K1 & J1). cbn zeta in *.
  destruct (ensureJhUserPath w m0) as [[e|[]] m1]; cbn [snd] in *.
  { repeat split; congruence. }
  destruct (Js.truthy (impactToken (api m1))); cbn [snd].
  { repeat split; congruence. }
  pose proof (login_exchange_api w m1) as A2.
  destruct (login_exchange w m1) as [[e|r] m2]; cbn [snd] in *.
  { repeat split; congruence. }
  destruct (read_access_token_fixed m2) as (B3 & K3 & J3 & _). cbn zeta in *.
  destruct (read_access_token w m2) as [[e|[]] m3]; cbn [snd] in *.
  { repeat split; congruence. }
  destruct (session_inv _ _ (ensureAxiosConfig_session w m3)) as (B4 & K4 & _ & J4 & _).
  repeat split; congruence.
Qed.

Lemma call_fixed op m :
  let a' := api (call w op m).2 in
  baseUrl a' = baseUrl (api m) ∧ impactApiKey a' = impactApiKey (api m)
  ∧ jhToken a' = jhToken (api m)
  ∧ (holds_path m → jhUserPath a' = jhUserPath (api m))
  ∧ ∃ new, log (call w op m).2 = log m ++ new.
Proof.
  destruct (call_sites w op m) as (new & Hl & _).
  destruct (call_session_call w op) as (endpoint & E & _).
  destruct (session_call_state w endpoint m) as [Ha _]. cbn zeta in *.
  destruct (ensureImpactToken_fixed m) as (B & K & J). cbn zeta in *.
  rewrite E in *. rewrite Ha. repeat split; try done.
  - intros Hp. rewrite <- Ha, <- E. by apply call_frame.
  - by exists new.
Qed.

End lifetime.

Section well_formed_requests.

Variable w : World.

Lemma well_formed_same a a' x :
  baseUrl a' = baseUrl a → impactApiKey a' = impactApiKey a →
  jhToken a' = jhToken a → jhUserPath a' = jhUserPath a →
  well_formed a x → well_formed a' x.
Proof.
  unfold well_formed, impact_url. by intros -> -> -> ->.
Qed.

(** Before the routing path is known only gateway lookups have been sent,
    and these do not depend on it. *)
Lemma well_formed_resolved a p x :
  Js.truthy (jhUserPath a) = false →
  well_formed a x → well_formed (set_jhUserPath p a) x.
Proof.
  unfold well_formed. intros Hp [Hauth Hx]. split; [done|].
  destruct (site x); [done|..]; destruct Hx as [Hx _]; congruence.
Qed.

Lemma current_gateway_auth m hs :
  current w m → hs !! "Authorization" = None →
  (hs ∪ cfg_headers (defaults (axios (api m)))) !! "Authorization"
  = Some ("token " +:+ jhToken (api m)).
Proof.
  intros [Hi Hh _] Hhs.
  by rewrite lookup_union_r, Hi, Hh, gateway_auth_headers.
Qed.

Lemma gateway_lookup_log_eq m :
  log (gateway_lookup w m).2
  = log m ++ [ {| site := GatewayLookup;
                  request := {|
                    method := GET;
                    url := baseUrl (api m) +:+ "/hub/api/authorizations/token/"
                           +:+ jhToken (api m);
                    body := None;
                    headers := ∅ ∪ cfg_headers (defaults (axios (api m))) |} |} ].
Proof. done. Qed.

Lemma ensureJhUserPath_well_formed m :
  current w m → Forall (well_formed (api m)) (log m) →
  Forall (well_formed (api (ensureJhUserPath w m).2)) (log (ensureJhUserPath w m).2).
Proof.
  intros Hc Hwf.
  destruct (decide (holds_path m)) as [Hp|Hp].
  { by rewrite ensureJhUserPath_held. }
  rewrite (ensureJhUserPath_lookup w m Hp).
  pose proof (gateway_lookup_api w m) as Ha.
  pose proof (gateway_lookup_log_eq m) as Hl.
  assert (Forall (well_formed (api m)) (log (gateway_lookup w m).2)) as Hwf'.
  { rewrite Hl. apply Forall_app. split; [done|]. constructor; [|done].
    split; [|done]. cbn. by apply current_gateway_auth. }
  clear Hl.
  destruct (gateway_lookup w m) as [[[]|r] m']; cbn [snd] in *;
    try (by rewrite Ha).
  destruct (data r) as [d|]; [|cbn [snd]; by rewrite Ha].
  destruct (Js.truthy (server d)); cbn [snd]; [|by rewrite Ha].
  cbn [with_api api log]. rewrite Ha.
  eapply Forall_impl; [exact Hwf'|]. intros x. apply well_formed_resolved.
  unfold holds_path in Hp. by destruct (Js.truthy (jhUserPath (api m))).
Qed.

Lemma ensureImpactToken_well_formed m :
  current w m → Forall (well_formed (api m)) (log m) →
  Forall (well_formed (api (ensureImpactToken w m).2)) (log (ensureImpactToken w m).2).
Proof.
  intros Hc Hwf. rewrite ensureImpactToken_eq, resolve_path_eq.
  assert (Forall (well_formed (api (ensureAxiosConfig w m).2))
            (log (ensureAxiosConfig w m).2)) as Hwf0.
  { rewrite ensureAxiosConfig_log.
    destruct (session_inv _ _ (ensureAxiosConfig_session w m)) as (?&?&?&?&?).
    eapply Forall_impl; [exact Hwf|]. intros x. by apply well_formed_same. }
  apply current_ensureAxiosConfig in Hc.
  remember (ensureAxiosConfig w m).2 as m0 eqn:E0. clear E0 Hwf.
  pose proof (ensureJhUserPath_well_formed m0 Hc Hwf0) as Hwf1.
  pose proof (current_ensureJhUserPath w m0 Hc) as Hc1.
  pose proof (ensureJhUserPath_ok w m0) as Hp1.
  destruct (ensureJhUserPath w m0) as [[e|[]] m1]; cbn [snd] in *; [done|].
  specialize (Hp1 _ eq_refl).
  destruct (Js.truthy (impactToken (api m1))); [done|].
  pose proof (login_exchange_api w m1) as Ha2.
  pose proof (login_exchange_log w m1) as Hl2.
  assert (Forall (well_formed (api m1)) (log (login_exchange w m1).2)) as Hwf2.
  { rewrite Hl2. apply Forall_app. split; [done|]. constructor; [|done].
    split; [cbn; by apply current_gateway_auth|]. by cbn. }
  clear Hl2.
  destruct (login_exchange w m1) as [[e|r] m2]; cbn [snd] in *.
  { by rewrite Ha2. }
  destruct (read_access_token_fixed w m2) as (B3 & K3 & J3 & P3 & _).
  pose proof (read_access_token_log w m2) as Hl3. cbn zeta in *.
  assert (Forall (well_formed (api (read_access_token w m2).2))
            (log (read_access_token w m2).2)) as Hwf3.
  { rewrite Hl3. eapply Forall_impl; [exact Hwf2|]. intros x.
    apply well_formed_same; congruence. }
  destruct (read_access_token w m2) as [[e|[]] m3]; cbn [snd] in *; [done|].
  rewrite ensureAxiosConfig_log.
  destruct (session_inv _ _ (ensureAxiosConfig_session w m3)) as (?&?&?&?&?).
  eapply Forall_impl; [exact Hwf3|]. intros x. by apply well_formed_same.
Qed.

Lemma call_endpoint op :
  ∃ endpoint,
    call w op = session_call w endpoint
    ∧ (∀ a, ep_headers (endpoint a) !! "Authorization" = None)
    ∧ (∀ a, ∃ rest, ep_url (endpoint a) = impact_url a rest).
Proof.
  destruct op; (eexists; split; [reflexivity|]; split; intros a; cbn;
    [done || by apply lookup_singleton_ne|by eexists]).
Qed.

Lemma session_call_log endpoint m m1 :
  ensureImpactToken w m = (inr tt, m1) →
  log (session_call w endpoint m).2
  = log m1 ++ [ {| site := DomainRequest;
                   request := {|
                     method := ep_method (endpoint (api m1));
                     url := ep_url (endpoint (api m1));
                     body := ep_body (endpoint (api m1));
                     headers := ep_headers (endpoint (api m1))
                                ∪ cfg_headers (defaults (axios (api m1))) |} |} ].
Proof.
  unfold session_call. intros ->.
  set (ep := endpoint (api m1)).
  pose proof (axios_request_log w DomainRequest (ep_method ep) (ep_url ep)
                (ep_body ep) (ep_headers ep) m1) as Hl.
  destruct (axios_request w _ _ _ _ _ m1) as [[e|r] m2];
    [|destruct (ep_payload ep r)]; try destruct (ep_catch ep); exact Hl.
Qed.

Lemma call_well_formed op m :
  current w m → Forall (well_formed (api m)) (log m) →
  Forall (well_formed (api (call w op m).2)) (log (call w op m).2).
Proof.
  intros Hc Hwf. destruct (call_endpoint op) as (endpoint & -> & Hauth & Hurl).
  destruct (session_call_state w endpoint m) as [Ha Hl]. cbn zeta in *.
  pose proof (ensureImpactToken_well_formed m Hc Hwf) as Hwf1.
  pose proof (current_ensureImpactToken w m Hc) as Hc1.
  rewrite Ha. destruct Hl as [[_ ->]|(Hok & _)]; [done|].
  pose proof (ensureImpactToken_ok w m (ensureImpactToken w m).2) as Hp.
  pose proof (session_call_log endpoint m (ensureImpactToken w m).2) as Hlog.
  destruct (ensureImpactToken w m) as [r m1]; cbn [fst snd] in *. subst r.
  rewrite (Hlog eq_refl). apply Forall_app. split; [done|].
  constructor; [|done]. split; [cbn; by apply current_gateway_auth|].
  cbn. split; [by apply Hp|apply Hurl].
Qed.

Lemma reachable_well_formed m :
  reachable w m → Forall (well_formed (api m)) (log m).
Proof.
  induction 1 as [args a Ha|op m Hr IH|token m Hr IH].
  - constructor.
  - apply call_well_formed; [by apply reachable_current|done].
  - eapply Forall_impl; [exact IH|]. intros x. by apply well_formed_same.
Qed.

(** ** The instance and its jar *)

Lemma jar_in_use_ensureAxiosConfig m :
  jar_in_use (api m) → jar_in_use (api (ensureAxiosConfig w m).2).
Proof.
  unfold ensureAxiosConfig.
  by repeat match goal with |- context [if ?b then _ else _] => destruct b end.
Qed.

Lemma jar_in_use_frame a a' :
  axios a' = axios a → axiosConfig a' = axiosConfig a →
  jar_in_use a → jar_in_use a'.
Proof. unfold jar_in_use. by intros -> ->. Qed.

Lemma jar_in_use_ensureImpactToken m :
  jar_in_use (api m) → jar_in_use (api (ensureImpactToken w m).2).
Proof.
  intros Hj. rewrite ensureImpactToken_eq, resolve_path_eq.
  apply jar_in_use_ensureAxiosConfig in Hj.
  remember (ensureAxiosConfig w m).2 as m0 eqn:E0. clear E0.
  destruct (ensureJhUserPath_frame w m0) as (_ & A1 & C1 & _). cbn zeta in *.
  apply (jar_in_use_frame _ _ A1 C1) in Hj.
  destruct (ensureJhUserPath w m0) as [[e|[]] m1]; cbn [snd] in *; [done|].
  destruct (Js.truthy (impactToken (api m1))); [done|].
  pose proof (login_exchange_api w m1) as A2.
  destruct (login_exchange w m1) as [[e|r] m2]; cbn [snd] in *.
  { by rewrite A2. }
  destruct (read_access_token_fixed w m2) as (_ & _ & _ & _ & A3 & C3).
  cbn zeta in *.
  destruct (read_access_token w m2) as [[e|[]] m3]; cbn [snd] in *.
  { apply (jar_in_use_frame (api m1)); [by rewrite A3, A2|by rewrite C3, A2|done]. }
  apply jar_in_use_ensureAxiosConfig.
  apply (jar_in_use_frame (api m1)); [by rewrite A3, A2|by rewrite C3, A2|done].
Qed.

Lemma reachable_jar_in_use m : reachable w m → jar_in_use (api m).
Proof.
  induction 1 as [args a Ha|op m Hr IH|token m Hr IH].
  - unfold new_Api in Ha. destruct (negb _); [done|]. by injection Ha as <-.
  - destruct (call_session_call w op) as (endpoint & -> & _).
    destruct (session_call_state w endpoint m) as [Ha _]. cbn zeta in Ha.
    rewrite Ha. by apply jar_in_use_ensureImpactToken.
  - done.
Qed.

End well_formed_requests.

(** X12.  Every request a client has ever sent, whatever it was for, carries
    the gateway credential the client was constructed with, as
    [Authorization: token <jupyterHubToken>]. *)
Theorem X12_every_request_carries_the_gateway_credential (w : World)
    (m : Machine) (x : Sent) :
  reachable w m → x ∈ log m →
  headers (request x) !! "Authorization" = Some ("token " +:+ jhToken (api m)).
Proof.
  intros Hr Hx. pose proof (reachable_well_formed w m Hr) as Hwf.
  rewrite Forall_forall in Hwf. by destruct (Hwf x Hx).
Qed.

Lemma X12_witness :
  Forall (λ x, headers (request x) !! "Authorization" = Some "token tok123")
    (log (call node_login GetWorkspaces (started bob)).2).
Proof.
  apply Forall_forall. intros x Hx.
  apply (X12_every_request_carries_the_gateway_credential node_login
           (call node_login GetWorkspaces (started bob)).2 x); [|exact Hx].
  apply reachable_call.
  apply (reachable_new node_login
           {| arg_impactApiKey := Some "sk_abc"; arg_impactToken := None;
              arg_jupyterHubToken := Some "tok123";
              arg_serverAddress := "https://host";
              arg_jupyterHubUserPath := None |}).
  reflexivity.
Defined.

(** X13.  Every request a client has ever sent went where the fields of the
    client say.  A gateway lookup is a GET, without a body, of
    [<base>/hub/api/authorizations/token/<jupyterHubToken>].  A login
    exchange is a POST of [{secretKey: <impactApiKey>}] to
    [<base><path>impact/api/login].  A domain request goes to a URL that
    starts with [<base><path>impact/api/].  The last two have only been sent
    by a client that holds a routing path, so [<path>] is never the text
    ["undefined"]. *)
Theorem X13_requests_go_where_the_client_says (w : World) (m : Machine)
    (x : Sent) :
  reachable w m → x ∈ log m →
  match site x with
  | GatewayLookup =>
      method (request x) = GET
      ∧ url (request x)
        = baseUrl (api m) +:+ "/hub/api/authorizations/token/"
          +:+ jhToken (api m)
      ∧ body (request x) = None
  | LoginExchange =>
      ∃ p, jhUserPath (api m) = Some p ∧ p ≠ EmptyString
           ∧ method (request x) = POST
           ∧ url (request x) = baseUrl (api m) +:+ p +:+ "impact/api/login"
           ∧ body (request x)
             = Some (JObject [("secretKey",
                               JOptString (impactApiKey (api m)))])
  | DomainRequest =>
      ∃ p rest, jhUserPath (api m) = Some p ∧ p ≠ EmptyString
                ∧ url (request x)
                  = baseUrl (api m) +:+ p +:+ "impact/api/" +:+ rest
  end.
Proof.
  intros Hr Hx. pose proof (reachable_well_formed w m Hr) as Hwf.
  rewrite Forall_forall in Hwf. destruct (Hwf x Hx) as [_ H].
  unfold impact_url in H. destruct (site x); [done|..].
  - destruct H as (Hp & Hm & Hu & Hb).
    destruct (jhUserPath (api m)) as [[|c p]|]; try done.
    exists (String c p). by repeat split.
  - destruct H as (Hp & rest & Hu).
    destruct (jhUserPath (api m)) as [[|c p]|]; try done.
    exists (String c p), rest. by repeat split.
Qed.

Lemma X13_witness :
  Forall (λ x, site x = LoginExchange →
               url (request x) = "https://host/user/bob/impact/api/login")
    (log (call node_login GetWorkspaces (started bob)).2).
Proof.
  apply Forall_forall. intros x Hx Hs.
  assert (reachable node_login (call node_login GetWorkspaces (started bob)).2)
    as Hr.
  { apply reachable_call.
    apply (reachable_new node_login
             {| arg_impactApiKey := Some "sk_abc"; arg_impactToken := None;
                arg_jupyterHubToken := Some "tok123";
                arg_serverAddress := "https://host";
                arg_jupyterHubUserPath := None |}).
    reflexivity. }
  pose proof (X13_requests_go_where_the_client_says node_login _ x Hr Hx) as H.
  rewrite Hs in H. destruct H as (p & Hp & _ & _ & -> & _).
  vm_compute in Hp. injection Hp as <-. reflexivity.
Defined.

(** X14.  Whatever is called on a client afterwards, its base address, its
    application secret and its gateway credential stay what they are, a
    routing path it holds stays what it is, and the log of what it sent only
    grows. *)
Theorem X14_what_stays_fixed (w : World) (m m' : Machine) :
  evolves w m m' →
  baseUrl (api m') = baseUrl (api m)
  ∧ impactApiKey (api m') = impactApiKey (api m)
  ∧ jhToken (api m') = jhToken (api m)
  ∧ (holds_path m → jhUserPath (api m') = jhUserPath (api m))
  ∧ ∃ new, log m' = log m ++ new.
Proof.
  induction 1 as [m|op m m' _ (B & K & J & P & new & L)
                 |token m m' _ (B & K & J & P & new & L)].
  - repeat split. exists []. by rewrite app_nil_r.
  - destruct (call_fixed w op m') as (B' & K' & J' & P' & new' & L').
    cbn zeta in *. repeat split; try congruence.
    + intros Hp. rewrite P'; [by apply P|].
      unfold holds_path in *. by rewrite P.
    + exists (new ++ new'). by rewrite L', L, app_assoc.
  - repeat split; try done. by exists new.
Qed.

Lemma X14_witness :
  jhToken (api (setImpactToken "newtok"
                  (call node_login GetWorkspaces (started bob)).2)) = "tok123".
Proof.
  refine (proj1 (proj2 (proj2 (X14_what_stays_fixed node_login (started bob) _ _)))).
  apply evolves_setImpactToken, evolves_call, evolves_refl.
Defined.

(** X15.  In every state a client goes through, between two calls, its
    axios instance is the one created from [axiosConfig]; its headers are
    the Authorization header of the gateway credential and, exactly when
    the session token is a non-empty string, the Impact-Authorization
    header of that token; the instance stores cookies exactly when a jar is
    bound; and outside node no jar is bound. *)
Theorem X15_transport_follows_the_credentials (w : World) (m : Machine) :
  reachable w m →
  let hs := cfg_headers (defaults (axios (api m))) in
  defaults (axios (api m)) = axiosConfig (api m)
  ∧ hs !! "Authorization" = Some ("token " +:+ jhToken (api m))
  ∧ service_auth hs
    = (if Js.truthy (impactToken (api m))
       then Some ("Bearer " +:+ Js.tmpl (impactToken (api m)))
       else None)
  ∧ (cookie_support (axios (api m)) = true
     ↔ is_Some (jar (axiosConfig (api m))))
  ∧ (isNode w = false → jar (axiosConfig (api m)) = None).
Proof.
  intros Hr hs. destruct (reachable_current w m Hr) as [Hi Hh Hamb].
  pose proof (reachable_jar_in_use w m Hr) as Hj. unfold jar_in_use in Hj.
  subst hs. rewrite Hi, Hh, gateway_auth_headers, service_auth_headers.
  repeat split; try done.
  - rewrite Hj. apply bool_decide_eq_true.
  - rewrite Hj. apply bool_decide_eq_true.
Qed.

Lemma X15_witness :
  service_auth (cfg_headers (defaults (axios (api
    (call node_login GetWorkspaces (started bob)).2)))) = Some "Bearer TOK".
Proof.
  assert (reachable node_login (call node_login GetWorkspaces (started bob)).2)
    as Hr.
  { apply reachable_call.
    apply (reachable_new node_login
             {| arg_impactApiKey := Some "sk_abc"; arg_impactToken := None;
                arg_jupyterHubToken := Some "tok123";
                arg_serverAddress := "https://host";
                arg_jupyterHubUserPath := None |}).
    reflexivity. }
  destruct (X15_transport_follows_the_credentials node_login _ Hr)
    as (_ & _ & -> & _).
  reflexivity.
Defined.

(** ** Acquiring the token *)

Section acquisition.

Variable w : World.

Lemma ensureAxiosConfig_pair m :
  ensureAxiosConfig w m = (inr tt, (ensureAxiosConfig w m).2).
Proof.
  pose proof (ensureAxiosConfig_returns w m).
  destruct (ensureAxiosConfig w m) as [r m']. cbn in *. by subst.
Qed.

Lemma getValueFromJarCookies_first k before c after :
  key c = k → (∀ c', c' ∈ before → key c' ≠ k) →
  getValueFromJarCookies k (before ++ c :: after) = inr (value c).
Proof.
  intros Hc Hb. unfold getValueFromJarCookies.
  induction before as [|c' before IH]; cbn.
  - by rewrite bool_decide_eq_true_2.
  - rewrite bool_decide_eq_false_2 by (apply Hb; left).
    apply IH. intros c'' Hc''. apply Hb. by right.
Qed.

(** The state in which the bootstrap reads the token back: the transport is
    current for a client without token, and a routing path is held. *)
Lemma before_reading m m1 r m2 :
  current w m →
  resolve_path w m = (inr tt, m1) →
  login_exchange w m1 = (inr r, m2) →
  current w m2 ∧ holds_path m2
  ∧ (isNode w = true → is_Some (jar (axiosConfig (api m2))))
  ∧ impactToken (api m2) = impactToken (api m1).
Proof.
  intros Hc Hres Hlogin. rewrite resolve_path_eq in Hres.
  pose proof (login_exchange_api w m1) as Ha. rewrite Hlogin in Ha. cbn in Ha.
  assert (current w m1) as Hc1.
  { apply current_ensureAxiosConfig, current_ensureJhUserPath in Hc.
    by rewrite Hres in Hc. }
  pose proof (ensureJhUserPath_ok w _ _ Hres) as Hp.
  destruct (ensureJhUserPath_frame w (ensureAxiosConfig w m).2) as (_ & _ & E & _).
  cbn zeta in E. rewrite Hres in E. cbn in E.
  repeat split; try (destruct Hc1; by rewrite Ha).
  - unfold holds_path. by rewrite Ha.
  - intros Hnode. rewrite Ha, E. by apply ensureAxiosConfig_node.
Qed.

(** Once a non-empty token has been assigned to a client whose transport
    was current without one, [ensureAxiosConfig] rebuilds the transport
    around it. *)
Lemma ensureAxiosConfig_after_assign m v :
  current w m → Js.truthy (impactToken (api m)) = false →
  v ≠ EmptyString →
  let m' := (ensureAxiosConfig w (with_api (set_impactToken (Some v)) m)).2 in
  bears v m'
  ∧ jar (axiosConfig (api m'))
    = (if isNode w then Some (length (jars m)) else None)
  ∧ jars m' = (if isNode w then jars m ++ [[]] else jars m)
  ∧ log m' = log m.
Proof.
  intros [Hi Hh Hamb] Ht Hv.
  assert (Js.truthy (Some v) = true) as Htr by (by destruct v).
  unfold ensureAxiosConfig. cbn [api with_api impactToken set_impactToken].
  rewrite Htr.
  assert (isConfiguredForImpact (set_impactToken (Some v) (api m)) = false) as ->.
  { rewrite (isConfiguredForImpact_headers _ (impactToken (api m))); done. }
  rewrite orb_true_r. cbn [negb andb].
  destruct (isNode w); unfold bears; cbn.
  - by rewrite service_auth_headers, Htr.
  - unfold service_auth. by rewrite lookup_insert_eq.
Qed.

Lemma ensureImpactToken_login_request m :
  holds_path m → ¬ holds_token m →
  sent_from LoginExchange (log (ensureImpactToken w m).2)
  = sent_from LoginExchange (log m)
    ++ [ {| method := POST;
            url := baseUrl (api m) +:+ Js.tmpl (jhUserPath (api m))
                   +:+ "impact/api/login";
            body := Some (JObject [("secretKey",
                                    JOptString (impactApiKey (api m)))]);
            headers := ∅ ∪ cfg_headers (defaults (axios
                         (api (ensureAxiosConfig w m).2))) |} ].
Proof.
  intros Hp Ht. rewrite ensureImpactToken_eq, resolve_path_eq.
  pose proof (ensureAxiosConfig_log w m) as Hl0.
  destruct (session_inv _ _ (ensureAxiosConfig_session w m))
    as (Eb & Ek & Et & Ej & Ep).
  remember (ensureAxiosConfig w m).2 as m0 eqn:E. clear E.
  rewrite ensureJhUserPath_held by (unfold holds_path; by rewrite Ep).
  unfold holds_token in Ht. rewrite Et.
  destruct (Js.truthy (impactToken (api m))); [done|].
  pose proof (login_exchange_log w m0) as Hl.
  rewrite Eb, Ek, Ep in Hl.
  destruct (login_exchange w m0) as [[e|r] m2]; cbn [snd] in Hl |- *.
  { by rewrite Hl, sent_from_snoc, Hl0. }
  pose proof (read_access_token_log w m2) as Hl3.
  destruct (read_access_token w m2) as [[e|[]] m3]; cbn [snd] in Hl3 |- *;
    by rewrite ?ensureAxiosConfig_log, Hl3, Hl, sent_from_snoc, Hl0.
Qed.

End acquisition.

(** X16.  [setImpactToken("")] takes the session away: the next domain
    operation of a client that holds a routing path sends one login exchange
    again, and that request has no Impact-Authorization header. *)
Theorem X16_empty_token_logs_out (w : World) (op : Op) (m : Machine) :
  holds_path m →
  ∃ hs,
    sent_from LoginExchange (log (call w op (setImpactToken "" m)).2)
    = sent_from LoginExchange (log m)
      ++ [ {| method := POST;
              url := baseUrl (api m) +:+ Js.tmpl (jhUserPath (api m))
                     +:+ "impact/api/login";
              body := Some (JObject [("secretKey",
                                      JOptString (impactApiKey (api m)))]);
              headers := hs |} ]
    ∧ service_auth hs = None.
Proof.
  intros Hp. eexists. split.
  - rewrite call_login. by rewrite ensureImpactToken_login_request.
  - pose proof (current_setImpactToken w "" m) as Hc.
    apply current_ensureAxiosConfig in Hc as [Hi Hh _].
    rewrite map_empty_union, Hi, Hh, service_auth_headers.
    by rewrite ensureAxiosConfig_token.
Qed.

Lemma X16_witness :
  length (sent_from LoginExchange
            (log (call node_login GetWorkspaces
                    (setImpactToken ""
                       (call node_login GetWorkspaces (started alice)).2)).2))
  = 2.
Proof.
  destruct (X16_empty_token_logs_out node_login GetWorkspaces
              (call node_login GetWorkspaces (started alice)).2)
    as (hs & -> & _).
  - reflexivity.
  - reflexivity.
Defined.

(** X17.  In node, when the bootstrap of a client reaches the login
    exchange, the exchange succeeds and the first cookie called
    [access_token] that the jar hands out for the routing-path URL has a
    non-empty value, the bootstrap succeeds: the client holds that value as
    its session token and its axios instance sends it as
    Impact-Authorization.  The transport has been rebuilt for it around a
    new, empty jar; the jar that holds the login cookies is no longer
    bound. *)
Theorem X17_token_from_the_jar (w : World) (m m1 m2 : Machine)
    (r : AxiosResponse) (before after : list Cookie) (c : Cookie) :
  isNode w = true →
  reachable w m →
  resolve_path w m = (inr tt, m1) →
  ¬ holds_token m1 →
  login_exchange w m1 = (inr r, m2) →
  scoped_cookies w m2 = before ++ c :: after →
  key c = "access_token" →
  (∀ c', c' ∈ before → key c' ≠ "access_token") →
  value c ≠ EmptyString →
  ∃ m',
    ensureImpactToken w m = (inr tt, m')
    ∧ bears (value c) m'
    ∧ jar (axiosConfig (api m')) = Some (length (jars m2))
    ∧ jars m' = jars m2 ++ [[]]
    ∧ log m' = log m2.
Proof.
  intros Hnode Hreach Hres Htok Hlogin Hjar Hkey Hfirst Hval.
  apply reachable_current in Hreach.
  destruct (before_reading w m m1 r m2 Hreach Hres Hlogin)
    as (Hc2 & Hp2 & Hj2 & Ht2).
  destruct (Hj2 Hnode) as [l Hl].
  unfold holds_token in Htok.
  destruct (Js.truthy (impactToken (api m1))) eqn:Ht; [done|].
  assert (read_access_token w m2
          = (inr tt, with_api (set_impactToken (Some (value c))) m2)) as Hread.
  { rewrite read_access_token_eq. unfold scoped_cookies in Hjar.
    unfold getNodeCookieJar in *. rewrite Hl in Hjar |- *.
    by rewrite Hjar, (getValueFromJarCookies_first _ _ _ _ Hkey Hfirst). }
  destruct (ensureAxiosConfig_after_assign w m2 (value c) Hc2)
    as ([Hb Hb'] & Hj & Hjs & Hlog); [by rewrite Ht2|done|].
  cbn zeta in *. rewrite Hnode in Hj, Hjs.
  exists (ensureAxiosConfig w (with_api (set_impactToken (Some (value c))) m2)).2.
  split; [|by repeat split].
  rewrite ensureImpactToken_eq, Hres, Ht, Hlogin, Hread.
  apply ensureAxiosConfig_pair.
Qed.

Lemma X17_witness :
  ∃ m',
    ensureImpactToken node_login (started alice) = (inr tt, m')
    ∧ bears "TOK" m'
    ∧ jar (axiosConfig (api m')) = Some 1
    ∧ jars m' = [[access_token_cookie "TOK"]; []]
    ∧ log m' = log (login_exchange node_login
                      (resolve_path node_login (started alice)).2).2.
Proof.
  pose (m1 := (resolve_path node_login (started alice)).2).
  pose (m2 := (login_exchange node_login m1).2).
  apply (X17_token_from_the_jar node_login (started alice) m1 m2
           {| status := 200;
              data := plain_body (Some "/user/bob/");
              set_cookies := [access_token_cookie "TOK"] |}
           [] [] (access_token_cookie "TOK")).
  - reflexivity.
  - apply (reachable_new node_login
             {| arg_impactApiKey := Some "sk_abc"; arg_impactToken := None;
                arg_jupyterHubToken := Some "tok123";
                arg_serverAddress := "https://host";
                arg_jupyterHubUserPath := Some "/user/alice/" |}).
    reflexivity.
  - vm_compute. reflexivity.
  - vm_compute. discriminate.
  - vm_compute. reflexivity.
  - vm_compute. reflexivity.
  - reflexivity.
  - intros c' Hc'. inversion Hc'.
  - discriminate.
Defined.

(** X18.  In a browser, when the bootstrap of a client reaches the login
    exchange, the exchange succeeds and [getCookieValue] finds a non-empty
    [access_token] in the document cookies, the bootstrap succeeds: the
    client holds that value as its session token, its axios instance sends
    it as Impact-Authorization, no jar is bound and nothing more has been
    sent. *)
Theorem X18_token_from_the_document (w : World) (m m1 m2 : Machine)
    (r : AxiosResponse) (v : string) :
  isNode w = false →
  reachable w m →
  resolve_path w m = (inr tt, m1) →
  ¬ holds_token m1 →
  login_exchange w m1 = (inr r, m2) →
  getCookieValue (document_cookie w (log m2)) "access_token" = Some v →
  v ≠ EmptyString →
  ∃ m',
    ensureImpactToken w m = (inr tt, m')
    ∧ bears v m'
    ∧ jar (axiosConfig (api m')) = None
    ∧ jars m' = jars m2
    ∧ log m' = log m2.
Proof.
  intros Hnode Hreach Hres Htok Hlogin Hdoc Hval.
  apply reachable_current in Hreach.
  destruct (before_reading w m m1 r m2 Hreach Hres Hlogin)
    as (Hc2 & Hp2 & _ & Ht2).
  unfold holds_token in Htok.
  destruct (Js.truthy (impactToken (api m1))) eqn:Ht; [done|].
  assert (read_access_token w m2
          = (inr tt, with_api (set_impactToken (Some v)) m2)) as Hread.
  { rewrite read_access_token_eq. unfold getNodeCookieJar.
    destruct Hc2 as [_ _ Hamb]. by rewrite (Hamb Hnode), Hdoc. }
  destruct (ensureAxiosConfig_after_assign w m2 v Hc2)
    as ([Hb Hb'] & Hj & Hjs & Hlog); [by rewrite Ht2|done|].
  cbn zeta in *. rewrite Hnode in Hj, Hjs.
  exists (ensureAxiosConfig w (with_api (set_impactToken (Some v)) m2)).2.
  split; [|by repeat split].
  rewrite ensureImpactToken_eq, Hres, Ht, Hlogin, Hread.
  apply ensureAxiosConfig_pair.
Qed.

Lemma X18_witness :
  ∃ m',
    ensureImpactToken browser_login (started alice) = (inr tt, m')
    ∧ bears "TOK" m'
    ∧ jar (axiosConfig (api m')) = None
    ∧ jars m' = []
    ∧ log m' = log (login_exchange browser_login
                      (resolve_path browser_login (started alice)).2).2.
Proof.
  pose (m1 := (resolve_path browser_login (started alice)).2).
  pose (m2 := (login_exchange browser_login m1).2).
  apply (X18_token_from_the_document browser_login (started alice) m1 m2
           {| status := 200;
              data := plain_body (Some "/user/bob/");
              set_cookies := [] |} "TOK").
  - reflexivity.
  - apply (reachable_new browser_login
             {| arg_impactApiKey := Some "sk_abc"; arg_impactToken := None;
                arg_jupyterHubToken := Some "tok123";
                arg_serverAddress := "https://host";
                arg_jupyterHubUserPath := Some "/user/alice/" |}).
    reflexivity.
  - vm_compute. reflexivity.
  - vm_compute. discriminate.
  - vm_compute. reflexivity.
  - vm_compute. reflexivity.
  - discriminate.
Defined.

(** ** The jar the login goes through *)

Section jar_store.

Variable w : World.

Lemma jar_valid_ensureAxiosConfig m :
  jar_valid m → jar_valid (ensureAxiosConfig w m).2.
Proof.
  unfold jar_valid, ensureAxiosConfig. intros Hv.
  repeat match goal with |- context [if ?b then _ else _] => destruct b end;
    cbn; try done.
  intros l [= <-]. rewrite length_app. cbn. lia.
Qed.

Lemma axios_request_jars_length s mth u b hs m :
  length (jars (axios_request w s mth u b hs m).2) = length (jars m).
Proof.
  unfold axios_request. cbn.
  destruct (cookie_support _); [|done].
  destruct (jar _); [|done]. apply length_alter.
Qed.

Lemma jar_valid_ensureJhUserPath m :
  jar_valid m → jar_valid (ensureJhUserPath w m).2.
Proof.
  intros Hv. destruct (decide (holds_path m)) as [Hp|Hp].
  { by rewrite ensureJhUserPath_held. }
  rewrite (ensureJhUserPath_lookup w m Hp).
  pose proof (gateway_lookup_api w m) as Ha.
  pose proof (axios_request_jars_length GatewayLookup GET
                (baseUrl (api m) +:+ "/hub/api/authorizations/token/"
                 +:+ jhToken (api m)) None ∅ m) as Hn.
  change (axios_request w _ _ _ _ _ m) with (gateway_lookup w m) in Hn.
  assert (jar_valid (gateway_lookup w m).2) as Hv'.
  { unfold jar_valid. rewrite Ha, Hn. apply Hv. }
  destruct (gateway_lookup w m) as [[[]|r] m']; cbn [snd] in *; try done.
  destruct (data r) as [d|]; [|done]. by destruct (Js.truthy (server d)).
Qed.

Lemma jar_valid_ensureImpactToken m :
  jar_valid m → jar_valid (ensureImpactToken w m).2.
Proof.
  intros Hv. rewrite ensureImpactToken_eq, resolve_path_eq.
  apply jar_valid_ensureAxiosConfig, jar_valid_ensureJhUserPath in Hv.
  destruct (ensureJhUserPath w (ensureAxiosConfig w m).2) as [[e|[]] m1];
    cbn [snd] in *; [done|].
  destruct (Js.truthy (impactToken (api m1))); [done|].
  pose proof (login_exchange_api w m1) as Ha.
  pose proof (axios_request_jars_length LoginExchange POST
                (baseUrl (api m1) +:+ Js.tmpl (jhUserPath (api m1))
                 +:+ "impact/api/login")
                (Some (JObject [("secretKey", JOptString (impactApiKey (api m1)))]))
                ∅ m1) as Hn.
  change (axios_request w _ _ _ _ _ m1) with (login_exchange w m1) in Hn.
  assert (jar_valid (login_exchange w m1).2) as Hv2.
  { unfold jar_valid. rewrite Ha, Hn. apply Hv. }
  destruct (login_exchange w m1) as [[e|r] m2]; cbn [snd] in *; [done|].
  assert (jar_valid (read_access_token w m2).2) as Hv3.
  { rewrite read_access_token_eq. destruct (getNodeCookieJar (api m2)); [|done].
    by destruct (getValueFromJarCookies _ _). }
  destruct (read_access_token w m2) as [[e|[]] m3]; cbn [snd] in *; [done|].
  by apply jar_valid_ensureAxiosConfig.
Qed.

Lemma reachable_jar_valid m : reachable w m → jar_valid m.
Proof.
  induction 1 as [args a Ha|op m Hr IH|token m Hr IH].
  - unfold new_Api in Ha. destruct (negb _); [done|]. by injection Ha as <-.
  - destruct (call_session_call w op) as (endpoint & -> & _).
    unfold session_call.
    apply jar_valid_ensureImpactToken in IH.
    destruct (ensureImpactToken w m) as [[e|[]] m1]; cbn [snd] in *; [done|].
    set (ep := endpoint (api m1)).
    pose proof (axios_request_api w DomainRequest (ep_method ep) (ep_url ep)
                  (ep_body ep) (ep_headers ep) m1) as Ha.
    pose proof (axios_request_jars_length DomainRequest (ep_method ep) (ep_url ep)
                  (ep_body ep) (ep_headers ep) m1) as Hn.
    assert (jar_valid (axios_request w DomainRequest (ep_method ep) (ep_url ep)
                         (ep_body ep) (ep_headers ep) m1).2) as Hv.
    { unfold jar_valid. rewrite Ha, Hn. apply IH. }
    destruct (axios_request w _ _ _ _ _ m1) as [[e|r] m2];
      [|destruct (ep_payload ep r)]; by try destruct (ep_catch ep).
  - done.
Qed.

Lemma login_exchange_jars m r m' :
  login_exchange w m = (inr r, m') →
  jars m'
  = match cookie_support (axios (api m)), jar (defaults (axios (api m))) with
    | true, Some l =>
        alter (λ held, jar_setCookies w held
                         (baseUrl (api m) +:+ Js.tmpl (jhUserPath (api m))
                          +:+ "impact/api/login") (set_cookies r))
              l (jars m)
    | _, _ => jars m
    end.
Proof.
  unfold login_exchange, axios_request. async. cbv zeta.
  destruct (transport w _ _) as [ae|r'] eqn:E; [done|].
  by intros [= <- <-].
Qed.

End jar_store.

(** X19.  In node, the cookies among which the bootstrap looks for the
    token are those of the login response: the jar that is bound when the
    login exchange is sent receives the cookies the response sets, and it is
    this jar that is then asked for the cookies of the routing-path URL. *)
Theorem X19_login_cookies_reach_the_jar (w : World) (m m1 m2 : Machine)
    (r : AxiosResponse) :
  isNode w = true →
  reachable w m →
  resolve_path w m = (inr tt, m1) →
  login_exchange w m1 = (inr r, m2) →
  ∃ l held,
    jar (axiosConfig (api m1)) = Some l
    ∧ jars m1 !! l = Some held
    ∧ scoped_cookies w m2
      = jar_getCookies w
          (jar_setCookies w held
             (baseUrl (api m1) +:+ Js.tmpl (jhUserPath (api m1))
              +:+ "impact/api/login")
             (set_cookies r))
          (baseUrl (api m1) +:+ Js.tmpl (jhUserPath (api m1))).
Proof.
  intros Hnode Hreach Hres Hlogin.
  pose proof (reachable_current w m Hreach) as Hc.
  pose proof (reachable_jar_in_use w m Hreach) as Hu.
  pose proof (reachable_jar_valid w m Hreach) as Hv.
  rewrite resolve_path_eq in Hres.
  apply (current_ensureAxiosConfig w), (current_ensureJhUserPath w) in Hc.
  apply (jar_valid_ensureAxiosConfig w), (jar_valid_ensureJhUserPath w) in Hv.
  apply (jar_in_use_ensureAxiosConfig w) in Hu.
  destruct (ensureJhUserPath_frame w (ensureAxiosConfig w m).2) as (_ & A & C & _).
  cbn zeta in *. apply (jar_in_use_frame _ _ A C) in Hu.
  destruct (ensureAxiosConfig_node w m Hnode) as [l Hl]. rewrite <- C in Hl.
  rewrite Hres in Hc, Hv, Hu, Hl. cbn [snd] in *.
  destruct (lookup_lt_is_Some_2 (jars m1) l (Hv l Hl)) as [held Hheld].
  exists l, held. split; [done|]. split; [done|].
  pose proof (login_exchange_api w m1) as Ha. rewrite Hlogin in Ha. cbn in Ha.
  unfold scoped_cookies, getNodeCookieJar. rewrite Ha, Hl.
  destruct Hc as [Hi _ _]. unfold jar_in_use in Hu.
  rewrite (login_exchange_jars w m1 r m2 Hlogin), Hu, Hi, Hl.
  rewrite bool_decide_eq_true_2 by done.
  by rewrite list_lookup_alter_eq, Hheld.
Qed.

Lemma X19_witness :
  ∃ l held,
    jar (axiosConfig (api (resolve_path node_login (started alice)).2)) = Some l
    ∧ jars (resolve_path node_login (started alice)).2 !! l = Some held
    ∧ scoped_cookies node_login
        (login_exchange node_login
           (resolve_path node_login (started alice)).2).2
      = held ++ [access_token_cookie "TOK"].
Proof.
  apply (X19_login_cookies_reach_the_jar node_login (started alice)
           (resolve_path node_login (started alice)).2
           (login_exchange node_login
              (resolve_path node_login (started alice)).2).2
           {| status := 200;
              data := plain_body (Some "/user/bob/");
              set_cookies := [access_token_cookie "TOK"] |}).
  - reflexivity.
  - apply (reachable_new node_login
             {| arg_impactApiKey := Some "sk_abc"; arg_impactToken := None;
                arg_jupyterHubToken := Some "tok123";
                arg_serverAddress := "https://host";
                arg_jupyterHubUserPath := Some "/user/alice/" |}).
    reflexivity.
  - vm_compute. reflexivity.
  - vm_compute. reflexivity.
Defined.

(** ** A client without a routing path *)

Section unresolved.

Variable w : World.

Lemma ensureJhUserPath_asks m :
  ¬ holds_path m →
  ∃ req,
    sent_from GatewayLookup (log (ensureJhUserPath w m).2)
    = sent_from GatewayLookup (log m) ++ [req]
    ∧ ((ensureJhUserPath w m).1 = inr tt ∨ ∃ e, (ensureJhUserPath w m).1 = inl e).
Proof.
  intros Hp. rewrite (ensureJhUserPath_lookup w m Hp).
  destruct (gateway_lookup_log w m) as (req & Hl & _). exists req.
  destruct (gateway_lookup w m) as [[[]|r] m']; cbn [fst snd] in *;
    try (rewrite Hl, sent_from_snoc; split; [done|right; by eexists]).
  destruct (data r) as [d|];
    [|cbn [fst snd]; rewrite Hl, sent_from_snoc; split; [done|right; by eexists]].
  destruct (Js.truthy (server d)); cbn [fst snd with_api log];
    rewrite Hl, sent_from_snoc; (split; [done|]); [by left|right; by eexists].
Qed.

End unresolved.

(** X20.  A client that holds no routing path asks the gateway on every
    call: each domain operation sends exactly one gateway lookup, and after
    it the client holds a routing path or the operation was rejected.  A
    failed resolution is not remembered. *)
Theorem X20_path_resolution_is_retried (w : World) (op : Op) (m : Machine) :
  ¬ holds_path m →
  let m' := (call w op m).2 in
  (∃ req, sent_from GatewayLookup (log m')
          = sent_from GatewayLookup (log m) ++ [req])
  ∧ (holds_path m' ∨ ∃ e, (call w op m).1 = Rejected e).
Proof.
  intros Hp.
  destruct (call_session_call w op) as (endpoint & -> & _).
  destruct (session_call_state w endpoint m) as [Ha Hl].
  assert (¬ holds_path (ensureAxiosConfig w m).2) as Hp0.
  { unfold holds_path. by rewrite ensureAxiosConfig_path. }
  destruct (ensureJhUserPath_asks w _ Hp0) as (req & Hask & Hres).
  rewrite ensureAxiosConfig_log in Hask.
  pose proof (ensureImpactToken_ok w m) as Hok.
  assert (sent_from GatewayLookup (log (ensureImpactToken w m).2)
          = sent_from GatewayLookup (log m) ++ [req]) as Hgl.
  { rewrite ensureImpactToken_eq, resolve_path_eq.
    destruct (ensureJhUserPath w (ensureAxiosConfig w m).2) as [[e|[]] m1];
      cbn [snd] in *; [done|].
    destruct (acquire_token_frame w m1) as (_ & H & _). cbn zeta in H.
    by rewrite H. }
  cbn zeta in *. split.
  - exists req. destruct Hl as [[_ ->]|(_ & r & -> & _)]; [done|].
    by rewrite sent_from_snoc, app_nil_r.
  - pose proof (session_call_bootstrap_fails w endpoint m) as Hfail.
    destruct (ensureImpactToken w m) as [[e|[]] m1] eqn:E; cbn [fst snd] in *.
    + right. rewrite (Hfail e m1 eq_refl). by eexists.
    + left. destruct (Hok m1 eq_refl) as (Hp1 & _).
      unfold holds_path in *. by rewrite Ha.
Qed.

Lemma X20_witness :
  length (sent_from GatewayLookup
            (log (calls node_401 [GetWorkspaces; GetWorkspaces] (started bob)).2))
  = 2.
Proof.
  pose (m1 := (call node_401 GetWorkspaces (started bob)).2).
  destruct (X20_path_resolution_is_retried node_401 GetWorkspaces (started bob))
    as [[req1 H1] _]; [vm_compute; discriminate|].
  destruct (X20_path_resolution_is_retried node_401 GetWorkspaces m1)
    as [[req2 H2] _]; [vm_compute; discriminate|].
  change (calls node_401 [GetWorkspaces; GetWorkspaces] (started bob)).2
    with (call node_401 GetWorkspaces m1).2.
  cbn zeta in H2. rewrite H2. unfold m1. cbn zeta in H1. rewrite H1.
  reflexivity.
Defined.

(** ** The answers of the gateway lookup *)

(** X21.  For a client that holds no routing path, the bootstrap sends the
    gateway lookup, and what follows is decided by its answer.  No login
    exchange is sent before the answer.  An answer whose body has no
    [server] member, or an empty one, makes the bootstrap and any domain
    operation reject with [ServerNotStarted].  An answer without a body
    makes them reject with the [TypeError] of the destructuring.  A failure
    at the transport level makes them reject with [JhTokenError], carrying
    the status of the response if there is one.  An answer with a non-empty
    [server] member is the only one after which the path resolution
    returns: that member is then the routing path. *)
Theorem X21_answers_of_the_lookup (w : World) (m : Machine) :
  ¬ holds_path m →
  let m0 := (ensureAxiosConfig w m).2 in
  let answer := (gateway_lookup w m0).1 in
  let m1 := (gateway_lookup w m0).2 in
  sent_from LoginExchange (log m1) = sent_from LoginExchange (log m)
  ∧ (∀ r d, answer = inr r → data r = Some d → Js.truthy (server d) = false →
       ensureImpactToken w m = (inl server_not_started, m1)
       ∧ ∀ op, call w op m = (Rejected server_not_started, m1))
  ∧ (∀ r, answer = inr r → data r = None →
       ensureImpactToken w m = (inl type_error, m1)
       ∧ ∀ op, call w op m = (Rejected type_error, m1))
  ∧ (∀ e, answer = inl (ThrownAxios e) →
       ensureImpactToken w m
       = (inl (jh_token_error (err_status <$> response e)), m1)
       ∧ ∀ op, call w op m
               = (Rejected (jh_token_error (err_status <$> response e)), m1))
  ∧ (∀ r d, answer = inr r → data r = Some d → Js.truthy (server d) = true →
       resolve_path w m = (inr tt, with_api (set_jhUserPath (server d)) m1)).
Proof.
  intros Hp m0 answer m1.
  assert (¬ holds_path m0) as Hp0.
  { unfold holds_path, m0. by rewrite ensureAxiosConfig_path. }
  assert (∀ e, toApiError e = e → ensureImpactToken w m = (inl e, m1) →
          ∀ op, call w op m = (Rejected e, m1)) as Hcall.
  { intros e Hcl He op. rewrite (call_on_bootstrap_failure w op m m1 e He).
    by rewrite Hcl. }
  assert (∀ e, resolve_path w m = (inl e, m1) →
          ensureImpactToken w m = (inl e, m1)) as Hboot.
  { intros e He. by rewrite ensureImpactToken_eq, He. }
  assert (resolve_path w m
          = match answer with
            | inr r =>
                match data r with
                | None => (inl type_error, m1)
                | Some d =>
                    if Js.truthy (server d)
                    then (inr tt, with_api (set_jhUserPath (server d)) m1)
                    else (inl server_not_started, m1)
                end
            | inl (ThrownAxios ae) =>
                (inl (jh_token_error (err_status <$> response ae)), m1)
            | inl e => (inl e, m1)
            end) as Hres.
  { rewrite resolve_path_eq. fold m0.
    rewrite (ensureJhUserPath_lookup w m0 Hp0).
    subst answer m1. by destruct (gateway_lookup w m0) as [[[]|r] m']. }
  split; [|split; [|split; [|split]]].
  - destruct (gateway_lookup_log w m0) as (req & Hl & _). fold m1 in Hl.
    rewrite Hl, sent_from_snoc, app_nil_r. unfold m0.
    by rewrite ensureAxiosConfig_log.
  - intros r d Hr Hd Hs. rewrite Hr, Hd, Hs in Hres.
    split; [by apply Hboot|apply Hcall; [done|by apply Hboot]].
  - intros r Hr Hd. rewrite Hr, Hd in Hres.
    split; [by apply Hboot|apply Hcall; [done|by apply Hboot]].
  - intros e He. rewrite He in Hres.
    split; [by apply Hboot|apply Hcall; [done|by apply Hboot]].
  - intros r d Hr Hd Hs. by rewrite Hr, Hd, Hs in Hres.
Qed.

(** A gateway that answers 401 to the lookup, one that answers [{}], and one
    that answers [null]. *)
Lemma X21_witness :
  ¬ holds_path (started bob)
  ∧ (ensureImpactToken node_401 (started bob)).1
    = inl (jh_token_error (Some 401%Z))
  ∧ (ensureImpactToken node_silent (started bob)).1 = inl server_not_started
  ∧ (ensureImpactToken node_null (started bob)).1 = inl type_error
  ∧ sent_from LoginExchange (log (ensureImpactToken node_silent (started bob)).2)
    = [].
Proof.
  assert (¬ holds_path (started bob)) as Hp by (vm_compute; discriminate).
  split; [exact Hp|].
  destruct (X21_answers_of_the_lookup node_401 (started bob) Hp)
    as (_ & _ & _ & H & _).
  destruct (H {| response := Some {| err_status := 401; err_error := None;
                                      err_cookies := [] |} |} eq_refl) as [-> _].
  split; [reflexivity|].
  destruct (X21_answers_of_the_lookup node_silent (started bob) Hp)
    as (Hl & H' & _).
  destruct (H' {| status := 200; data := plain_body None; set_cookies := [] |}
              {| server := None; has_data := false; document := "{}" |}
              eq_refl eq_refl eq_refl) as [-> _].
  split; [reflexivity|].
  destruct (X21_answers_of_the_lookup node_null (started bob) Hp)
    as (_ & _ & H'' & _).
  destruct (H'' {| status := 200; data := None; set_cookies := [] |}
              eq_refl eq_refl) as [-> _].
  split; [reflexivity|exact Hl].
Defined.

(** ** Answers the callbacks cannot read *)

(** X22.  When the bootstrap succeeds and the request of the operation is
    answered without a body, the operations divide by how their callback
    reads the answer.  Those that do not read it, read it as a whole or
    read it with optional accesses resolve, with [undefined] where they
    look for a member.  [createExperiment], [createWorkspace],
    [getCustomFunctions] and [getCaseTrajectories] read a member of the
    missing body: the [TypeError] reaches the [catch] of the request and
    the promise rejects with it.  [getExperimentTrajectories] reads
    the same member and has no such [catch]: its promise stays pending. *)
Theorem X22_answers_without_a_body (w : World) (op : Op) (m m1 : Machine)
    (r : AxiosResponse) :
  ensureImpactToken w m = (inr tt, m1) →
  (∀ req, transport w (log m1) req = inr r) →
  data r = None →
  (call w op m).1
  = match op with
    | GetExperimentTrajectories _ _ _ => Pending
    | CreateExperiment _ _ | CreateWorkspace _ _
    | GetCustomFunctions _ | GetCaseTrajectories _ _ _ _ => Rejected type_error
    | CancelExperiment _ _ | DeleteWorkspace _ | RunExperiment _ _ _ =>
        Resolved Void
    | GetExperiment e ws => Resolved (NewExperiment e ws)
    | GetWorkspaces | GetCases _ _ => Resolved (Member ["data"; "items"] None)
    | GetWorkSpacesID _ => Resolved (Member ["definition"] None)
    | _ => Resolved (Member [] None)
    end.
Proof.
  intros Hboot Hall Hd.
  destruct op; unfold call, getWorkspaces, getWorkSpacesID, getWorkspaceProjects,
    getWorkspaceProjectExperiments, getExperimentsMetaData, getVariables,
    createExperiment, cancelExperiment, createWorkspace, deleteWorkspace,
    runExperiment, getExecutionStatus, getCustomFunctions, getExperiment,
    getCases, getExperimentTrajectories, getCaseLog, getCaseTrajectories,
    session_call; rewrite Hboot; unfold axios_request; cbv zeta;
    rewrite Hall; cbn [ep_payload get_endpoint ep_catch fst];
    unfold optional, member, data_items; rewrite ?Hd; reflexivity.
Qed.

Lemma X22_witness :
  (call node_null (GetCaseTrajectories "c1" "e1" ["x"] "ws1")
     (started alice_with_token)).1 = Rejected type_error
  ∧ (call node_null (GetExperimentTrajectories "e1" ["x"] "ws1")
       (started alice_with_token)).1 = Pending.
Proof.
  split.
  - apply (X22_answers_without_a_body node_null
             (GetCaseTrajectories "c1" "e1" ["x"] "ws1")
             (started alice_with_token)
             (ensureImpactToken node_null (started alice_with_token)).2
             {| status := 200; data := None; set_cookies := [] |});
      [vm_compute; reflexivity|reflexivity|reflexivity].
  - apply (X22_answers_without_a_body node_null
             (GetExperimentTrajectories "e1" ["x"] "ws1")
             (started alice_with_token)
             (ensureImpactToken node_null (started alice_with_token)).2
             {| status := 200; data := None; set_cookies := [] |});
      [vm_compute; reflexivity|reflexivity|reflexivity].
Defined.
